(** * SEO Toolkit: the scoring helpers and the local persistence store

    A shallow embedding of [app/utils/seo-helpers.ts] and
    [app/utils/storage.client.ts].

    - JavaScript numbers are IEEE 754 binary64 values: Rocq's primitive
      [float], which computes with the same rounding.
    - JavaScript strings are [string]; a character stands for the UTF-16 code
      unit of the same number, so the strings covered are the Latin-1 ones.
    - Values of type [any] are trees of type [JS.value].
    - Code that can throw returns a [JS.completion]; code that reads or writes
      the browser runs in the state-and-exception monad [Browser.js]. *)

From Stdlib Require Import ZArith Floats Strings.String Strings.Ascii Bool Lia.
From Stdlib Require Import DecimalString.
From stdpp Require Import base option list.

Set Warnings "-inexact-float,-register-all".
Set Default Proof Using "Type".

(** ** The JavaScript built-ins the two modules call *)

Module JS.

(** *** Numbers *)

(** [Number(n)] for a non-negative integer such as a length or a count. *)
Definition of_nat (n : nat) : float :=
  SF2Prim (binary_normalize prec emax (Z.of_nat n) 0 false).

(** [Math.round]: the closest integer, ties towards [+Infinity]; [NaN], the
    infinities and the zeros are returned as they are, and a result that
    rounds to zero keeps the sign of the argument. The integer is computed
    exactly from mantissa and exponent. *)
Definition Math_round (x : float) : float :=
  match Prim2SF x with
  | S754_finite s m e =>
      if (0 <=? e)%Z then x
      else
        let M := if s then Z.neg m else Z.pos m in
        let n := Z.shiftr (M + Z.shiftl 1 (- e - 1)) (- e) in
        match n with
        | Z0 => if s then PrimFloat.neg_zero else PrimFloat.zero
        | Z.pos p => SF2Prim (binary_normalize prec emax n 0 false)
        | Z.neg p => SF2Prim (binary_normalize prec emax n 0 false)
        end
  | _ => x
  end.

Definition is_neg_zero (x : float) : bool :=
  match Prim2SF x with S754_zero true => true | _ => false end.

(** [Math.min(a, b)] and [Math.max(a, b)]: [NaN] if either is [NaN], and
    [-0] counts as smaller than [+0]. *)
Definition Math_min (a b : float) : float :=
  if is_nan a || is_nan b then nan
  else if (a <? b)%float then a
  else if (b <? a)%float then b
  else if is_neg_zero a then a else b.

Definition Math_max (a b : float) : float :=
  if is_nan a || is_nan b then nan
  else if (a <? b)%float then b
  else if (b <? a)%float then a
  else if is_neg_zero a then b else a.

(** *** Strings *)

Local Open Scope string_scope.

(** The characters [\s] matches, which are also the ones [trim] strips:
    tab, line feed, vertical tab, form feed, carriage return, space and the
    no-break space. *)
Definition isWhiteSpace (c : ascii) : bool :=
  let n := nat_of_ascii c in
  ((9 <=? n) && (n <=? 13) || (n =? 32) || (n =? 160))%nat.

Definition isLineFeed (c : ascii) : bool := (nat_of_ascii c =? 10)%nat.

(** The characters of the class [[.!?]]. *)
Definition isTerminator (c : ascii) : bool :=
  let n := nat_of_ascii c in
  ((n =? 46) || (n =? 33) || (n =? 63))%nat.

(** [toLowerCase] on one code unit: [A]-[Z], and the Latin-1 capitals
    [U+00C0]-[U+00DE] but for the multiplication sign [U+00D7]. *)
Definition lowerChar (c : ascii) : ascii :=
  let n := nat_of_ascii c in
  if ((65 <=? n) && (n <=? 90) || (192 <=? n) && (n <=? 222) && negb (n =? 215))%nat
  then ascii_of_nat (n + 32)
  else c.

Fixpoint toLowerCase (s : string) : string :=
  match s with
  | "" => ""
  | String c s' => String (lowerChar c) (toLowerCase s')
  end.

(** [s.startsWith(k)] *)
Fixpoint startsWith (s k : string) : bool :=
  match k, s with
  | "", _ => true
  | String _ _, "" => false
  | String b k', String a s' => Ascii.eqb a b && startsWith s' k'
  end.

(** [s.includes(k)] *)
Fixpoint includes (s k : string) : bool :=
  startsWith s k ||
  match s with
  | "" => false
  | String _ s' => includes s' k
  end.

(** [s.repeat(n)] *)
Fixpoint String_repeat (s : string) (n : nat) : string :=
  match n with
  | O => ""
  | S n' => s ++ String_repeat s n'
  end.

(** [s.substring(n)] *)
Fixpoint skip (n : nat) (s : string) : string :=
  match n, s with
  | O, _ => s
  | S _, "" => ""
  | S n', String _ s' => skip n' s'
  end.

(** The first position at or after [pos] where [k] starts, [s] being the
    text from [pos] on; [-1] when there is none. *)
Fixpoint search (s k : string) (pos : Z) : Z :=
  if startsWith s k then pos
  else match s with
       | "" => (-1)%Z
       | String _ s' => search s' k (pos + 1)
       end.

(** [s.indexOf(k, from)]: [from] is clamped to [0 .. s.length]. *)
Definition indexOf (s k : string) (from : Z) : Z :=
  let start := Z.to_nat (Z.min (Z.max from 0) (Z.of_nat (String.length s))) in
  search (skip start s) k (Z.of_nat start).

(** [s.split(/[C]+/)] for a character class [C]: the pieces between the
    maximal runs of separator characters, empty pieces at both ends
    included. [inRun] says that the previous character was a separator. *)
Fixpoint splitRuns (sep : ascii -> bool) (s : string) (inRun : bool) : list string :=
  match s with
  | "" => [""]
  | String c s' =>
      if sep c then
        if inRun then splitRuns sep s' true else "" :: splitRuns sep s' true
      else
        match splitRuns sep s' false with
        | piece :: rest => String c piece :: rest
        | [] => [String c ""]
        end
  end.

(** [.filter(Boolean)] on strings: the empty string is the falsy one. *)
Definition truthy (s : string) : bool := negb (String.eqb s "").

(** [s.split(/\s+/).filter(Boolean)] *)
Definition words (s : string) : list string :=
  List.filter truthy (splitRuns isWhiteSpace s false).

(** [s.trim()] *)
Fixpoint trimStart (s : string) : string :=
  match s with
  | String c s' => if isWhiteSpace c then trimStart s' else s
  | "" => ""
  end.

Fixpoint trimEnd (s : string) : string :=
  match s with
  | "" => ""
  | String c s' =>
      match trimEnd s' with
      | "" => if isWhiteSpace c then "" else String c ""
      | t => String c t
      end
  end.

Definition trim (s : string) : string := trimEnd (trimStart s).

(** The regular expression [\s*\n] matched greedily at the start of [s]:
    what is left after the match that takes the longest run of white space,
    if there is a match. *)
Fixpoint afterBlank (s : string) : option string :=
  match s with
  | "" => None
  | String c s' =>
      if isWhiteSpace c then
        match afterBlank s' with
        | Some r => Some r
        | None => if isLineFeed c then Some s' else None
        end
      else None
  end.

(** [s.split(/\n\s*\n/)]; [inside] counts the characters of the current
    separator that are still to be passed over. *)
Fixpoint splitBlankLines (s : string) (inside : nat) : list string :=
  match s with
  | "" => [""]
  | String c s' =>
      match inside with
      | S k => splitBlankLines s' k
      | O =>
          match (if isLineFeed c then afterBlank s' else None) with
          | Some r => "" :: splitBlankLines s' (String.length s' - String.length r)
          | None =>
              match splitBlankLines s' 0 with
              | piece :: rest => String c piece :: rest
              | [] => [String c ""]
              end
          end
      end
  end.

(** *** Values of type [any] *)

Inductive value : Type :=
| Undefined
| Null
| Boolean (b : bool)
| Number (x : float)
| Str (s : string)
| Array (elements : list value)
| Object (properties : list (string * value)).

Inductive error : Type :=
| TypeError
| SyntaxError
| SecurityError
| QuotaExceededError.

(** How an evaluation ends: with a value, or with a thrown error. *)
Inductive completion (A : Type) : Type :=
| Normal (a : A)
| Throw (e : error).
Arguments Normal {A} a.
Arguments Throw {A} e.

#[global] Instance completion_ret : MRet completion := @Normal.
#[global] Instance completion_bind : MBind completion := fun A B f c =>
  match c with
  | Normal a => f a
  | Throw e => Throw e
  end.

(** [v[name]] on an own property of an object literal. *)
Fixpoint own (properties : list (string * value)) (name : string) : value :=
  match properties with
  | [] => Undefined
  | (k, v) :: rest => if String.eqb k name then v else own rest name
  end.

(** [v.name] for a name that no prototype defines: a [TypeError] on [null]
    and [undefined], [undefined] on the other values without the property. *)
Definition getField (v : value) (name : string) : completion value :=
  match v with
  | Undefined | Null => Throw TypeError
  | Object properties => Normal (own properties name)
  | _ => Normal Undefined
  end.

(** [v === "s"] *)
Definition isString (v : value) (s : string) : bool :=
  match v with
  | Str t => String.eqb t s
  | _ => false
  end.

(** [elements.some(p)], where [p] may throw: it stops at the first element
    on which [p] holds. *)
Fixpoint some {A} (p : A -> completion bool) (elements : list A) : completion bool :=
  match elements with
  | [] => Normal false
  | x :: rest =>
      match p x with
      | Throw e => Throw e
      | Normal true => Normal true
      | Normal false => some p rest
      end
  end.

(** [elements.filter(p)], where [p] may throw. *)
Fixpoint filterC {A} (p : A -> completion bool) (elements : list A) : completion (list A) :=
  match elements with
  | [] => Normal []
  | x :: rest =>
      match p x with
      | Throw e => Throw e
      | Normal b =>
          match filterC p rest with
          | Throw e => Throw e
          | Normal kept => Normal (if b then x :: kept else kept)
          end
      end
  end.

(** [elements.findIndex(p)]: [-1] when no element satisfies [p]. *)
Fixpoint findIndexFrom {A} (p : A -> bool) (elements : list A) (i : Z) : Z :=
  match elements with
  | [] => (-1)%Z
  | x :: rest => if p x then i else findIndexFrom p rest (i + 1)
  end.

Definition findIndex {A} (p : A -> bool) (elements : list A) : Z :=
  findIndexFrom p elements 0.

End JS.

(** ** [app/utils/seo-helpers.ts] *)

Module SeoHelpers.
Import JS.
Local Open Scope string_scope.

(** The object literal [weights] of [calculateSeoScore]. *)
Definition weights : list (string * float) :=
  [ ("metaTitle", 0.10%float);
    ("metaDescription", 0.10%float);
    ("headings", 0.08%float);
    ("contentQuality", 0.12%float);
    ("keywordDensity", 0.10%float);
    ("internalLinks", 0.08%float);
    ("externalLinks", 0.05%float);
    ("imagesAlt", 0.05%float);
    ("pageSpeed", 0.10%float);
    ("mobileCompatibility", 0.08%float);
    ("security", 0.07%float);
    ("socialMetadata", 0.07%float) ].

(** The property names an object literal inherits from [Object.prototype]:
    the operator [in] finds them too. *)
Definition Object_prototype : list string :=
  [ "constructor"; "hasOwnProperty"; "isPrototypeOf"; "propertyIsEnumerable";
    "toLocaleString"; "toString"; "valueOf"; "__proto__";
    "__defineGetter__"; "__defineSetter__"; "__lookupGetter__"; "__lookupSetter__" ].

(** What [weights[factor]] is when [factor in weights]: a weight, or an
    inherited function (for [__proto__], the prototype object). *)
Inductive property : Type :=
| Weight (w : float)
| Inherited.

Fixpoint ownWeight (table : list (string * float)) (factor : string) : option float :=
  match table with
  | [] => None
  | (k, w) :: rest => if String.eqb k factor then Some w else ownWeight rest factor
  end.

(** [factor in weights], with the value [weights[factor]]. *)
Definition weightOf (factor : string) : option property :=
  match ownWeight weights factor with
  | Some w => Some (Weight w)
  | None =>
      if existsb (String.eqb factor) Object_prototype then Some Inherited else None
  end.

(** [Number(p)]: a function or a plain object converts to [NaN]. *)
Definition toNumber (p : property) : float :=
  match p with
  | Weight w => w
  | Inherited => nan
  end.

(** The variable [totalWeightApplied]: a number, until [+=] adds a function
    or an object to it, which makes it a string (the number followed by the
    source text of the function); from then on [+=] concatenates. *)
Inductive applied : Type :=
| Sum (x : float)
| Text.

Definition addApplied (a : applied) (p : property) : applied :=
  match a, p with
  | Sum x, Weight w => Sum (x + w)
  | _, _ => Text
  end.

(** The body of the [forEach] callback. The test [typeof score === 'number']
    holds by the type of [factors]. *)
Definition accumulate (acc : float * applied) (entry : string * float) : float * applied :=
  let '(totalWeightedScore, totalWeightApplied) := acc in
  let '(factor, score) := entry in
  match weightOf factor with
  | Some weight =>
      ((totalWeightedScore + score * toNumber weight)%float,
       addApplied totalWeightApplied weight)
  | None => acc
  end.

Definition totals (factors : list (string * float)) : float * applied :=
  fold_left accumulate factors (0%float, Sum 0).

(** [calculateSeoScore(factors)], on [Object.entries(factors)]. A string
    compared with a number converts to [NaN] here (it holds the text of a
    function), so both comparisons fail on [Text]. *)
Definition calculateSeoScore (factors : list (string * float)) : float :=
  let '(totalWeightedScore, totalWeightApplied) := totals factors in
  match totalWeightApplied with
  | Sum w =>
      if (0 <? w)%float && (w <? 1)%float
      then Math_round (totalWeightedScore / w)
      else Math_round totalWeightedScore
  | Text => Math_round totalWeightedScore
  end.

(** The length band shared by the title and the description score. *)
Definition lengthScore (ideal_lo ideal_hi ok_lo ok_hi length : nat) (score : float) : float :=
  if (ideal_lo <=? length)%nat && (length <=? ideal_hi)%nat then (score + 100)%float
  else if (ok_lo <=? length)%nat && (length <=? ok_hi)%nat then (score + 70)%float
  else if (0 <? length)%nat then (score + 40)%float
  else score.

(** [targetKeywords.some(keyword => lower.includes(keyword.toLowerCase()))] *)
Definition keywordMatch (lower : string) (targetKeywords : list string) : bool :=
  existsb (fun keyword => includes lower (toLowerCase keyword)) targetKeywords.

(** [calculateTitleScore(title, targetKeywords)]; [None] is [null] or
    [undefined]. *)
Definition calculateTitleScore (title : option string) (targetKeywords : list string) : float :=
  match title with
  | None => 0
  | Some "" => 0
  | Some title =>
      let score := 0%float in
      let length := String.length title in
      let score := lengthScore 50 60 40 70 length score in
      if (0 <? List.length targetKeywords)%nat then
        let titleLower := toLowerCase title in
        let score := if keywordMatch titleLower targetKeywords then (score + 100)%float else score in
        Math_round (score / 2)
      else score
  end.

Definition calculateDescriptionScore (description : option string) (targetKeywords : list string) : float :=
  match description with
  | None => 0
  | Some "" => 0
  | Some description =>
      let score := 0%float in
      let length := String.length description in
      let score := lengthScore 150 160 120 170 length score in
      if (0 <? List.length targetKeywords)%nat then
        let descLower := toLowerCase description in
        let score := if keywordMatch descLower targetKeywords then (score + 100)%float else score in
        Math_round (score / 2)
      else score
  end.

(** [h => h.type === name] *)
Definition hasType (name : string) (h : value) : completion bool :=
  t ← getField h "type"; mret (isString t name).

(** [calculateHeadingsScore(headings)], [headings] being of type [any]. *)
Definition calculateHeadingsScore (headings : value) : completion float :=
  match headings with
  | Array headings =>
      let score := 0%float in
      hasH1 ← some (hasType "h1") headings;
      let score := if (hasH1 : bool) then (score + 50)%float else score in
      hasH2 ← some (hasType "h2") headings;
      let score := if (hasH2 : bool) then (score + 25)%float else score in
      h1s ← filterC (hasType "h1") headings;
      let h1Count := List.length h1s in
      let score :=
        if (h1Count =? 1)%nat then (score + 25)%float
        else if (1 <? h1Count)%nat then (score - 25)%float
        else score in
      mret (Math_max 0 (Math_min 100 score))
  | _ => mret 0%float
  end.

(** [sentences.map(s => s.trim().split(/\s+/).filter(Boolean).length)] *)
Definition sentenceLengths (sentences : list string) : list nat :=
  map (fun s => List.length (words (trim s))) sentences.

(** [calculateContentScore(content, minWords)]; [minWords] is 300 when the
    caller leaves it out. *)
Definition calculateContentScore (content : option string) (minWords : float) : float :=
  match content with
  | None => 0
  | Some "" => 0
  | Some content =>
      let score := 0%float in
      let wordCount := of_nat (List.length (words content)) in
      let score :=
        if (minWords <=? wordCount)%float then (score + 60)%float
        else if (minWords / 2 <=? wordCount)%float then (score + 30)%float
        else score in
      let paragraphs := splitBlankLines content 0 in
      let score := if (3 <=? List.length paragraphs)%nat then (score + 20)%float else score in
      let sentences := List.filter truthy (splitRuns isTerminator content false) in
      let lengths := sentenceLengths sentences in
      let hasVariety :=
        existsb (fun len => (len <=? 10)%nat) lengths &&
        existsb (fun len => (15 <? len)%nat) lengths in
      if hasVariety then (score + 20)%float else score
  end.

(** The loop
    [while ((lastIndex = contentLower.indexOf(keywordLower, lastIndex + 1)) !== -1) count++]
    run for at most [fuel] tests of its condition; [None] when it has not
    ended by then. *)
Fixpoint countLoop (fuel : nat) (contentLower keywordLower : string)
    (lastIndex : Z) (count : nat) : option nat :=
  match fuel with
  | O => None
  | S fuel' =>
      let lastIndex := indexOf contentLower keywordLower (lastIndex + 1) in
      if (lastIndex =? -1)%Z then Some count
      else countLoop fuel' contentLower keywordLower lastIndex (S count)
  end.

(** The score a density earns. *)
Definition densityScore (density : float) : float :=
  if (1 <=? density)%float && (density <=? 3)%float then 100
  else if (0 <? density)%float && (density <? 1)%float then 70
  else if (3 <? density)%float && (density <=? 5)%float then 50
  else if (5 <? density)%float then 30
  else 0.

(** [calculateKeywordDensityScore(content, keyword)], its loop run on [fuel]. *)
Definition calculateKeywordDensityScore (fuel : nat) (content : option string)
    (keyword : string) : option float :=
  match content, keyword with
  | None, _ => Some 0%float
  | Some "", _ => Some 0%float
  | _, "" => Some 0%float
  | Some content, _ =>
      let contentLower := toLowerCase content in
      let keywordLower := toLowerCase keyword in
      count ← countLoop fuel contentLower keywordLower (-1) 0;
      let totalWords := List.length (words contentLower) in
      if (totalWords =? 0)%nat then Some 0%float
      else
        let density :=
          (of_nat count * of_nat (List.length (words keywordLower)) / of_nat totalWords * 100)%float in
        Some (densityScore density)
  end.

End SeoHelpers.

(** ** The browser: [window], [localStorage], the clock and the console *)

Module Browser.
Import JS.
Local Open Scope string_scope.

(** The text [localStorage.getItem] returns for a key that holds a value of
    type [T], by what [JSON.parse] makes of it: the empty string, a text that
    is no JSON ([JSON.parse] throws a [SyntaxError]), or the text
    [JSON.stringify v] of a value, which parses back to [v]. The store is
    typed: a text that parses to a value of another shape than the one the
    module writes under the key is not modelled, nor is a value that
    [JSON.stringify] refuses or changes (a cycle, a [NaN]). *)
Inductive text (T : Type) : Type :=
| Blank
| Malformed
| Json (v : T).
Arguments Blank {T}.
Arguments Malformed {T}.
Arguments Json {T} v.

(** The state the storage module reads and writes. [storage] is the typed
    content of [localStorage], [None] for a key that is not set. *)
Record World (Storage : Type) : Type := mkWorld {
  window : bool;             (* [typeof window !== 'undefined'] *)
  denied : bool;             (* [localStorage] throws a [SecurityError] *)
  exhausted : bool;          (* [setItem] throws a [QuotaExceededError] *)
  storage : Storage;
  clock : nat -> string;     (* the successive readings of [new Date()] *)
  ticks : nat;               (* how many readings were taken *)
  console : list (string * error)
}.
Arguments mkWorld {Storage}.
Arguments window {Storage}.
Arguments denied {Storage}.
Arguments exhausted {Storage}.
Arguments storage {Storage}.
Arguments clock {Storage}.
Arguments ticks {Storage}.
Arguments console {Storage}.

(** A storage key for values of type [T]: its name, and where its text
    lives in the storage. *)
Record Key (Storage T : Type) : Type := mkKey {
  name : string;
  read : Storage -> option (text T);
  write : text T -> Storage -> Storage
}.
Arguments mkKey {Storage T}.
Arguments name {Storage T}.
Arguments read {Storage T}.
Arguments write {Storage T}.

Section Monad.
Context {Storage : Type}.

(** A computation: from a world to a completion and the world it leaves. *)
Definition js (A : Type) : Type := World Storage -> completion A * World Storage.

Definition ret {A} (a : A) : js A := fun w => (Normal a, w).

Definition bind {A B} (m : js A) (f : A -> js B) : js B := fun w =>
  match m w with
  | (Normal a, w') => f a w'
  | (Throw e, w') => (Throw e, w')
  end.

Definition throw {A} (e : error) : js A := fun w => (Throw e, w).

(** [try { body } catch (error) { handler }] *)
Definition try_catch {A} (body : js A) (handler : error -> js A) : js A := fun w =>
  match body w with
  | (Normal a, w') => (Normal a, w')
  | (Throw e, w') => handler e w'
  end.

(** [typeof window === 'undefined'] *)
Definition window_undefined : js bool := fun w => (Normal (negb (window w)), w).

(** The world with one more line on the console, one more reading of the
    clock taken, or another storage. *)
Definition logged (line : string * error) (w : World Storage) : World Storage :=
  mkWorld (window w) (denied w) (exhausted w) (storage w) (clock w) (ticks w)
          (console w ++ [line]).

Definition ticked (w : World Storage) : World Storage :=
  mkWorld (window w) (denied w) (exhausted w) (storage w) (clock w) (S (ticks w))
          (console w).

Definition storing (s : Storage) (w : World Storage) : World Storage :=
  mkWorld (window w) (denied w) (exhausted w) s (clock w) (ticks w) (console w).

(** [console.error(message, error)] *)
Definition console_error (message : string) (e : error) : js unit := fun w =>
  (Normal tt, logged (message, e) w).

(** [new Date().toISOString()] *)
Definition now : js string := fun w => (Normal (clock w (ticks w)), ticked w).

(** [localStorage.getItem(key)]: [None] is [null]. *)
Definition getItem {T} (key : Key Storage T) : js (option (text T)) := fun w =>
  if denied w then (Throw SecurityError, w)
  else (Normal (read key (storage w)), w).

(** [localStorage.setItem(key, value)] *)
Definition setItem {T} (key : Key Storage T) (value : text T) : js unit := fun w =>
  if denied w then (Throw SecurityError, w)
  else if exhausted w then (Throw QuotaExceededError, w)
  else (Normal tt, storing (write key value (storage w)) w).

(** [JSON.parse(value)] *)
Definition JSON_parse {T} (value : text T) : js T :=
  match value with
  | Json v => ret v
  | Blank | Malformed => throw SyntaxError
  end.

(** [JSON.stringify(value)] *)
Definition JSON_stringify {T} (value : T) : js (text T) := ret (Json value).

End Monad.

#[global] Instance js_ret {Storage} : MRet (@js Storage) := @ret Storage.
#[global] Instance js_bind {Storage} : MBind (@js Storage) := fun A B f m => bind m f.

End Browser.

(** ** [app/utils/storage.client.ts] *)

Module Storage.
Import JS Browser.
Local Open Scope string_scope.

(** *** The interfaces *)

Module Project.
Record t : Type := mk {
  id : string;
  name : string;
  url : string;
  dateCreated : string;
  dateUpdated : string
}.
End Project.

Module AnalysisResult.
Record t : Type := mk {
  id : string;
  url : string;
  dateAnalyzed : string;
  score : float;
  taskId : option string;
  summaryData : option value
}.
End AnalysisResult.

Module SavedKeyword.
Record t : Type := mk {
  id : string;
  keyword : string;
  dateAdded : string;
  volume : option float;
  difficulty : option float;
  cpc : option float;
  related : option (list string)
}.
End SavedKeyword.

Module SavedContent.
Record t : Type := mk {
  id : string;
  title : string;
  content : string;
  targetKeywords : list string;
  dateCreated : string;
  dateUpdated : string;
  score : option float
}.
End SavedContent.

Module CompetitorAnalysis.
Record t : Type := mk {
  id : string;
  dateCreated : string;
  mainDomain : string;
  competitorDomains : list string;
  results : option value
}.
End CompetitorAnalysis.

Module Credentials.
Record t : Type := mk {
  dataForSeo_username : string;
  dataForSeo_password : string;
  openai_apiKey : string;
  openai_model : string;
  openai_baseUrl : string
}.
End Credentials.

Module ApiEndpoints.
Record t : Type := mk {
  baseUrl : string;
  serpEndpoint : string;
  onPageEndpoint : string;
  contentAnalysisEndpoint : string;
  keywordDataEndpoint : string
}.
End ApiEndpoints.

Inductive Theme : Type := light | dark.

Module UserSettings.
Record t : Type := mk {
  language : string;
  country : string;
  defaultKeywordLocation : option string;
  theme : option Theme
}.
End UserSettings.

(** *** The storage: one text per key of [STORAGE_KEYS] *)

Record Items : Type := mkItems {
  projects : option (text (list Project.t));
  recent_analyses : option (text (list AnalysisResult.t));
  saved_keywords : option (text (list SavedKeyword.t));
  saved_content : option (text (list SavedContent.t));
  competitor_analyses : option (text (list CompetitorAnalysis.t));
  settings : option (text UserSettings.t);
  credentials : option (text Credentials.t);
  api_endpoints : option (text ApiEndpoints.t)
}.

Definition empty : Items := mkItems None None None None None None None None.

Abbreviation js := (@Browser.js Items).
Abbreviation Key := (Browser.Key Items).

Definition PROJECTS : Key (list Project.t) :=
  mkKey "seo-toolkit-projects" projects
    (fun v s => mkItems (Some v) (recent_analyses s) (saved_keywords s) (saved_content s)
                        (competitor_analyses s) (settings s) (credentials s) (api_endpoints s)).

Definition RECENT_ANALYSES : Key (list AnalysisResult.t) :=
  mkKey "seo-toolkit-recent-analyses" recent_analyses
    (fun v s => mkItems (projects s) (Some v) (saved_keywords s) (saved_content s)
                        (competitor_analyses s) (settings s) (credentials s) (api_endpoints s)).

Definition SAVED_KEYWORDS : Key (list SavedKeyword.t) :=
  mkKey "seo-toolkit-saved-keywords" saved_keywords
    (fun v s => mkItems (projects s) (recent_analyses s) (Some v) (saved_content s)
                        (competitor_analyses s) (settings s) (credentials s) (api_endpoints s)).

Definition SAVED_CONTENT : Key (list SavedContent.t) :=
  mkKey "seo-toolkit-saved-content" saved_content
    (fun v s => mkItems (projects s) (recent_analyses s) (saved_keywords s) (Some v)
                        (competitor_analyses s) (settings s) (credentials s) (api_endpoints s)).

Definition COMPETITOR_ANALYSES : Key (list CompetitorAnalysis.t) :=
  mkKey "seo-toolkit-competitor-analyses" competitor_analyses
    (fun v s => mkItems (projects s) (recent_analyses s) (saved_keywords s) (saved_content s)
                        (Some v) (settings s) (credentials s) (api_endpoints s)).

Definition SETTINGS : Key UserSettings.t :=
  mkKey "seo-toolkit-settings" settings
    (fun v s => mkItems (projects s) (recent_analyses s) (saved_keywords s) (saved_content s)
                        (competitor_analyses s) (Some v) (credentials s) (api_endpoints s)).

Definition CREDENTIALS : Key Credentials.t :=
  mkKey "seo-toolkit-credentials" credentials
    (fun v s => mkItems (projects s) (recent_analyses s) (saved_keywords s) (saved_content s)
                        (competitor_analyses s) (settings s) (Some v) (api_endpoints s)).

Definition API_ENDPOINTS : Key ApiEndpoints.t :=
  mkKey "seo-toolkit-api-endpoints" api_endpoints
    (fun v s => mkItems (projects s) (recent_analyses s) (saved_keywords s) (saved_content s)
                        (competitor_analyses s) (settings s) (credentials s) (Some v)).


(** *** The generic get and set *)

Definition getFromStorage {T} (key : Key T) (defaultValue : T) : js T :=
  undefined ← window_undefined;
  if (undefined : bool) then mret defaultValue
  else
    try_catch
      (value ← getItem key;
       match value with
       | None => mret defaultValue
       | Some Blank => mret defaultValue
       | Some value => JSON_parse value
       end)
      (fun error =>
         console_error ("Error retrieving " ++ name key ++ " from localStorage:") error;;
         mret defaultValue).

Definition setInStorage {T} (key : Key T) (value : T) : js unit :=
  undefined ← window_undefined;
  if (undefined : bool) then mret tt
  else
    try_catch
      (json ← JSON_stringify value; setItem key json)
      (fun error =>
         console_error ("Error saving " ++ name key ++ " to localStorage:") error;;
         throw error).

(** *** Projects *)

Definition getProjects : js (list Project.t) := getFromStorage PROJECTS [].

Definition saveProject (project : Project.t) : js unit :=
  projects ← getProjects;
  let index := findIndex (fun p => String.eqb (Project.id p) (Project.id project)) projects in
  if (0 <=? index)%Z then
    dateUpdated ← now;
    let projects :=
      <[Z.to_nat index :=
          Project.mk (Project.id project) (Project.name project) (Project.url project)
                     (Project.dateCreated project) dateUpdated]> projects in
    setInStorage PROJECTS projects
  else
    dateCreated ← now;
    dateUpdated ← now;
    let projects :=
      (projects ++
       [Project.mk (Project.id project) (Project.name project) (Project.url project)
                  dateCreated dateUpdated])%list in
    setInStorage PROJECTS projects.

(** *** Analyses *)

Definition getRecentAnalyses : js (list AnalysisResult.t) :=
  getFromStorage RECENT_ANALYSES [].

Definition saveAnalysisResult (analysis : AnalysisResult.t) : js unit :=
  analyses ← getRecentAnalyses;
  let index :=
    findIndex (fun a => String.eqb (AnalysisResult.id a) (AnalysisResult.id analysis)) analyses in
  if (0 <=? index)%Z then
    let analyses := <[Z.to_nat index := analysis]> analyses in
    setInStorage RECENT_ANALYSES analyses
  else
    let analyses := analysis :: analyses in
    let analyses :=
      if (10 <? List.length analyses)%nat then removelast analyses else analyses in
    setInStorage RECENT_ANALYSES analyses.

(** *** Keywords *)

Definition getSavedKeywords : js (list SavedKeyword.t) :=
  getFromStorage SAVED_KEYWORDS [].

Definition saveKeyword (keyword : SavedKeyword.t) : js unit :=
  keywords ← getSavedKeywords;
  let index :=
    findIndex (fun k => String.eqb (SavedKeyword.id k) (SavedKeyword.id keyword)) keywords in
  if (0 <=? index)%Z then
    let keywords := <[Z.to_nat index := keyword]> keywords in
    setInStorage SAVED_KEYWORDS keywords
  else
    dateAdded ← now;
    let keywords :=
      (keywords ++
       [SavedKeyword.mk (SavedKeyword.id keyword) (SavedKeyword.keyword keyword) dateAdded
                       (SavedKeyword.volume keyword) (SavedKeyword.difficulty keyword)
                       (SavedKeyword.cpc keyword) (SavedKeyword.related keyword)])%list in
    setInStorage SAVED_KEYWORDS keywords.

(** *** Content *)

Definition getSavedContent : js (list SavedContent.t) :=
  getFromStorage SAVED_CONTENT [].

Definition saveContent (content : SavedContent.t) : js unit :=
  contents ← getSavedContent;
  let index :=
    findIndex (fun c => String.eqb (SavedContent.id c) (SavedContent.id content)) contents in
  if (0 <=? index)%Z then
    dateUpdated ← now;
    let contents :=
      <[Z.to_nat index :=
          SavedContent.mk (SavedContent.id content) (SavedContent.title content)
                          (SavedContent.content content) (SavedContent.targetKeywords content)
                          (SavedContent.dateCreated content) dateUpdated
                          (SavedContent.score content)]> contents in
    setInStorage SAVED_CONTENT contents
  else
    dateCreated ← now;
    dateUpdated ← now;
    let contents :=
      (contents ++
       [SavedContent.mk (SavedContent.id content) (SavedContent.title content)
                       (SavedContent.content content) (SavedContent.targetKeywords content)
                       dateCreated dateUpdated (SavedContent.score content)])%list in
    setInStorage SAVED_CONTENT contents.

(** *** Competitor analyses *)

Definition getCompetitorAnalyses : js (list CompetitorAnalysis.t) :=
  getFromStorage COMPETITOR_ANALYSES [].

Definition saveCompetitorAnalysis (analysis : CompetitorAnalysis.t) : js unit :=
  analyses ← getCompetitorAnalyses;
  let index :=
    findIndex (fun a => String.eqb (CompetitorAnalysis.id a) (CompetitorAnalysis.id analysis))
              analyses in
  if (0 <=? index)%Z then
    let analyses := <[Z.to_nat index := analysis]> analyses in
    setInStorage COMPETITOR_ANALYSES analyses
  else
    dateCreated ← now;
    let analyses :=
      (analyses ++
       [CompetitorAnalysis.mk (CompetitorAnalysis.id analysis) dateCreated
                             (CompetitorAnalysis.mainDomain analysis)
                             (CompetitorAnalysis.competitorDomains analysis)
                             (CompetitorAnalysis.results analysis)])%list in
    setInStorage COMPETITOR_ANALYSES analyses.

(** *** Credentials, endpoints and settings *)

Definition defaultCredentials : Credentials.t :=
  Credentials.mk "" "" "" "gpt-4" "https://api.openai.com/v1".

Definition getCredentials : js Credentials.t :=
  getFromStorage CREDENTIALS defaultCredentials.

Definition saveCredentials (credentials : Credentials.t) : js unit :=
  setInStorage CREDENTIALS credentials.

Definition defaultApiEndpoints : ApiEndpoints.t :=
  ApiEndpoints.mk "https://api.dataforseo.com/v3" "/serp" "/on_page" "/content_analysis"
                  "/keywords_data".

Definition getApiEndpoints : js ApiEndpoints.t :=
  getFromStorage API_ENDPOINTS defaultApiEndpoints.

Definition saveApiEndpoints (endpoints : ApiEndpoints.t) : js unit :=
  setInStorage API_ENDPOINTS endpoints.

Definition defaultUserSettings : UserSettings.t :=
  UserSettings.mk "en" "US" (Some "2840") (Some light).

Definition getUserSettings : js UserSettings.t :=
  getFromStorage SETTINGS defaultUserSettings.

Definition saveUserSettings (settings : UserSettings.t) : js unit :=
  setInStorage SETTINGS settings.

End Storage.

(** ** What the specification says, in its own words *)

Module Spec.
Import JS.
Local Open Scope string_scope.

(** [keyword] occurs in [text] as a substring, letter case ignored. *)
Definition occursIn (text keyword : string) : Prop :=
  exists before middle after,
    text = before ++ middle ++ after /\ toLowerCase middle = toLowerCase keyword.

(** The length subscore of a non-empty text: 100 inside the ideal band, 70
    inside the acceptable band, 40 otherwise. *)
Definition lengthSubscore (ideal_lo ideal_hi ok_lo ok_hi length : nat) : float :=
  if decide (ideal_lo <= length <= ideal_hi)%nat then 100
  else if decide (ok_lo <= length <= ok_hi)%nat then 70
  else 40.

(** The number of positions of [text] at which [keyword] starts;
    occurrences that overlap count each. *)
Fixpoint occurrences (text keyword : string) : nat :=
  (if startsWith text keyword then 1 else 0) +
  match text with
  | "" => 0
  | String _ rest => occurrences rest keyword
  end.

(** density = occurrences x wordsInKeyword / totalWords x 100, the
    occurrences counted with letter case ignored; it is not defined for a
    content without words. *)
Definition density (content keyword : string) : option float :=
  let totalWords := List.length (words content) in
  if decide (totalWords = 0)%nat then None
  else
    Some (of_nat (occurrences (toLowerCase content) (toLowerCase keyword))
          * of_nat (List.length (words keyword)) / of_nat totalWords * 100)%float.

(** The score of a density [d], as a relation: 100 in [[1,3]], 70 in
    [(0,1)], 50 in [(3,5]], 30 above 5, and 0 otherwise. *)
Definition banded (d score : float) : Prop :=
  ((1 <=? d)%float = true /\ (d <=? 3)%float = true -> score = 100%float) /\
  ((0 <? d)%float = true /\ (d <? 1)%float = true -> score = 70%float) /\
  ((3 <? d)%float = true /\ (d <=? 5)%float = true -> score = 50%float) /\
  ((5 <? d)%float = true -> score = 30%float) /\
  ((0 <? d)%float = false -> score = 0%float).

(** An element that is neither [null] nor [undefined]. *)
Definition present (h : value) : Prop := h <> Null /\ h <> Undefined.

(** A heading of the given type: an object whose [type] is that string. *)
Definition isHeading (type : string) (h : value) : bool :=
  match h with
  | Object properties => isString (own properties "type") type
  | _ => false
  end.

Definition clamp (x : float) : float := Math_max 0 (Math_min 100 x).

(** +50 for any h1, +25 for any h2, +25 for exactly one h1, -25 for more
    than one, clamped to [[0,100]]. *)
Definition headingsScore (headings : list value) : float :=
  let h1Count := List.length (List.filter (isHeading "h1") headings) in
  clamp ((if existsb (isHeading "h1") headings then 50 else 0)
         + (if existsb (isHeading "h2") headings then 25 else 0)
         + (if decide (h1Count = 1)%nat then 25 else 0)
         - (if decide (1 < h1Count)%nat then 25 else 0))%float.

(** A score lies between 0 and 100. *)
Definition inRange (s : float) : Prop :=
  (0 <=? s)%float = true /\ (s <=? 100)%float = true.

(** An entry of the factors whose key [weights] has, by [in]. *)
Definition known (entry : string * float) : bool :=
  match SeoHelpers.weightOf (fst entry) with Some _ => true | None => false end.

(** The fuel that is enough for the loop of the keyword density. *)
Definition enough (content : option string) : nat :=
  match content with
  | Some content => String.length content + 2
  | None => 0
  end.

(** Letter case, without [toLowerCase]. A capital is one of [A] to [Z] or
    an accented capital of Latin-1 ([U+00C0] to [U+00DE], the
    multiplication sign apart); its small letter lies 32 code points above
    it. *)
Definition isCapital (c : ascii) : bool :=
  let n := nat_of_ascii c in
  ((65 <=? n) && (n <=? 90) || (192 <=? n) && (n <=? 214) || (216 <=? n) && (n <=? 222))%nat.

(** The same character, or a capital and its small letter. *)
Definition sameLetter (a b : ascii) : bool :=
  Ascii.eqb a b
  || isCapital a && (nat_of_ascii b =? nat_of_ascii a + 32)%nat
  || isCapital b && (nat_of_ascii a =? nat_of_ascii b + 32)%nat.

(** The same text but for the case of its letters. *)
Fixpoint sameText (s t : string) : bool :=
  match s, t with
  | "", "" => true
  | String a s', String b t' => sameLetter a b && sameText s' t'
  | _, _ => false
  end.

(** [keyword] is spelled by a stretch of [text], in whatever case. *)
Definition occursAnyCase (text keyword : string) : Prop :=
  exists before found after,
    text = before ++ found ++ after /\ sameText found keyword = true.

(** [text] begins with [keyword], in whatever case. *)
Fixpoint startsAnyCase (text keyword : string) : bool :=
  match keyword, text with
  | "", _ => true
  | String _ _, "" => false
  | String b keyword', String a text' => sameLetter a b && startsAnyCase text' keyword'
  end.

(** The number of positions of [text] at which [keyword] starts, in
    whatever case; occurrences that overlap count each. *)
Fixpoint occurrencesAnyCase (text keyword : string) : nat :=
  (if startsAnyCase text keyword then 1 else 0) +
  match text with
  | "" => 0
  | String _ rest => occurrencesAnyCase rest keyword
  end.

(** density = occurrences x wordsInKeyword / totalWords x 100, with the
    occurrences counted in whatever case. *)
Definition densityAnyCase (content keyword : string) : option float :=
  let totalWords := List.length (words content) in
  if decide (totalWords = 0)%nat then None
  else
    Some (of_nat (occurrencesAnyCase content keyword)
          * of_nat (List.length (words keyword)) / of_nat totalWords * 100)%float.

End Spec.

(** ** What the specification says about the store *)

Module StorageSpec.
Import JS Browser Storage.
Local Open Scope string_scope.

Abbreviation World := (Browser.World Items).

(** A browser whose storage can be read and written. *)
Definition ready (w : World) : Prop :=
  window w = true /\ denied w = false /\ exhausted w = false.

(** What a key holds, as a get reads it: the stored value, or the default
    when the key is not set or its text does not parse. *)
Definition valueAt {T} (key : Key T) (defaultValue : T) (w : World) : T :=
  match read key (storage w) with
  | Some (Json v) => v
  | _ => defaultValue
  end.

(** The first position of a list at which [same] holds. *)
Definition firstAt {T} (same : T -> bool) (l : list T) (i : nat) (old : T) : Prop :=
  l !! i = Some old /\ same old = true /\
  forall j x, (j < i)%nat -> l !! j = Some x -> same x = false.

(** The get operations, each with the type of its result, its key and
    its default. *)
Inductive getter : Type :=
| GetProjects
| GetRecentAnalyses
| GetSavedKeywords
| GetSavedContent
| GetCompetitorAnalyses
| GetCredentials
| GetApiEndpoints
| GetUserSettings.

Definition resultOf (g : getter) : Type :=
  match g with
  | GetProjects => list Project.t
  | GetRecentAnalyses => list AnalysisResult.t
  | GetSavedKeywords => list SavedKeyword.t
  | GetSavedContent => list SavedContent.t
  | GetCompetitorAnalyses => list CompetitorAnalysis.t
  | GetCredentials => Credentials.t
  | GetApiEndpoints => ApiEndpoints.t
  | GetUserSettings => UserSettings.t
  end.

Definition get (g : getter) : js (resultOf g) :=
  match g with
  | GetProjects => getProjects
  | GetRecentAnalyses => getRecentAnalyses
  | GetSavedKeywords => getSavedKeywords
  | GetSavedContent => getSavedContent
  | GetCompetitorAnalyses => getCompetitorAnalyses
  | GetCredentials => getCredentials
  | GetApiEndpoints => getApiEndpoints
  | GetUserSettings => getUserSettings
  end.

Definition keyOf (g : getter) : Key (resultOf g) :=
  match g with
  | GetProjects => PROJECTS
  | GetRecentAnalyses => RECENT_ANALYSES
  | GetSavedKeywords => SAVED_KEYWORDS
  | GetSavedContent => SAVED_CONTENT
  | GetCompetitorAnalyses => COMPETITOR_ANALYSES
  | GetCredentials => CREDENTIALS
  | GetApiEndpoints => API_ENDPOINTS
  | GetUserSettings => SETTINGS
  end.

Definition defaultOf (g : getter) : resultOf g :=
  match g with
  | GetProjects => []
  | GetRecentAnalyses => []
  | GetSavedKeywords => []
  | GetSavedContent => []
  | GetCompetitorAnalyses => []
  | GetCredentials => defaultCredentials
  | GetApiEndpoints => defaultApiEndpoints
  | GetUserSettings => defaultUserSettings
  end.

(** The save operations, each on its argument. *)
Inductive saver : Type :=
| SaveProject (project : Project.t)
| SaveAnalysisResult (analysis : AnalysisResult.t)
| SaveKeyword (keyword : SavedKeyword.t)
| SaveContent (content : SavedContent.t)
| SaveCompetitorAnalysis (analysis : CompetitorAnalysis.t)
| SaveCredentials (credentials : Credentials.t)
| SaveApiEndpoints (endpoints : ApiEndpoints.t)
| SaveUserSettings (settings : UserSettings.t).

Definition save (s : saver) : js unit :=
  match s with
  | SaveProject project => saveProject project
  | SaveAnalysisResult analysis => saveAnalysisResult analysis
  | SaveKeyword keyword => saveKeyword keyword
  | SaveContent content => saveContent content
  | SaveCompetitorAnalysis analysis => saveCompetitorAnalysis analysis
  | SaveCredentials credentials => saveCredentials credentials
  | SaveApiEndpoints endpoints => saveApiEndpoints endpoints
  | SaveUserSettings settings => saveUserSettings settings
  end.

(** The name of the key a save writes. *)
Definition savedUnder (s : saver) : string :=
  match s with
  | SaveProject _ => name PROJECTS
  | SaveAnalysisResult _ => name RECENT_ANALYSES
  | SaveKeyword _ => name SAVED_KEYWORDS
  | SaveContent _ => name SAVED_CONTENT
  | SaveCompetitorAnalysis _ => name COMPETITOR_ANALYSES
  | SaveCredentials _ => name CREDENTIALS
  | SaveApiEndpoints _ => name API_ENDPOINTS
  | SaveUserSettings _ => name SETTINGS
  end.

(** One call after the other: [for (const x of l) f(x)]. *)
Fixpoint forEach {A} (f : A -> js unit) (l : list A) : js unit :=
  match l with
  | [] => mret tt
  | x :: rest => f x;; forEach f rest
  end.

(** The entity with its time stamps set. *)
Definition projectAt (created updated : string) (p : Project.t) : Project.t :=
  Project.mk (Project.id p) (Project.name p) (Project.url p) created updated.

Definition keywordAt (added : string) (k : SavedKeyword.t) : SavedKeyword.t :=
  SavedKeyword.mk (SavedKeyword.id k) (SavedKeyword.keyword k) added (SavedKeyword.volume k)
                  (SavedKeyword.difficulty k) (SavedKeyword.cpc k) (SavedKeyword.related k).

Definition contentAt (created updated : string) (c : SavedContent.t) : SavedContent.t :=
  SavedContent.mk (SavedContent.id c) (SavedContent.title c) (SavedContent.content c)
                  (SavedContent.targetKeywords c) created updated (SavedContent.score c).

Definition competitorAt (created : string) (a : CompetitorAnalysis.t) : CompetitorAnalysis.t :=
  CompetitorAnalysis.mk (CompetitorAnalysis.id a) created (CompetitorAnalysis.mainDomain a)
                        (CompetitorAnalysis.competitorDomains a) (CompetitorAnalysis.results a).

(** [after] is [before] with [updated] at position [i]: the length and
    every other position are unchanged. *)
Definition replacedAt {T} (i : nat) (updated : T) (before after : list T) : Prop :=
  List.length after = List.length before /\
  after !! i = Some updated /\
  forall j, j <> i -> after !! j = before !! j.

(** Replace in place, or add: when [old] at [i] is the first entity that
    has the identifier, the collection becomes the old one with [updated]
    at [i]; when no entity has it, the collection becomes [added]. *)
Definition upserted {T} (same : T -> bool) (before : list T) (updated : T)
    (added : list T) (after : list T) : Prop :=
  (forall i old, firstAt same before i old -> replacedAt i updated before after) /\
  ((forall x, x ∈ before -> same x = false) -> after = added).

(** The entities have the same identifier. *)
Definition sameProject (p q : Project.t) : bool := String.eqb (Project.id q) (Project.id p).
Definition sameAnalysis (a b : AnalysisResult.t) : bool :=
  String.eqb (AnalysisResult.id b) (AnalysisResult.id a).
Definition sameKeyword (k l : SavedKeyword.t) : bool :=
  String.eqb (SavedKeyword.id l) (SavedKeyword.id k).
Definition sameContent (c d : SavedContent.t) : bool :=
  String.eqb (SavedContent.id d) (SavedContent.id c).
Definition sameCompetitor (a b : CompetitorAnalysis.t) : bool :=
  String.eqb (CompetitorAnalysis.id b) (CompetitorAnalysis.id a).

(** Worlds to try the store in: a server (no window, and a storage that
    would refuse every access), and a browser with a working storage. *)
Definition midnight : nat -> string := fun _ => "2024-05-01T00:00:00.000Z".

Definition server : World := mkWorld false true true Storage.empty midnight 0 [].

Definition browser (items : Items) : World := mkWorld true false false items midnight 0 [].

Definition analysisOf (id : string) : AnalysisResult.t :=
  AnalysisResult.mk id ("https://example.com/" ++ id) "2024-04-30T12:00:00.000Z" 50 None None.

Definition keywordOf (id added : string) : SavedKeyword.t :=
  SavedKeyword.mk id "seo" added None None None None.

(** A storage with one analysis and one keyword. *)
Definition stocked : Items :=
  mkItems None (Some (Json [analysisOf "a1"]))
          (Some (Json [keywordOf "k1" "2019-01-01T00:00:00.000Z"])) None None None None None.

(** Eleven analyses, [a1] the first to be saved. *)
Definition eleven : list AnalysisResult.t :=
  map analysisOf ["a1"; "a2"; "a3"; "a4"; "a5"; "a6"; "a7"; "a8"; "a9"; "a10"; "a11"].

(** What the specification says of a save whose identifier is new: the
    entity, stamped, goes to the end of the collection. *)
Definition appended {T} (before after : list T) : Prop :=
  exists stamped, after = (before ++ [stamped])%list.

(** [w1] is the browser of [w], up to the console and the clock. *)
Definition sameBrowser (w w1 : World) : Prop :=
  window w1 = window w /\ denied w1 = denied w /\ exhausted w1 = exhausted w /\
  storage w1 = storage w.

End StorageSpec.

(** ** [app/utils/seo-helpers.ts]: labels, recommendations, number format *)

Module SeoLabels.
Import JS.
Local Open Scope string_scope.

(** [SCORE_THRESHOLDS] *)
Definition EXCELLENT : float := 85.
Definition GOOD : float := 70.
Definition AVERAGE : float := 50.
Definition POOR : float := 30.

Definition getScoreCategory (score : float) : string :=
  if (EXCELLENT <=? score)%float then "excellent"
  else if (GOOD <=? score)%float then "good"
  else if (AVERAGE <=? score)%float then "average"
  else if (POOR <=? score)%float then "poor"
  else "critical".

Definition getScoreClass (score : float) : string :=
  if (GOOD <=? score)%float then "score-high"
  else if (AVERAGE <=? score)%float then "score-medium"
  else "score-low".

Record Level : Type := mkLevel { label : string; color : string }.

Definition getScoreLevel (score : float) : Level :=
  if (80 <=? score)%float then mkLevel "Excellent" "green"
  else if (70 <=? score)%float then mkLevel "Good" "green"
  else if (50 <=? score)%float then mkLevel "Average" "yellow"
  else if (30 <=? score)%float then mkLevel "Poor" "red"
  else mkLevel "Critical" "red".

(** The object literal [recommendations] of [generateRecommendation]. *)
Definition recommendations : list (string * list (string * string)) :=
  [
    ("metaTitle",
     [ ("low", "Your title tag needs improvement. Aim for 50-60 characters and include your primary keyword.");
       ("medium", "Your title is acceptable but could be improved. Ensure it's compelling and includes your primary keyword.");
       ("high", "Great job! Your title tag is well-optimized.") ]);
    ("metaDescription",
     [ ("low", "Your meta description needs improvement. Aim for 150-160 characters and include your primary keyword.");
       ("medium", "Your meta description is acceptable but could be more compelling. Include a call-to-action.");
       ("high", "Excellent! Your meta description is well-optimized.") ]);
    ("headings",
     [ ("low", "Your heading structure needs improvement. Use one H1 tag and create a logical heading hierarchy.");
       ("medium", "Your heading structure is acceptable but could be improved. Ensure a logical hierarchy and include keywords in important headings.");
       ("high", "Great job! Your heading structure is well-organized.") ]);
    ("contentQuality",
     [ ("low", "Your content needs substantial improvement. Aim for at least 300 words of high-quality, original content.");
       ("medium", "Your content is acceptable but could be improved. Add more detail and ensure it provides value to readers.");
       ("high", "Excellent! Your content is comprehensive and valuable.") ]);
    ("keywordDensity",
     [ ("low", "Your keyword density is either too low or too high. Aim for 1-3% keyword density for optimal results.");
       ("medium", "Your keyword density is acceptable but could be improved. Ensure keywords appear naturally throughout the content.");
       ("high", "Great job! Your keyword density is optimal.") ]);
    ("internalLinks",
     [ ("low", "Your page has too few internal links. Add more to improve navigation and distribute page authority.");
       ("medium", "Your internal linking is acceptable but could be improved. Use descriptive anchor text and link to relevant pages.");
       ("high", "Excellent! Your internal linking structure is well-implemented.") ]);
    ("externalLinks",
     [ ("low", "Consider adding more high-quality external links to authoritative sources to improve credibility.");
       ("medium", "Your external links are acceptable but ensure they all point to high-quality, relevant sources.");
       ("high", "Great job! Your external links add value to your content.") ]);
    ("imagesAlt",
     [ ("low", "Many of your images are missing alt text. Add descriptive alt text that includes keywords when appropriate.");
       ("medium", "Some images have good alt text, but others need improvement. Ensure all images have descriptive alt attributes.");
       ("high", "Excellent! Your images have descriptive alt text.") ]);
    ("pageSpeed",
     [ ("low", "Your page speed needs significant improvement. Optimize images, enable compression, and minimize code.");
       ("medium", "Your page speed is acceptable but could be improved. Look for specific opportunities to optimize.");
       ("high", "Great job! Your page loads quickly, which benefits both users and SEO.") ]);
    ("mobileCompatibility",
     [ ("low", "Your page is not mobile-friendly. Implement responsive design to improve mobile user experience.");
       ("medium", "Your page is somewhat mobile-friendly but has issues. Address specific mobile usability problems.");
       ("high", "Excellent! Your page is fully mobile-compatible.") ]);
    ("security",
     [ ("low", "Your page is not secure. Implement HTTPS to protect user data and improve SEO.");
       ("medium", "Your security is acceptable but could be improved. Ensure all resources load over HTTPS.");
       ("high", "Great job! Your page is properly secured with HTTPS.") ]);
    ("socialMetadata",
     [ ("low", "Your page is missing important social media metadata. Add Open Graph and Twitter Card tags.");
       ("medium", "Your social metadata is present but could be improved. Ensure all required properties are included.");
       ("high", "Excellent! Your social media metadata is well-implemented.") ])
  ].

(** [object[name]] on the own properties of an object literal. *)
Fixpoint property {A} (object : list (string * A)) (name : string) : option A :=
  match object with
  | [] => None
  | (k, v) :: rest => if String.eqb k name then Some v else property rest name
  end.

Definition noRecommendation : string := "No specific recommendation available.".

(** [generateRecommendation(factor, score)]. For a name that
    [recommendations] only inherits, [recommendations[factor]] is a function
    or the prototype, which has none of the properties [low], [medium],
    [high]: [?.[category]] is [undefined] then, as it is for a name that is
    no property at all. *)
Definition generateRecommendation (factor : string) (score : float) : string :=
  let category :=
    if (70 <=? score)%float then "high"
    else if (50 <=? score)%float then "medium" else "low" in
  match property recommendations factor with
  | Some texts =>
      match property texts category with
      | Some text => if truthy text then text else noRecommendation
      | None => noRecommendation
      end
  | None => noRecommendation
  end.

(** The character classes [\d] and [\w]. *)
Definition isDigit (c : ascii) : bool :=
  let n := nat_of_ascii c in ((48 <=? n) && (n <=? 57))%nat.

Definition isWord (c : ascii) : bool :=
  let n := nat_of_ascii c in
  isDigit c || ((65 <=? n) && (n <=? 90) || (97 <=? n) && (n <=? 122) || (n =? 95))%nat.

(** [(?!\d)] at the start of [s]. *)
Definition noDigitNext (s : string) : bool :=
  match s with
  | String c _ => negb (isDigit c)
  | "" => true
  end.

(** [(\d{3})+(?!\d)] at the start of [s]. *)
Fixpoint groupsOfThree (s : string) : bool :=
  match s with
  | String a (String b (String c rest)) =>
      isDigit a && isDigit b && isDigit c && (groupsOfThree rest || noDigitNext rest)
  | _ => false
  end.

(** [\B] between the character [prev] (none at the start) and the text
    [s] that follows: both sides are word characters, or neither is. *)
Definition nonBoundary (prev : option ascii) (s : string) : bool :=
  Bool.eqb
    (match prev with Some c => isWord c | None => false end)
    (match s with String c _ => isWord c | "" => false end).

(** [text.replace(/\B(?=(\d{3})+(?!\d))/g, ",")]: the pattern matches the
    empty string, so every position is tried, the end included. *)
Fixpoint insertCommas (prev : option ascii) (s : string) : string :=
  let rest :=
    match s with
    | "" => ""
    | String c r => String c (insertCommas (Some c) r)
    end in
  if nonBoundary prev s && groupsOfThree s then String "," rest else rest.

(** [num.toString()] for a non-negative integer (below 1e21, from where
    JavaScript switches to the exponent notation): its decimal digits. *)
Definition Number_toString (num : nat) : string :=
  NilZero.string_of_uint (Nat.to_uint num).

(** [formatNumber(num)], for a non-negative integer [num]. *)
Definition formatNumber (num : nat) : string :=
  insertCommas None (Number_toString num).

End SeoLabels.

(** ** [app/components/ui/ScoreGauge.tsx]: the colour of the gauge *)

Module ScoreGauge.

Local Open Scope string_scope.

Definition getColor (score : float) : string :=
  if (80 <=? score)%float then "#10b981"
  else if (50 <=? score)%float then "#f59e0b"
  else "#ef4444".

End ScoreGauge.

(** ** [app/utils/storage.client.ts]: the deletions *)

Module StorageDelete.
Import JS Browser Storage.
Local Open Scope string_scope.

Definition deleteProject (projectId : string) : js unit :=
  projects ← getProjects;
  setInStorage PROJECTS
    (List.filter (fun p => negb (String.eqb (Project.id p) projectId)) projects).

Definition deleteAnalysisResult (analysisId : string) : js unit :=
  analyses ← getRecentAnalyses;
  setInStorage RECENT_ANALYSES
    (List.filter (fun a => negb (String.eqb (AnalysisResult.id a) analysisId)) analyses).

Definition deleteKeyword (keywordId : string) : js unit :=
  keywords ← getSavedKeywords;
  setInStorage SAVED_KEYWORDS
    (List.filter (fun k => negb (String.eqb (SavedKeyword.id k) keywordId)) keywords).

Definition deleteContent (contentId : string) : js unit :=
  contents ← getSavedContent;
  setInStorage SAVED_CONTENT
    (List.filter (fun c => negb (String.eqb (SavedContent.id c) contentId)) contents).

Definition deleteCompetitorAnalysis (analysisId : string) : js unit :=
  analyses ← getCompetitorAnalyses;
  setInStorage COMPETITOR_ANALYSES
    (List.filter (fun a => negb (String.eqb (CompetitorAnalysis.id a) analysisId)) analyses).

End StorageDelete.

(** ** The API modules: where the endpoints and the credentials come from *)

Module Api.
Import JS Browser Storage.
Local Open Scope string_scope.

(** The variables of [process.env] the two modules read; [None] is a
    variable that is not set. *)
Record Env : Type := mkEnv {
  DATAFORSEO_USERNAME : option string;
  DATAFORSEO_PASSWORD : option string;
  OPENAI_API_KEY : option string;
  OPENAI_MODEL : option string;
  OPENAI_BASE_URL : option string
}.

(** A value that is a non-empty string: the operands of [&&], [||] and [if]
    here are strings or [undefined]. *)
Definition given (v : option string) : bool :=
  match v with
  | Some s => truthy s
  | None => false
  end.

(** [v || fallback] *)
Definition orElse (v : option string) (fallback : string) : string :=
  match v with
  | Some s => if truthy s then s else fallback
  | None => fallback
  end.

(** A function that ends in [throw new Error(message)] returns [Failed
    message] here. *)
Inductive outcome (A : Type) : Type :=
| Returned (a : A)
| Failed (message : string).
Arguments Returned {A} a.
Arguments Failed {A} message.

Record Urls : Type := mkUrls {
  API_BASE_URL : string;
  SERP_API_URL : string;
  ONPAGE_API_URL : string;
  CONTENT_ANALYSIS_API_URL : string;
  KEYWORD_API_URL : string
}.

Definition fallbackUrls : Urls :=
  mkUrls "https://api.dataforseo.com/v3"
         "https://api.dataforseo.com/v3/serp"
         "https://api.dataforseo.com/v3/on_page"
         "https://api.dataforseo.com/v3/content_analysis"
         "https://api.dataforseo.com/v3/keywords_data".

(** [getDataForSEOUrls()]; the [try] block returns [Some urls] where the
    source returns from inside it. *)
Definition getDataForSEOUrls : js Urls :=
  inside ←
    try_catch
      (undefined ← window_undefined;
       if negb undefined then
         endpoints ← getApiEndpoints;
         let baseUrl := ApiEndpoints.baseUrl endpoints in
         mret (Some (mkUrls baseUrl
                            (baseUrl ++ ApiEndpoints.serpEndpoint endpoints)
                            (baseUrl ++ ApiEndpoints.onPageEndpoint endpoints)
                            (baseUrl ++ ApiEndpoints.contentAnalysisEndpoint endpoints)
                            (baseUrl ++ ApiEndpoints.keywordDataEndpoint endpoints)))
       else mret None)
      (fun error =>
         console_error "Error getting DataForSEO endpoints from storage:" error;;
         mret None);
  match inside with
  | Some urls => mret urls
  | None => mret fallbackUrls
  end.

Record DataForSEOAuth : Type := mkAuth { username : string; password : string }.

(** [getAuth()] *)
Definition getAuth (env : Env) : js (outcome DataForSEOAuth) :=
  let envUsername := DATAFORSEO_USERNAME env in
  let envPassword := DATAFORSEO_PASSWORD env in
  if given envUsername && given envPassword then
    mret (Returned (mkAuth (default "" envUsername) (default "" envPassword)))
  else
    inside ←
      try_catch
        (undefined ← window_undefined;
         if negb undefined then
           credentials ← getCredentials;
           let username := Credentials.dataForSeo_username credentials in
           let password := Credentials.dataForSeo_password credentials in
           if truthy username && truthy password
           then mret (Some (mkAuth username password))
           else mret None
         else mret None)
        (fun error =>
           console_error "Error getting DataForSEO credentials from storage:" error;;
           mret None);
    match inside with
    | Some auth => mret (Returned auth)
    | None =>
        mret (Failed "DataForSEO API credentials not found in environment variables or storage")
    end.

Record OpenAIConfig : Type := mkConfig { apiKey : string; model : string; baseUrl : string }.

(** [getOpenAIConfig()] *)
Definition getOpenAIConfig (env : Env) : js (outcome OpenAIConfig) :=
  let envApiKey := OPENAI_API_KEY env in
  let envModel := orElse (OPENAI_MODEL env) "gpt-4" in
  let envBaseUrl := orElse (OPENAI_BASE_URL env) "https://api.openai.com/v1" in
  if given envApiKey then
    mret (Returned (mkConfig (default "" envApiKey) envModel envBaseUrl))
  else
    inside ←
      try_catch
        (undefined ← window_undefined;
         if negb undefined then
           credentials ← getCredentials;
           let apiKey := Credentials.openai_apiKey credentials in
           let model := Credentials.openai_model credentials in
           let baseUrl := Credentials.openai_baseUrl credentials in
           if truthy apiKey
           then mret (Some (mkConfig apiKey
                                     (orElse (Some model) "gpt-4")
                                     (orElse (Some baseUrl) "https://api.openai.com/v1")))
           else mret None
         else mret None)
        (fun error =>
           console_error "Error getting OpenAI credentials from storage:" error;;
           mret None);
    match inside with
    | Some config => mret (Returned config)
    | None => mret (Failed "OpenAI API key not found in environment variables or storage")
    end.

End Api.

(** ** What the further properties are stated with *)

Module MoreSpec.
Import JS SeoLabels.
Local Open Scope string_scope.

(** A text of decimal digits only. *)
Fixpoint allDigits (s : string) : bool :=
  match s with
  | "" => true
  | String c r => isDigit c && allDigits r
  end.

(** The text with its commas taken out. *)
Fixpoint withoutCommas (s : string) : string :=
  match s with
  | "" => ""
  | String c r => if Ascii.eqb c "," then withoutCommas r else String c (withoutCommas r)
  end.

(** The number of line feeds of a text. *)
Fixpoint lineFeeds (s : string) : nat :=
  match s with
  | "" => 0
  | String c r => (if isLineFeed c then 1 else 0) + lineFeeds r
  end.

End MoreSpec.

(** ** The five collections of the store, and its operations *)

Module StoreSpec.
Import JS Browser Storage StorageSpec StorageDelete Api.
Local Open Scope string_scope.

Inductive collection : Type :=
| Projects
| RecentAnalyses
| SavedKeywords
| SavedContents
| CompetitorAnalyses.

Definition entity (c : collection) : Type :=
  match c with
  | Projects => Project.t
  | RecentAnalyses => AnalysisResult.t
  | SavedKeywords => SavedKeyword.t
  | SavedContents => SavedContent.t
  | CompetitorAnalyses => CompetitorAnalysis.t
  end.

Definition keyAt (c : collection) : Key (list (entity c)) :=
  match c with
  | Projects => PROJECTS
  | RecentAnalyses => RECENT_ANALYSES
  | SavedKeywords => SAVED_KEYWORDS
  | SavedContents => SAVED_CONTENT
  | CompetitorAnalyses => COMPETITOR_ANALYSES
  end.

Definition idOf (c : collection) : entity c -> string :=
  match c with
  | Projects => Project.id
  | RecentAnalyses => AnalysisResult.id
  | SavedKeywords => SavedKeyword.id
  | SavedContents => SavedContent.id
  | CompetitorAnalyses => CompetitorAnalysis.id
  end.

Definition saveTo (c : collection) : entity c -> js unit :=
  match c with
  | Projects => saveProject
  | RecentAnalyses => saveAnalysisResult
  | SavedKeywords => saveKeyword
  | SavedContents => saveContent
  | CompetitorAnalyses => saveCompetitorAnalysis
  end.

Definition deleteFrom (c : collection) : string -> js unit :=
  match c with
  | Projects => deleteProject
  | RecentAnalyses => deleteAnalysisResult
  | SavedKeywords => deleteKeyword
  | SavedContents => deleteContent
  | CompetitorAnalyses => deleteCompetitorAnalysis
  end.

(** The collection as its get reads it, and the identifiers in it. *)
Definition stored (c : collection) (w : World) : list (entity c) := valueAt (keyAt c) [] w.

Definition ids (c : collection) (w : World) : list string := List.map (idOf c) (stored c w).

Definition hasId (c : collection) (id : string) (x : entity c) : bool :=
  String.eqb (idOf c x) id.

(** The entity but for its time stamps. *)
Definition unstamped (c : collection) : entity c -> entity c :=
  match c with
  | Projects => projectAt "" ""
  | RecentAnalyses => fun a => a
  | SavedKeywords => keywordAt ""
  | SavedContents => contentAt "" ""
  | CompetitorAnalyses => competitorAt ""
  end.

(** The operations that write: the eight saves and the five deletions,
    each with the name of the key it writes. *)
Inductive operation : Type :=
| Save (s : saver)
| Delete (c : collection) (id : string).

Definition run (o : operation) : js unit :=
  match o with
  | Save s => save s
  | Delete c id => deleteFrom c id
  end.

Definition writes (o : operation) : string :=
  match o with
  | Save s => savedUnder s
  | Delete c _ => name (keyAt c)
  end.

(** The URLs made of stored endpoints. *)
Definition urlsOf (endpoints : ApiEndpoints.t) : Urls :=
  let baseUrl := ApiEndpoints.baseUrl endpoints in
  mkUrls baseUrl
         (baseUrl ++ ApiEndpoints.serpEndpoint endpoints)
         (baseUrl ++ ApiEndpoints.onPageEndpoint endpoints)
         (baseUrl ++ ApiEndpoints.contentAnalysisEndpoint endpoints)
         (baseUrl ++ ApiEndpoints.keywordDataEndpoint endpoints).

(** The credentials a browser holds, as [getCredentials] reads them, when
    its storage can be read. *)
Definition reachable (w : World) : bool := window w && negb (denied w).

Definition credentialsAt (w : World) : Credentials.t :=
  valueAt CREDENTIALS defaultCredentials w.

(** An environment with none of the variables set. *)
Definition noEnv : Env := mkEnv None None None None None.

End StoreSpec.

(** ** Facts about the built-ins *)

Module JSFacts.
Import JS.
Local Open Scope string_scope.

Lemma toLowerCase_append (a b : string) :
  toLowerCase (a ++ b) = toLowerCase a ++ toLowerCase b.
Proof. induction a as [|x a IH]; simpl; [reflexivity | now rewrite IH]. Qed.

Lemma toLowerCase_length (s : string) : String.length (toLowerCase s) = String.length s.
Proof. induction s as [|c s IH]; simpl; [reflexivity | now rewrite IH]. Qed.

(** A split of the lower-case text comes from a split of the text. *)
Lemma toLowerCase_split (s x y : string) :
  toLowerCase s = x ++ y ->
  exists s1 s2, s = s1 ++ s2 /\ toLowerCase s1 = x /\ toLowerCase s2 = y.
Proof.
  revert s. induction x as [|c x IH]; intros s H.
  - exists "", s. auto.
  - destruct s as [|d s]; simpl in H; [discriminate|].
    injection H as Hc Hs. destruct (IH s Hs) as (s1 & s2 & -> & H1 & H2).
    exists (String d s1), s2. simpl. now rewrite Hc, H1, H2.
Qed.

Lemma startsWith_iff (s k : string) :
  startsWith s k = true <-> exists rest, s = k ++ rest.
Proof.
  revert s. induction k as [|b k IH]; intros [|a s]; simpl.
  - split; [intros _; now exists "" | reflexivity].
  - split; [intros _; now exists (String a s) | reflexivity].
  - split; [discriminate | intros [rest H]; discriminate].
  - rewrite andb_true_iff, IH. split.
    + intros [Hab [rest ->]]. apply Ascii.eqb_eq in Hab as ->. now exists rest.
    + intros [rest H]. injection H as -> ->. split; [apply Ascii.eqb_refl | now exists rest].
Qed.

Lemma includes_iff (s k : string) :
  includes s k = true <-> exists before after, s = before ++ k ++ after.
Proof.
  induction s as [|c s IH].
  - cbn [includes]. rewrite orb_false_r, startsWith_iff. split.
    + intros [rest H]. now exists "", rest.
    + intros (before & after & H). destruct before; [now exists after | discriminate].
  - cbn [includes]. rewrite orb_true_iff, startsWith_iff, IH. split.
    + intros [[rest H] | (before & after & ->)].
      * now exists "", rest.
      * now exists (String c before), after.
    + intros (before & after & H). destruct before as [|d before].
      * left. now exists after.
      * right. injection H as _ ->. now exists before, after.
Qed.

(** [includes] on the lower-case strings is occurrence with case ignored. *)
Lemma includes_toLowerCase (text keyword : string) :
  includes (toLowerCase text) (toLowerCase keyword) = true <-> Spec.occursIn text keyword.
Proof.
  rewrite includes_iff. unfold Spec.occursIn. split.
  - intros (x & y & H).
    destruct (toLowerCase_split _ _ _ H) as (before & rest & -> & Hb & Hr).
    destruct (toLowerCase_split _ _ _ Hr) as (middle & after & -> & Hm & Ha).
    now exists before, middle, after.
  - intros (before & middle & after & -> & Hm).
    exists (toLowerCase before), (toLowerCase after).
    now rewrite !toLowerCase_append, Hm.
Qed.

(** Lower-casing leaves the white space where it is. *)
Lemma isWhiteSpace_lowerChar (c : ascii) : isWhiteSpace (lowerChar c) = isWhiteSpace c.
Proof. destruct c as [[] [] [] [] [] [] [] []]; reflexivity. Qed.

Lemma splitRuns_toLowerCase (sep : ascii -> bool) (s : string) (inRun : bool) :
  (forall c, sep (lowerChar c) = sep c) ->
  splitRuns sep (toLowerCase s) inRun = map toLowerCase (splitRuns sep s inRun).
Proof.
  intros Hsep. revert inRun. induction s as [|c s IH]; intros inRun; simpl; [reflexivity|].
  rewrite Hsep. destruct (sep c).
  - destruct inRun; rewrite IH; reflexivity.
  - rewrite IH. now destruct (splitRuns sep s false).
Qed.

Lemma truthy_toLowerCase (w : string) : truthy (toLowerCase w) = truthy w.
Proof. now destruct w. Qed.

Lemma words_toLowerCase (s : string) :
  List.length (words (toLowerCase s)) = List.length (words s).
Proof.
  unfold words. rewrite splitRuns_toLowerCase by apply isWhiteSpace_lowerChar.
  induction (splitRuns isWhiteSpace s false) as [|w l IH]; simpl; [reflexivity|].
  rewrite truthy_toLowerCase. destruct (truthy w); simpl; now rewrite IH.
Qed.

Lemma skip_empty (n : nat) : skip n "" = "".
Proof. now destruct n. Qed.

Lemma skip_skip (n m : nat) (s : string) : skip n (skip m s) = skip (m + n) s.
Proof.
  revert s. induction m as [|m IH]; intros s; simpl; [reflexivity|].
  destruct s; [apply skip_empty | apply IH].
Qed.

Lemma skip_length (n : nat) (s : string) :
  String.length (skip n s) = (String.length s - n)%nat.
Proof.
  revert s. induction n as [|n IH]; intros s; simpl; [lia|].
  destruct s; simpl; [reflexivity | apply IH].
Qed.

(** [search] finds nothing only where nothing occurs. *)
Lemma search_none (s k : string) (pos : Z) :
  (0 <= pos)%Z -> search s k pos = (-1)%Z -> Spec.occurrences s k = 0%nat.
Proof.
  revert pos. induction s as [|a s IH]; intros pos Hpos; cbn [search Spec.occurrences].
  - destruct (startsWith "" k); [intros H; lia | reflexivity].
  - destruct (startsWith (String a s) k); [intros H; lia|].
    intros H. apply (IH (pos + 1)%Z); [lia | exact H].
Qed.

(** What [search] finds is the first occurrence: a non-empty [k] starts
    [j] characters on, and one occurrence less is left after it. *)
Lemma search_found (s : string) (c : ascii) (k : string) (pos : Z) :
  (0 <= pos)%Z -> search s (String c k) pos <> (-1)%Z ->
  exists j : nat,
    search s (String c k) pos = (pos + Z.of_nat j)%Z /\
    (j < String.length s)%nat /\
    Spec.occurrences s (String c k) = S (Spec.occurrences (skip (S j) s) (String c k)).
Proof.
  revert pos. induction s as [|a s IH]; intros pos Hpos; [simpl; congruence|].
  cbn [search Spec.occurrences]. destruct (startsWith (String a s) (String c k)).
  - intros _. exists 0%nat. split; [lia|]. split; [simpl; lia | reflexivity].
  - intros H. destruct (IH (pos + 1)%Z ltac:(lia) H) as (j & Hj & Hlt & Hocc).
    exists (S j). split; [lia|]. split; [simpl; lia|].
    rewrite Hocc. reflexivity.
Qed.

Lemma indexOf_inside (s k : string) (p : nat) :
  (p <= String.length s)%nat ->
  indexOf s k (Z.of_nat p - 1 + 1) = search (skip p s) k (Z.of_nat p).
Proof.
  intros Hp. unfold indexOf.
  replace (Z.to_nat (Z.min (Z.max (Z.of_nat p - 1 + 1) 0) (Z.of_nat (String.length s))))
    with p by lia.
  reflexivity.
Qed.

End JSFacts.

(** ** The order of the floating-point numbers *)

Module FloatFacts.
Local Open Scope float_scope.

Lemma SFcompare_antisym (x y : spec_float) (c : comparison) :
  SFcompare x y = Some c -> SFcompare y x = Some (CompOpp c).
Proof.
  destruct x as [sx|sx| |sx mx ex], y as [sy|sy| |sy my ey]; simpl;
    intros H; try discriminate; injection H as <-; f_equal;
    try (destruct sx; try destruct sy; reflexivity);
    try (destruct sy; reflexivity).
  destruct sx, sy; try reflexivity;
    rewrite (Z.compare_antisym ex ey); destruct (ex ?= ey)%Z; simpl; try reflexivity;
    change (PosDef.Pos.compare_cont Eq my mx) with (my ?= mx)%positive;
    change (PosDef.Pos.compare_cont Eq mx my) with (mx ?= my)%positive;
    rewrite (Pos.compare_antisym mx my); now destruct (mx ?= my)%positive.
Qed.

Lemma SFcompare_lt_le_trans (x y z : spec_float) (c : comparison) :
  SFcompare x y = Some Lt -> SFcompare y z = Some c -> c <> Gt -> SFcompare x z = Some Lt.
Proof.
  destruct x as [sx|sx| |sx mx ex], y as [sy|sy| |sy my ey], z as [sz|sz| |sz mz ez];
    cbn [SFcompare]; intros H1 H2 Hc;
    try discriminate;
    try (injection H1 as H1); try (injection H2 as H2); subst c;
    try (destruct sx; discriminate);
    try (destruct sy; discriminate || (exfalso; now apply Hc));
    try (destruct sx, sy; discriminate || (exfalso; now apply Hc));
    try (destruct sz; discriminate || (exfalso; now apply Hc) || reflexivity);
    try (destruct sx, sz; discriminate || (exfalso; now apply Hc) || reflexivity);
    try (destruct sy, sz; discriminate || (exfalso; now apply Hc) || reflexivity);
    try (destruct sx, sy, sz; discriminate || (exfalso; now apply Hc) || reflexivity).
  all: f_equal.
  all: change (PosDef.Pos.compare_cont Eq) with Pos.compare in *.
  all: destruct sx, sy, sz; try discriminate; try reflexivity; try (exfalso; now apply Hc).
  all: destruct (Z.compare_spec ex ey), (Z.compare_spec ey ez), (Z.compare_spec ex ez);
       try discriminate; try reflexivity; try lia; try (exfalso; now apply Hc).
  all: destruct (Pos.compare_spec mx my), (Pos.compare_spec my mz), (Pos.compare_spec mx mz);
       cbn in *; try discriminate; try reflexivity; try lia; try (exfalso; now apply Hc).
Qed.

Lemma ltb_leb (x y : float) : (x <? y) = true -> (x <=? y) = true.
Proof.
  rewrite ltb_spec, leb_spec. unfold SFltb, SFleb.
  now destruct (SFcompare (Prim2SF x) (Prim2SF y)) as [[]|].
Qed.

Lemma ltb_not_leb (x y : float) : (x <? y) = true -> (y <=? x) = false.
Proof.
  rewrite ltb_spec, leb_spec. unfold SFltb, SFleb.
  destruct (SFcompare (Prim2SF x) (Prim2SF y)) as [[]|] eqn:H; try discriminate.
  intros _. now rewrite (SFcompare_antisym _ _ _ H).
Qed.

Lemma ltb_leb_trans (x y z : float) :
  (x <? y) = true -> (y <=? z) = true -> (x <? z) = true.
Proof.
  rewrite !ltb_spec, leb_spec. unfold SFltb, SFleb.
  destruct (SFcompare (Prim2SF x) (Prim2SF y)) as [[]|] eqn:H1; try discriminate.
  destruct (SFcompare (Prim2SF y) (Prim2SF z)) as [c|] eqn:H2; try discriminate.
  intros _ Hc. rewrite (SFcompare_lt_le_trans _ _ _ c H1 H2); [reflexivity|].
  intros ->. discriminate.
Qed.

(** Nothing lies above [a] and at or below [b] when [a] is not below [b]. *)
Lemma above_not_below (a b d : float) :
  (a <? b) = false -> (a <? d) = true -> (d <=? b) = false.
Proof.
  intros Hab Had. destruct (d <=? b) eqn:Hdb; [|reflexivity].
  now rewrite (ltb_leb_trans a d b Had Hdb) in Hab.
Qed.

Lemma above_not_under (a b d : float) :
  (a <? b) = false -> (a <? d) = true -> (d <? b) = false.
Proof.
  intros Hab Had. destruct (d <? b) eqn:Hdb; [|reflexivity].
  apply ltb_leb in Hdb. now rewrite (above_not_below a b d Hab Had) in Hdb.
Qed.

(** Nothing is at or above [b] without being above [a] when [a] is below [b]. *)
Lemma not_above_not_from (a b d : float) :
  (a <? b) = true -> (a <? d) = false -> (b <=? d) = false.
Proof.
  intros Hab Had. destruct (b <=? d) eqn:Hbd; [|reflexivity].
  now rewrite (ltb_leb_trans a b d Hab Hbd) in Had.
Qed.

Lemma not_above_not_over (a b d : float) :
  (a <? b) = true -> (a <? d) = false -> (b <? d) = false.
Proof.
  intros Hab Had. destruct (b <? d) eqn:Hbd; [|reflexivity].
  apply ltb_leb in Hbd. now rewrite (not_above_not_from a b d Hab Had) in Hbd.
Qed.

End FloatFacts.

(** ** Letter case: [toLowerCase] against the specification's own terms *)

Module CaseFacts.
Import JS JSFacts.
Local Open Scope string_scope.

(** What holds of each of the 256 code units holds of every character. *)
Lemma every_code_unit (p : ascii -> bool) :
  forallb p (List.map ascii_of_nat (seq 0 256)) = true -> forall c, p c = true.
Proof.
  intros H c. rewrite forallb_forall in H. apply H.
  rewrite <- (ascii_nat_embedding c). apply in_map, in_seq.
  pose proof (nat_ascii_bounded c). lia.
Qed.

(** Two characters have the same lower case exactly when they are the same
    letter but for their case. *)
Lemma sameLetter_lowerChar (a b : ascii) :
  Spec.sameLetter a b = Ascii.eqb (lowerChar a) (lowerChar b).
Proof.
  apply Bool.eqb_prop.
  apply (every_code_unit
           (fun b => Bool.eqb (Spec.sameLetter a b) (Ascii.eqb (lowerChar a) (lowerChar b)))).
  apply (every_code_unit
           (fun a =>
              forallb
                (fun b => Bool.eqb (Spec.sameLetter a b) (Ascii.eqb (lowerChar a) (lowerChar b)))
                (List.map ascii_of_nat (seq 0 256)))).
  vm_compute. reflexivity.
Qed.

Lemma sameText_toLowerCase (s t : string) :
  Spec.sameText s t = true <-> toLowerCase s = toLowerCase t.
Proof.
  revert t. induction s as [|a s IH]; intros [|b t]; cbn [Spec.sameText toLowerCase];
    try (split; [reflexivity || discriminate | reflexivity || discriminate]).
  rewrite andb_true_iff, sameLetter_lowerChar, Ascii.eqb_eq, IH. split.
  - intros [-> ->]. reflexivity.
  - intros H. injection H as Hc Hs. now split.
Qed.

(** Occurring with letter case ignored, said without [toLowerCase]. *)
Lemma occursIn_anyCase (text keyword : string) :
  Spec.occursIn text keyword <-> Spec.occursAnyCase text keyword.
Proof.
  unfold Spec.occursIn, Spec.occursAnyCase.
  split; intros (before & found & after & Htext & Hsame); exists before, found, after;
    (split; [exact Htext | now apply sameText_toLowerCase]).
Qed.

Lemma startsAnyCase_toLowerCase (text keyword : string) :
  startsWith (toLowerCase text) (toLowerCase keyword) = Spec.startsAnyCase text keyword.
Proof.
  revert text. induction keyword as [|b keyword IH]; intros [|a text];
    cbn [toLowerCase startsWith Spec.startsAnyCase]; try reflexivity.
  now rewrite sameLetter_lowerChar, IH.
Qed.

(** Counting in the lower-case texts is counting with letter case
    ignored. *)
Lemma occurrences_anyCase (text keyword : string) :
  Spec.occurrences (toLowerCase text) (toLowerCase keyword) =
  Spec.occurrencesAnyCase text keyword.
Proof.
  induction text as [|a text IH].
  - cbn [toLowerCase Spec.occurrences Spec.occurrencesAnyCase].
    now rewrite <- startsAnyCase_toLowerCase.
  - change (toLowerCase (String a text)) with (String (lowerChar a) (toLowerCase text)).
    cbn [Spec.occurrences Spec.occurrencesAnyCase].
    change (String (lowerChar a) (toLowerCase text)) with (toLowerCase (String a text)).
    now rewrite startsAnyCase_toLowerCase, IH.
Qed.

End CaseFacts.

(** ** The scoring helpers against the specification *)

Module SeoHelpersFacts.
Import JS SeoHelpers JSFacts.
Local Open Scope string_scope.

(** Closed numeric goals are settled by evaluation. *)
Ltac evaluate := vm_compute; reflexivity.

(** *** Title and description *)

Lemma keywordMatch_iff (text : string) (targetKeywords : list string) :
  keywordMatch (toLowerCase text) targetKeywords = true <->
  Exists (Spec.occursIn text) targetKeywords.
Proof.
  unfold keywordMatch. rewrite existsb_exists, Exists_exists.
  split; intros (k & Hin & Hk); exists k;
    (split; [now apply list_elem_of_In | now apply includes_toLowerCase]).
Qed.

Lemma lengthScore_subscore (a b c d n : nat) :
  (0 < n)%nat -> lengthScore a b c d n 0 = Spec.lengthSubscore a b c d n.
Proof.
  intros Hn. unfold lengthScore, Spec.lengthSubscore.
  destruct (Nat.leb_spec a n), (Nat.leb_spec n b), (Nat.leb_spec c n), (Nat.leb_spec n d);
    simpl; repeat case_decide; try lia; try evaluate;
    destruct (Nat.ltb_spec 0 n); try lia; evaluate.
Qed.

Lemma lengthSubscore_add_zero (a b c d n : nat) :
  (Spec.lengthSubscore a b c d n + 0)%float = Spec.lengthSubscore a b c d n.
Proof. unfold Spec.lengthSubscore. repeat case_decide; evaluate. Qed.

(** The shape shared by [calculateTitleScore] and [calculateDescriptionScore]
    on a non-empty text with target keywords. *)
Lemma averaged (a b c d : nat) (text : string) (targetKeywords : list string) :
  (0 < String.length text)%nat ->
  let score := lengthScore a b c d (String.length text) 0 in
  exists keywordSubscore : float,
    (Exists (Spec.occursIn text) targetKeywords /\ keywordSubscore = 100%float \/
     ~ Exists (Spec.occursIn text) targetKeywords /\ keywordSubscore = 0%float) /\
    Math_round
      ((if keywordMatch (toLowerCase text) targetKeywords then score + 100 else score) / 2) =
    Math_round ((Spec.lengthSubscore a b c d (String.length text) + keywordSubscore) / 2).
Proof.
  intros Hn score. subst score. rewrite lengthScore_subscore by assumption.
  destruct (keywordMatch (toLowerCase text) targetKeywords) eqn:Hm.
  - exists 100%float. split; [left; split; [now apply keywordMatch_iff | reflexivity] | reflexivity].
  - exists 0%float. split.
    + right. split; [|reflexivity]. rewrite <- keywordMatch_iff, Hm. discriminate.
    + now rewrite lengthSubscore_add_zero.
Qed.

(** The same, with the occurrence said without [toLowerCase]. *)
Lemma averaged_anyCase (a b c d : nat) (text : string) (targetKeywords : list string) :
  (0 < String.length text)%nat ->
  let score := lengthScore a b c d (String.length text) 0 in
  exists keywordSubscore : float,
    (Exists (Spec.occursAnyCase text) targetKeywords /\ keywordSubscore = 100%float \/
     ~ Exists (Spec.occursAnyCase text) targetKeywords /\ keywordSubscore = 0%float) /\
    Math_round
      ((if keywordMatch (toLowerCase text) targetKeywords then score + 100 else score) / 2) =
    Math_round ((Spec.lengthSubscore a b c d (String.length text) + keywordSubscore) / 2).
Proof.
  intros Hn score.
  assert (Hcase : Exists (Spec.occursIn text) targetKeywords <->
                  Exists (Spec.occursAnyCase text) targetKeywords).
  { rewrite !Exists_exists. split; intros (k & Hin & Hk); exists k;
      (split; [exact Hin | now apply CaseFacts.occursIn_anyCase]). }
  destruct (averaged a b c d text targetKeywords Hn) as (k & Hk & Heq).
  exists k. split; [|exact Heq]. now rewrite <- Hcase.
Qed.

(** C5. [calculateTitleScore] is 0 for an absent or empty title; with no
    target keyword it is the length subscore (100 for 50 to 60 characters,
    70 for 40 to 70, 40 otherwise); with target keywords it is the rounded
    average of the length subscore and a keyword subscore that is 100 when
    some keyword occurs in the title, letter case ignored, and 0 when none
    does. The same holds with the occurrence said without [toLowerCase]:
    a stretch of the title spells the keyword, capitals and small letters
    taken as the same. The four examples of the specification evaluate to
    0, 100, 50 and 100; [Hello World] scores 70 with the keyword [hello],
    [hello world] scores 70 with [WORLD], and [Hello World] scores 20
    with [help]. *)
Theorem calculateTitleScore_spec :
  (forall targetKeywords,
     calculateTitleScore None targetKeywords = 0%float /\
     calculateTitleScore (Some "") targetKeywords = 0%float) /\
  (forall c rest,
     let title := String c rest in
     calculateTitleScore (Some title) [] =
     Spec.lengthSubscore 50 60 40 70 (String.length title)) /\
  (forall c rest keyword keywords,
     let title := String c rest in
     let targetKeywords := keyword :: keywords in
     exists keywordSubscore : float,
       (Exists (Spec.occursIn title) targetKeywords /\ keywordSubscore = 100%float \/
        ~ Exists (Spec.occursIn title) targetKeywords /\ keywordSubscore = 0%float) /\
       calculateTitleScore (Some title) targetKeywords =
       Math_round ((Spec.lengthSubscore 50 60 40 70 (String.length title) + keywordSubscore) / 2)) /\
  calculateTitleScore None [] = 0%float /\
  calculateTitleScore (Some (String_repeat "x" 55)) [] = 100%float /\
  calculateTitleScore (Some (String_repeat "x" 55)) ["y"] = 50%float /\
  calculateTitleScore (Some (String_repeat "x" 55 ++ " y")) ["y"] = 100%float /\
  (forall c rest keyword keywords,
     let title := String c rest in
     let targetKeywords := keyword :: keywords in
     exists keywordSubscore : float,
       (Exists (Spec.occursAnyCase title) targetKeywords /\ keywordSubscore = 100%float \/
        ~ Exists (Spec.occursAnyCase title) targetKeywords /\ keywordSubscore = 0%float) /\
       calculateTitleScore (Some title) targetKeywords =
       Math_round ((Spec.lengthSubscore 50 60 40 70 (String.length title) + keywordSubscore) / 2)) /\
  calculateTitleScore (Some "Hello World") ["hello"] = 70%float /\
  calculateTitleScore (Some "hello world") ["WORLD"] = 70%float /\
  calculateTitleScore (Some "Hello World") ["help"] = 20%float.
Proof.
  split; [|split; [|split]].
  - intros targetKeywords. split; reflexivity.
  - intros c rest title. subst title. unfold calculateTitleScore.
    change (0 <? List.length (@nil string))%nat with false. cbv iota.
    apply lengthScore_subscore. simpl. lia.
  - intros c rest keyword keywords title targetKeywords.
    unfold calculateTitleScore. subst title.
    change (0 <? List.length targetKeywords)%nat with true. cbv iota.
    apply averaged. simpl. lia.
  - split; [evaluate|]. split; [evaluate|]. split; [evaluate|]. split; [evaluate|].
    split; [|repeat split; evaluate].
    intros c rest keyword keywords title targetKeywords.
    unfold calculateTitleScore. subst title.
    change (0 <? List.length targetKeywords)%nat with true. cbv iota.
    apply averaged_anyCase. simpl. lia.
Qed.

(** *** Headings *)

Lemma hasType_present (type : string) (h : value) :
  Spec.present h -> hasType type h = Normal (Spec.isHeading type h).
Proof. intros [Hnull Hundef]. destruct h; try reflexivity; congruence. Qed.

Lemma some_hasType (type : string) (headings : list value) :
  Forall Spec.present headings ->
  some (hasType type) headings = Normal (existsb (Spec.isHeading type) headings).
Proof.
  induction 1 as [|h headings Hh _ IH]; simpl; [reflexivity|].
  rewrite hasType_present by assumption.
  destruct (Spec.isHeading type h); [reflexivity | exact IH].
Qed.

Lemma filterC_hasType (type : string) (headings : list value) :
  Forall Spec.present headings ->
  filterC (hasType type) headings = Normal (List.filter (Spec.isHeading type) headings).
Proof.
  induction 1 as [|h headings Hh _ IH]; simpl; [reflexivity|].
  rewrite hasType_present, IH by assumption.
  now destruct (Spec.isHeading type h).
Qed.

(** C7. On a list of headings, none of them [null] or [undefined],
    [calculateHeadingsScore] returns the clamp to [[0,100]] of 50 for any h1,
    plus 25 for any h2, plus 25 for exactly one h1, minus 25 for more than
    one h1; two h1 and one h2 score 50. *)
Theorem calculateHeadingsScore_spec (headings : list value) :
  Forall Spec.present headings ->
  calculateHeadingsScore (Array headings) = Normal (Spec.headingsScore headings) /\
  calculateHeadingsScore
    (Array [Object [("type", Str "h1")]; Object [("type", Str "h1")];
            Object [("type", Str "h2")]]) = Normal 50%float.
Proof.
  intros Hpresent. split; [|evaluate].
  unfold calculateHeadingsScore, Spec.headingsScore, Spec.clamp.
  rewrite !some_hasType, filterC_hasType by assumption. cbn [mbind completion_bind mret completion_ret].
  set (h1Count := List.length (List.filter (Spec.isHeading "h1") headings)).
  destruct (existsb (Spec.isHeading "h1") headings), (existsb (Spec.isHeading "h2") headings),
    (Nat.eqb_spec h1Count 1), (Nat.ltb_spec 1 h1Count);
    repeat case_decide; try lia; evaluate.
Qed.

Lemma calculateHeadingsScore_witness :
  Forall Spec.present [Object [("type", Str "h1")]; Str "h2"; Number 3] /\
  calculateHeadingsScore (Array [Object [("type", Str "h1")]; Str "h2"; Number 3]) =
  Normal 75%float.
Proof.
  assert (H : Forall Spec.present [Object [("type", Str "h1")]; Str "h2"; Number 3])
    by (repeat constructor; discriminate).
  split; [exact H|].
  exact (eq_trans (proj1 (calculateHeadingsScore_spec _ H)) eq_refl).
Defined.

(** *** Keyword density *)

(** The loop counts the occurrences from position [p] on, given the fuel
    for the positions that are left. *)
Lemma countLoop_occurrences (content : string) (c : ascii) (k : string) :
  forall (fuel p count : nat),
    (p <= String.length content)%nat ->
    (String.length content - p + 2 <= fuel)%nat ->
    countLoop fuel content (String c k) (Z.of_nat p - 1) count =
    Some (count + Spec.occurrences (skip p content) (String c k))%nat.
Proof.
  induction fuel as [|fuel IH]; intros p count Hp Hfuel; [lia|].
  cbn [countLoop]. rewrite indexOf_inside by assumption.
  destruct (Z.eqb_spec (search (skip p content) (String c k) (Z.of_nat p)) (-1)) as [Hs|Hs].
  - rewrite (search_none _ _ (Z.of_nat p) ltac:(lia) Hs). f_equal. lia.
  - destruct (search_found _ c k (Z.of_nat p) ltac:(lia) Hs) as (j & -> & Hj & Hocc).
    rewrite skip_length in Hj.
    replace (Z.of_nat p + Z.of_nat j)%Z with (Z.of_nat (p + S j) - 1)%Z by lia.
    rewrite IH by lia. rewrite Hocc, skip_skip. f_equal. lia.
Qed.

Lemma densityScore_banded (d : float) : Spec.banded d (densityScore d).
Proof.
  unfold Spec.banded, densityScore. repeat split.
  - intros [H1 H3]. now rewrite H1, H3.
  - intros [H0 H1]. now rewrite (FloatFacts.ltb_not_leb _ _ H1), H0, H1.
  - intros [H3 H5].
    rewrite (FloatFacts.ltb_not_leb _ _ H3), (FloatFacts.above_not_under 3 1 d eq_refl H3), H3, H5.
    now rewrite !andb_false_r.
  - intros H5.
    rewrite (FloatFacts.above_not_below 5 3 d eq_refl H5),
      (FloatFacts.above_not_under 5 1 d eq_refl H5), (FloatFacts.ltb_not_leb _ _ H5), H5.
    now rewrite !andb_false_r.
  - intros H0.
    rewrite (FloatFacts.not_above_not_from 0 1 d eq_refl H0), H0,
      (FloatFacts.not_above_not_over 0 3 d eq_refl H0),
      (FloatFacts.not_above_not_over 0 5 d eq_refl H0).
    reflexivity.
Qed.

(** The run of [calculateKeywordDensityScore] on a content and a non-empty
    keyword, against the density of the specification. *)
Lemma calculateKeywordDensityScore_run
    (content : string) (c : ascii) (rest : string) (extra : nat) :
  exists score : float,
    calculateKeywordDensityScore (String.length content + 2 + extra) (Some content)
      (String c rest) = Some score /\
    match Spec.density content (String c rest) with
    | Some d => Spec.banded d score
    | None => score = 0%float
    end.
Proof.
  destruct content as [|a s].
  - exists 0%float. split; reflexivity.
  - unfold calculateKeywordDensityScore, Spec.density.
    cbn [toLowerCase].
    change (-1)%Z with (Z.of_nat 0 - 1)%Z.
    rewrite countLoop_occurrences
      by (pose proof (toLowerCase_length (String a s)) as Hlen; cbn [toLowerCase] in Hlen; lia).
    cbn [mbind option_bind skip]. rewrite Nat.add_0_l.
    change (String (lowerChar a) (toLowerCase s)) with (toLowerCase (String a s)).
    change (String (lowerChar c) (toLowerCase rest)) with (toLowerCase (String c rest)).
    rewrite !words_toLowerCase.
    destruct (Nat.eqb_spec (List.length (words (String a s))) 0) as [H0|H0];
      case_decide; try lia.
    + exists 0%float. split; reflexivity.
    + eexists. split; [reflexivity|]. apply densityScore_banded.
Qed.

(** C6. With enough fuel for its loop, [calculateKeywordDensityScore] on a
    content and a non-empty keyword returns a score; the loop has counted
    the positions where the keyword starts in the content, letter case
    ignored and word boundaries too; the score is the one for
    density = occurrences x wordsInKeyword / totalWords x 100: 100 in
    [[1,3]], 70 in [(0,1)], 50 in [(3,5]], 30 above 5, else 0 (also when the
    content has no word). Ten [a] and one [b] score 30. The same holds
    with the count said without [toLowerCase], capitals and small letters
    taken as the same: [sEo] starts three times in [SEO tips: Seo and seo],
    which scores 30, and [keyword] once in [Keyword] followed by 49 words
    [x], which scores 100. *)
Theorem calculateKeywordDensityScore_spec
    (content : string) (c : ascii) (rest : string) (extra : nat) :
  let keyword := String c rest in
  (exists score : float,
     calculateKeywordDensityScore (String.length content + 2 + extra) (Some content) keyword =
     Some score /\
     match Spec.density content keyword with
     | Some d => Spec.banded d score
     | None => score = 0%float
     end) /\
  Spec.occurrences "a a a a a a a a a a b" "a" = 10%nat /\
  Spec.occurrences "banana" "ana" = 2%nat /\
  Spec.density "a a a a a a a a a a b" "a" = Some (10 * 1 / 11 * 100)%float /\
  calculateKeywordDensityScore (String.length "a a a a a a a a a a b" + 2)
    (Some "a a a a a a a a a a b") "a" = Some 30%float /\
  (exists score : float,
     calculateKeywordDensityScore (String.length content + 2 + extra) (Some content) keyword =
     Some score /\
     match Spec.densityAnyCase content keyword with
     | Some d => Spec.banded d score
     | None => score = 0%float
     end) /\
  Spec.occurrencesAnyCase "SEO tips: Seo and seo" "sEo" = 3%nat /\
  Spec.densityAnyCase "SEO tips: Seo and seo" "sEo" = Some (3 * 1 / 5 * 100)%float /\
  calculateKeywordDensityScore (String.length "SEO tips: Seo and seo" + 2)
    (Some "SEO tips: Seo and seo") "sEo" = Some 30%float /\
  Spec.densityAnyCase ("Keyword " ++ String_repeat "x " 49) "keyword" =
  Some (1 * 1 / 50 * 100)%float /\
  calculateKeywordDensityScore (String.length ("Keyword " ++ String_repeat "x " 49) + 2)
    (Some ("Keyword " ++ String_repeat "x " 49)) "keyword" = Some 100%float.
Proof.
  intros keyword. split; [apply calculateKeywordDensityScore_run|].
  split; [evaluate|]. split; [evaluate|]. split; [evaluate|]. split; [evaluate|].
  split; [|repeat split; evaluate].
  destruct (calculateKeywordDensityScore_run content c rest extra) as (score & Hrun & Hscore).
  exists score. split; [exact Hrun|].
  unfold Spec.density in Hscore. unfold Spec.densityAnyCase.
  now rewrite CaseFacts.occurrences_anyCase in Hscore.
Qed.

(** *** The overall score *)

Lemma totals_known (factors : list (string * float)) (acc : float * applied) :
  fold_left accumulate (List.filter Spec.known factors) acc = fold_left accumulate factors acc.
Proof.
  revert acc. induction factors as [|[factor score] factors IH]; intros acc; [reflexivity|].
  cbn [List.filter fold_left]. unfold Spec.known at 1. cbn [fst].
  destruct (weightOf factor) as [weight|] eqn:Hw.
  - cbn [fold_left]. apply IH.
  - rewrite IH. f_equal. unfold accumulate. destruct acc. now rewrite Hw.
Qed.

(** The keys that are no property of [weights], own or inherited, do not
    count: the score is that of the other entries. With weight 0.22
    applied, the scores 80 and 60 average to 69; the twelve weights add up
    to exactly 1, and twelve scores of 100 make 100. *)
Theorem calculateSeoScore_known (factors : list (string * float)) :
  calculateSeoScore (List.filter Spec.known factors) = calculateSeoScore factors /\
  calculateSeoScore [("metaTitle", 80%float); ("contentQuality", 60%float)] = 69%float /\
  calculateSeoScore [("metaTitle", 80%float); ("colour", 1%float); ("contentQuality", 60%float)]
    = 69%float /\
  totals (map (fun entry => (fst entry, 100%float)) weights) = (100%float, Sum 1) /\
  calculateSeoScore (map (fun entry => (fst entry, 100%float)) weights) = 100%float.
Proof.
  split; [|repeat split; evaluate].
  unfold calculateSeoScore, totals. now rewrite totals_known.
Qed.

(** C2. A key that [weights] inherits from [Object.prototype] is not in
    the weight table and still counts: with the entry [toString: 50] the
    score of [metaTitle: 80] is [NaN], not 80. *)
Theorem calculateSeoScore_inherited_key :
  ownWeight weights "toString" = None /\
  weightOf "toString" = Some Inherited /\
  calculateSeoScore [("metaTitle", 80%float)] = 80%float /\
  is_nan (calculateSeoScore [("toString", 50%float); ("metaTitle", 80%float)]) = true.
Proof. repeat split; evaluate. Qed.

(** *** The range of the scores *)

Ltac in_range := split; evaluate.

Ltac branches :=
  repeat match goal with
         | |- context [if ?b then _ else _] => destruct b
         end.

Lemma lengthScore_inRange (a b c d n : nat) : Spec.inRange (lengthScore a b c d n 0).
Proof. unfold lengthScore. branches; in_range. Qed.

Lemma averaged_inRange (a b c d n : nat) (targetKeywords : list string) (lower : string) :
  Spec.inRange
    (Math_round
       ((if keywordMatch lower targetKeywords
         then lengthScore a b c d n 0 + 100 else lengthScore a b c d n 0) / 2)).
Proof. unfold lengthScore. branches; in_range. Qed.

Lemma calculateHeadingsScore_inRange (headings : value) (score : float) :
  calculateHeadingsScore headings = Normal score -> Spec.inRange score.
Proof.
  unfold calculateHeadingsScore. destruct headings as [| | | | |headings|];
    try (intros H; injection H as <-; in_range).
  destruct (some (hasType "h1") headings) as [hasH1|]; [|discriminate].
  cbn [mbind completion_bind].
  destruct (some (hasType "h2") headings) as [hasH2|]; [|discriminate].
  cbn [mbind completion_bind].
  destruct (filterC (hasType "h1") headings) as [h1s|]; [|discriminate].
  cbn [mbind completion_bind mret completion_ret].
  intros H; injection H as <-. destruct hasH1, hasH2; branches; in_range.
Qed.

Lemma densityScore_inRange (d : float) : Spec.inRange (densityScore d).
Proof. unfold densityScore. branches; in_range. Qed.

Lemma calculateKeywordDensityScore_returns
    (content : option string) (keyword : string) (extra : nat) :
  exists score,
    calculateKeywordDensityScore (Spec.enough content + extra) content keyword = Some score /\
    Spec.inRange score.
Proof.
  destruct content as [[|a s]|];
    [exists 0%float; split; [reflexivity | in_range] | |
     exists 0%float; split; [reflexivity | in_range]].
  destruct keyword as [|c rest]; [exists 0%float; split; [reflexivity | in_range]|].
  destruct (calculateKeywordDensityScore_run (String a s) c rest extra)
    as (score & Hscore & _).
  exists score. split; [exact Hscore|].
  revert Hscore. unfold calculateKeywordDensityScore.
  destruct (countLoop _ _ _ _ _) as [count|]; [|discriminate].
  cbn [mbind option_bind]. destruct (_ =? 0)%nat; intros H; injection H as <-;
    [in_range | apply densityScore_inRange].
Qed.

(** Apart from [calculateSeoScore], the scoring functions stay within 0
    and 100 on every input: the title, description and content scores
    always, the headings score whenever the call returns, and the keyword
    density score, which returns once its loop has fuel enough. *)
Theorem scores_inRange :
  (forall title targetKeywords, Spec.inRange (calculateTitleScore title targetKeywords)) /\
  (forall description targetKeywords,
     Spec.inRange (calculateDescriptionScore description targetKeywords)) /\
  (forall headings score,
     calculateHeadingsScore headings = Normal score -> Spec.inRange score) /\
  (forall content minWords, Spec.inRange (calculateContentScore content minWords)) /\
  (forall content keyword extra,
     exists score,
       calculateKeywordDensityScore (Spec.enough content + extra) content keyword = Some score /\
       Spec.inRange score).
Proof.
  split; [|split; [|split; [|split]]].
  - intros [[|c s]|] targetKeywords; [in_range| |in_range].
    unfold calculateTitleScore. cbv beta iota zeta.
    destruct (0 <? _)%nat; [apply averaged_inRange | apply lengthScore_inRange].
  - intros [[|c s]|] targetKeywords; [in_range| |in_range].
    unfold calculateDescriptionScore. cbv beta iota zeta.
    destruct (0 <? _)%nat; [apply averaged_inRange | apply lengthScore_inRange].
  - apply calculateHeadingsScore_inRange.
  - intros [[|c s]|] minWords; [in_range| |in_range].
    unfold calculateContentScore. cbv beta iota zeta. branches; in_range.
  - apply calculateKeywordDensityScore_returns.
Qed.

(** C1. The overall score leaves the range: on the factor map
    [{toString: 50}], whose one score lies within 0 and 100,
    [calculateSeoScore] returns [NaN], which is not within 0 and 100. *)
Theorem calculateSeoScore_out_of_range :
  let factors := [("toString", 50%float)] in
  Forall (fun entry => Spec.inRange (snd entry)) factors /\
  is_nan (calculateSeoScore factors) = true /\
  ~ Spec.inRange (calculateSeoScore factors).
Proof.
  cbv zeta. split; [|split].
  - repeat constructor.
  - evaluate.
  - intros [H _]. vm_compute in H. discriminate.
Qed.

(** *** Totality *)

(** The documented defaults: a value that is no array scores 0 as
    headings, and an absent or empty text scores 0 everywhere. *)
Theorem absent_input_scores_zero :
  (forall headings,
     match headings with Array _ => True | _ => calculateHeadingsScore headings = Normal 0%float end) /\
  (forall targetKeywords,
     calculateTitleScore None targetKeywords = 0%float /\
     calculateDescriptionScore None targetKeywords = 0%float /\
     calculateTitleScore (Some "") targetKeywords = 0%float /\
     calculateDescriptionScore (Some "") targetKeywords = 0%float) /\
  (forall minWords,
     calculateContentScore None minWords = 0%float /\
     calculateContentScore (Some "") minWords = 0%float) /\
  (forall fuel keyword content,
     calculateKeywordDensityScore fuel None keyword = Some 0%float /\
     calculateKeywordDensityScore fuel (Some "") keyword = Some 0%float /\
     calculateKeywordDensityScore fuel content "" = Some 0%float).
Proof.
  repeat split; try reflexivity.
  - now destruct headings.
  - now destruct content as [[|]|].
Qed.

(** C9. [calculateHeadingsScore] is not total: an array that holds [null]
    or [undefined] makes it throw a [TypeError], whether or not a heading
    comes first. *)
Theorem calculateHeadingsScore_throws :
  calculateHeadingsScore (Array [Null]) = Throw TypeError /\
  calculateHeadingsScore (Array [Undefined]) = Throw TypeError /\
  calculateHeadingsScore (Array [Object [("type", Str "h1")]; Object [("type", Str "h2")]; Null])
    = Throw TypeError.
Proof. repeat split; evaluate. Qed.

End SeoHelpersFacts.

(** ** The store against the specification *)

Module StorageFacts.
Import JS Browser Storage StorageSpec.
Local Open Scope string_scope.

(** *** What the generic get and set do, case by case *)

Lemma getFromStorage_run {T} (key : Key T) (defaultValue : T) (w : World) :
  getFromStorage key defaultValue w =
  if negb (window w) then (Normal defaultValue, w)
  else if denied w then
    (Normal defaultValue,
     logged ("Error retrieving " ++ name key ++ " from localStorage:", SecurityError) w)
  else
    match read key (storage w) with
    | Some (Json v) => (Normal v, w)
    | Some Malformed =>
        (Normal defaultValue,
         logged ("Error retrieving " ++ name key ++ " from localStorage:", SyntaxError) w)
    | _ => (Normal defaultValue, w)
    end.
Proof.
  unfold getFromStorage, mbind, js_bind, bind, window_undefined, try_catch, getItem.
  destruct (window w); simpl; [|reflexivity].
  destruct (denied w); simpl; [reflexivity|].
  now destruct (read key (storage w)) as [[| |v]|].
Qed.

Lemma setInStorage_run {T} (key : Key T) (value : T) (w : World) :
  setInStorage key value w =
  if negb (window w) then (Normal tt, w)
  else if denied w then
    (Throw SecurityError,
     logged ("Error saving " ++ name key ++ " to localStorage:", SecurityError) w)
  else if exhausted w then
    (Throw QuotaExceededError,
     logged ("Error saving " ++ name key ++ " to localStorage:", QuotaExceededError) w)
  else (Normal tt, storing (write key (Json value) (storage w)) w).
Proof.
  unfold setInStorage, mbind, js_bind, bind, window_undefined, try_catch, setItem,
    JSON_stringify, ret.
  destruct (window w); simpl; [|reflexivity].
  destruct (denied w); simpl; [reflexivity|].
  now destruct (exhausted w).
Qed.

Lemma get_run (g : getter) (w : World) :
  get g w = getFromStorage (keyOf g) (defaultOf g) w.
Proof. now destruct g. Qed.

(** A get returns, and leaves the browser as it is. *)
Lemma getFromStorage_returns {T} (key : Key T) (defaultValue : T) (w w1 : World)
    (c : completion T) :
  getFromStorage key defaultValue w = (c, w1) ->
  exists v, c = Normal v /\ sameBrowser w w1.
Proof.
  rewrite getFromStorage_run.
  destruct (window w), (denied w); cbn [negb];
    try destruct (read key (storage w)) as [[| |v]|];
    intros H; injection H as <- <-; eexists; split; try reflexivity; now repeat split.
Qed.

(** A set in a browser that refuses the write logs the error and throws it. *)
Lemma setInStorage_fails {T} (key : Key T) (value : T) (w w1 : World) :
  sameBrowser w w1 -> window w = true -> denied w = true \/ exhausted w = true ->
  let e := if denied w then SecurityError else QuotaExceededError in
  setInStorage key value w1 =
  (Throw e, logged ("Error saving " ++ name key ++ " to localStorage:", e) w1).
Proof.
  intros (Hwin & Hden & Hexh & _) Hw Hfail. rewrite setInStorage_run, Hwin, Hden, Hexh, Hw.
  cbn [negb]. destruct (denied w); [reflexivity|].
  destruct Hfail as [Hd|He]; [discriminate | now rewrite He].
Qed.

Lemma sameBrowser_refl (w : World) : sameBrowser w w.
Proof. now repeat split. Qed.

(** The steps of a save up to its write: the get, then the readings of the
    clock. *)
Ltac until_write Hget :=
  unfold saveProject, saveAnalysisResult, saveKeyword, saveContent, saveCompetitorAnalysis,
    saveCredentials, saveApiEndpoints, saveUserSettings,
    getProjects, getRecentAnalyses, getSavedKeywords, getSavedContent, getCompetitorAnalyses,
    mbind, js_bind, bind, now;
  try match goal with
      | |- context [getFromStorage ?key ?d ?w] =>
          let c := fresh "c" in
          let w1 := fresh "w1" in
          let l := fresh "l" in
          let H := fresh "H" in
          destruct (getFromStorage key d w) as [c w1] eqn:H;
          destruct (getFromStorage_returns _ _ _ _ _ H) as (l & -> & Hget);
          cbv beta iota
      end;
  try match goal with
      | |- context [if (0 <=? ?i)%Z then _ else _] => destruct (0 <=? i)%Z
      end.

(** C8. Every get returns: with the default when the key is not set, when
    the storage cannot be reached or when the text does not parse (the last
    two are logged), with the stored value otherwise, and it never throws.
    Every save in a browser whose storage refuses the write logs the error
    and throws it to its caller, with nothing stored. A keyword saved into
    a storage that is full is one such case. *)
Theorem storage_errors :
  (forall (g : getter) (w : World),
     exists v w',
       get g w = (Normal v, w') /\ storage w' = storage w /\
       (window w = true -> denied w = true ->
        v = defaultOf g /\
        w' = logged ("Error retrieving " ++ name (keyOf g) ++ " from localStorage:",
                     SecurityError) w) /\
       (window w = true -> denied w = false ->
        match read (keyOf g) (storage w) with
        | None | Some Blank => v = defaultOf g /\ w' = w
        | Some Malformed =>
            v = defaultOf g /\
            w' = logged ("Error retrieving " ++ name (keyOf g) ++ " from localStorage:",
                         SyntaxError) w
        | Some (Json x) => v = x /\ w' = w
        end)) /\
  (forall (s : saver) (w : World),
     window w = true -> denied w = true \/ exhausted w = true ->
     exists e w',
       save s w = (Throw e, w') /\
       e = (if denied w then SecurityError else QuotaExceededError) /\
       storage w' = storage w /\
       last (console w') = Some ("Error saving " ++ savedUnder s ++ " to localStorage:", e)) /\
  (let w := mkWorld true false true Storage.empty (fun _ => "2024-05-01T10:00:00.000Z") 0 [] in
   let keyword := SavedKeyword.mk "k1" "seo" "" None None None None in
   save (SaveKeyword keyword) w =
   (Throw QuotaExceededError,
    logged ("Error saving seo-toolkit-saved-keywords to localStorage:", QuotaExceededError)
           (ticked w))).
Proof.
  split; [|split]; [| |reflexivity].
  - intros g w. rewrite get_run, getFromStorage_run.
    destruct (window w), (denied w); cbn [negb];
      try destruct (read (keyOf g) (storage w)) as [[| |x]|];
      eexists _, _; (split; [reflexivity|]); (split; [reflexivity|]);
      split; intros; try discriminate; auto.
  - intros s w Hw Hfail.
    destruct s; unfold save, savedUnder; until_write Hget;
      try (erewrite setInStorage_fails; [ | eassumption || apply sameBrowser_refl | assumption..]);
      cbv zeta; eexists _, _;
      (split; [reflexivity|]); (split; [reflexivity|]);
      (split; [try apply Hget; reflexivity | ]); cbn [console logged]; apply last_snoc.
Qed.

(** C10. Without a window, every save returns without storing anything and
    without an error, thrown or logged, and every get returns its default
    and leaves the world as it is, also when the storage would have
    refused the access. *)
Theorem without_window (w : World) :
  window w = false ->
  (forall s : saver,
     exists w', save s w = (Normal tt, w') /\ storage w' = storage w /\ console w' = console w) /\
  (forall g : getter, get g w = (Normal (defaultOf g), w)).
Proof.
  intros Hw. split.
  - intros s. destruct s; unfold save; until_write Hget;
      try match goal with
          | H : getFromStorage _ _ _ = _ |- _ =>
              rewrite getFromStorage_run, Hw in H; injection H as <- <-
          end;
      rewrite setInStorage_run; cbn [window ticked]; rewrite Hw; cbn [negb];
      eexists; (split; [reflexivity|]); now split.
  - intros g. now rewrite get_run, getFromStorage_run, Hw.
Qed.

Lemma without_window_witness :
  window server = false /\
  (forall s : saver,
     exists w', save s server = (Normal tt, w') /\
                storage w' = storage server /\ console w' = console server) /\
  (forall g : getter, get g server = (Normal (defaultOf g), server)).
Proof. split; [reflexivity | exact (without_window server eq_refl)]. Defined.

(** *** In a browser whose storage works *)

Lemma getFromStorage_ready {T} (key : Key T) (defaultValue : T) (w : World) :
  ready w ->
  exists w1,
    getFromStorage key defaultValue w = (Normal (valueAt key defaultValue w), w1) /\
    sameBrowser w w1 /\ clock w1 = clock w /\ ticks w1 = ticks w.
Proof.
  intros (Hw & Hd & _). rewrite getFromStorage_run, Hw, Hd. unfold valueAt. cbn [negb].
  destruct (read key (storage w)) as [[| |v]|]; eexists; split; try reflexivity;
    now repeat split.
Qed.

Lemma setInStorage_ready {T} (key : Key T) (value : T) (w w1 : World) :
  ready w -> sameBrowser w w1 ->
  setInStorage key value w1 =
  (Normal tt, storing (write key (Json value) (storage w1)) w1).
Proof.
  intros (Hw & Hd & He) (Hwin & Hden & Hexh & _).
  now rewrite setInStorage_run, Hwin, Hden, Hexh, Hw, Hd, He.
Qed.

Lemma ready_storing (s : Items) (w w1 : World) :
  ready w -> sameBrowser w w1 -> ready (storing s w1).
Proof.
  intros (Hw & Hd & He) (Hwin & Hden & Hexh & _). unfold ready. cbn.
  now rewrite Hwin, Hden, Hexh.
Qed.

(** *** [findIndex] *)

Lemma findIndexFrom_none {T} (same : T -> bool) (l : list T) (k : Z) :
  (forall x, x ∈ l -> same x = false) -> findIndexFrom same l k = (-1)%Z.
Proof.
  revert k. induction l as [|x l IH]; intros k H; simpl; [reflexivity|].
  rewrite (H x) by apply list_elem_of_here. apply IH.
  intros y Hy. apply H. now apply list_elem_of_further.
Qed.

Lemma findIndexFrom_first {T} (same : T -> bool) (l : list T) (k : Z) (i : nat) (old : T) :
  firstAt same l i old -> findIndexFrom same l k = (k + Z.of_nat i)%Z.
Proof.
  revert k i. induction l as [|x l IH]; intros k i (Hi & Hold & Hbefore); [discriminate|].
  simpl. destruct i as [|i].
  - injection Hi as ->. rewrite Hold. lia.
  - rewrite (Hbefore 0%nat x) by (try lia; reflexivity).
    rewrite (IH (k + 1)%Z i); [lia|].
    split; [exact Hi|]. split; [exact Hold|].
    intros j y Hj Hy. apply (Hbefore (S j) y); [lia | exact Hy].
Qed.

Lemma replacedAt_insert {T} (l : list T) (i : nat) (old updated : T) :
  l !! i = Some old -> replacedAt i updated l (<[i := updated]> l).
Proof.
  intros Hi. split; [apply length_insert|]. split.
  - apply list_lookup_insert_eq. now apply lookup_lt_Some in Hi.
  - intros j Hj. now apply list_lookup_insert_ne.
Qed.

(** What the branch on [findIndex] makes of a collection. *)
Lemma upserted_by_index {T} (same : T -> bool) (l : list T) (updated : T) (added : list T) :
  upserted same l updated added
    (if (0 <=? findIndex same l)%Z then <[Z.to_nat (findIndex same l) := updated]> l
     else added).
Proof.
  unfold findIndex. split.
  - intros i old Hfirst. rewrite (findIndexFrom_first same l 0 i old Hfirst).
    destruct (Z.leb_spec 0 (0 + Z.of_nat i)); [|lia].
    replace (Z.to_nat (0 + Z.of_nat i)) with i by lia.
    destruct Hfirst as (Hi & _). now apply replacedAt_insert with old.
  - intros Hnone. now rewrite (findIndexFrom_none same l 0 Hnone).
Qed.

(** *** The five saves of a collection *)

(** A save in a working browser, step by step: the get, the readings of
    the clock, the write. *)
Ltac save_ready R :=
  unfold saveProject, saveAnalysisResult, saveKeyword, saveContent, saveCompetitorAnalysis,
    getProjects, getRecentAnalyses, getSavedKeywords, getSavedContent, getCompetitorAnalyses,
    mbind, js_bind, bind, now;
  match goal with
  | |- context [getFromStorage ?key ?d ?w] =>
      let w1 := fresh "w1" in
      let Hget := fresh "Hget" in
      let Hsame := fresh "Hsame" in
      let Hclock := fresh "Hclock" in
      let Hticks := fresh "Hticks" in
      destruct (getFromStorage_ready key d w R) as (w1 & Hget & Hsame & Hclock & Hticks);
      rewrite Hget; cbv beta iota;
      match goal with
      | |- context [if (0 <=? ?i)%Z then _ else _] => destruct (0 <=? i)%Z
      end;
      match goal with
      | |- context [setInStorage ?k ?v ?w2] => rewrite (setInStorage_ready k v w w2 R Hsame)
      end;
      eexists; (split; [reflexivity|]);
      (split; [eapply ready_storing; [exact R | exact Hsame]|]);
      unfold valueAt; cbn [storage storing read write PROJECTS RECENT_ANALYSES SAVED_KEYWORDS
                             SAVED_CONTENT COMPETITOR_ANALYSES projects recent_analyses
                             saved_keywords saved_content competitor_analyses ticked clock ticks];
      rewrite ?Hclock, ?Hticks; reflexivity
  end.

Lemma saveProject_ready (project : Project.t) (w : World) :
  ready w ->
  let l := valueAt PROJECTS [] w in
  exists w',
    saveProject project w = (Normal tt, w') /\ ready w' /\
    valueAt PROJECTS [] w' =
    if (0 <=? findIndex (sameProject project) l)%Z
    then <[Z.to_nat (findIndex (sameProject project) l) :=
             projectAt (Project.dateCreated project) (clock w (ticks w)) project]> l
    else (l ++ [projectAt (clock w (ticks w)) (clock w (S (ticks w))) project])%list.
Proof. intros R l. subst l. unfold sameProject, projectAt. save_ready R. Qed.

Lemma saveAnalysisResult_ready (analysis : AnalysisResult.t) (w : World) :
  ready w ->
  let l := valueAt RECENT_ANALYSES [] w in
  exists w',
    saveAnalysisResult analysis w = (Normal tt, w') /\ ready w' /\
    valueAt RECENT_ANALYSES [] w' =
    if (0 <=? findIndex (sameAnalysis analysis) l)%Z
    then <[Z.to_nat (findIndex (sameAnalysis analysis) l) := analysis]> l
    else if (10 <? List.length (analysis :: l))%nat then removelast (analysis :: l)
         else analysis :: l.
Proof. intros R l. subst l. unfold sameAnalysis. save_ready R. Qed.

Lemma saveKeyword_ready (keyword : SavedKeyword.t) (w : World) :
  ready w ->
  let l := valueAt SAVED_KEYWORDS [] w in
  exists w',
    saveKeyword keyword w = (Normal tt, w') /\ ready w' /\
    valueAt SAVED_KEYWORDS [] w' =
    if (0 <=? findIndex (sameKeyword keyword) l)%Z
    then <[Z.to_nat (findIndex (sameKeyword keyword) l) := keyword]> l
    else (l ++ [keywordAt (clock w (ticks w)) keyword])%list.
Proof. intros R l. subst l. unfold sameKeyword, keywordAt. save_ready R. Qed.

Lemma saveContent_ready (content : SavedContent.t) (w : World) :
  ready w ->
  let l := valueAt SAVED_CONTENT [] w in
  exists w',
    saveContent content w = (Normal tt, w') /\ ready w' /\
    valueAt SAVED_CONTENT [] w' =
    if (0 <=? findIndex (sameContent content) l)%Z
    then <[Z.to_nat (findIndex (sameContent content) l) :=
             contentAt (SavedContent.dateCreated content) (clock w (ticks w)) content]> l
    else (l ++ [contentAt (clock w (ticks w)) (clock w (S (ticks w))) content])%list.
Proof. intros R l. subst l. unfold sameContent, contentAt. save_ready R. Qed.

Lemma saveCompetitorAnalysis_ready (analysis : CompetitorAnalysis.t) (w : World) :
  ready w ->
  let l := valueAt COMPETITOR_ANALYSES [] w in
  exists w',
    saveCompetitorAnalysis analysis w = (Normal tt, w') /\ ready w' /\
    valueAt COMPETITOR_ANALYSES [] w' =
    if (0 <=? findIndex (sameCompetitor analysis) l)%Z
    then <[Z.to_nat (findIndex (sameCompetitor analysis) l) := analysis]> l
    else (l ++ [competitorAt (clock w (ticks w)) analysis])%list.
Proof. intros R l. subst l. unfold sameCompetitor, competitorAt. save_ready R. Qed.

(** C4, as amended. In a browser whose storage works, each of the five
    saves replaces the first stored entity that has the identifier, at its
    position (length and the other positions are unchanged). [saveProject]
    and [saveContent] store the entity with [dateUpdated] read from the
    clock; [saveKeyword], [saveCompetitorAnalysis] and [saveAnalysisResult]
    store the entity as it is given. When no stored entity has the
    identifier, [saveProject] and [saveContent] append the entity with
    [dateCreated] and [dateUpdated] read from the clock, [saveKeyword]
    appends it with [dateAdded] and [saveCompetitorAnalysis] with
    [dateCreated] read from the clock, and [saveAnalysisResult] puts the
    entity as given in front and drops the last one once there are more
    than ten. *)
Theorem save_replaces_or_adds (w : World) :
  ready w ->
  let t0 := clock w (ticks w) in
  let t1 := clock w (S (ticks w)) in
  (forall project, exists w',
     saveProject project w = (Normal tt, w') /\
     upserted (sameProject project) (valueAt PROJECTS [] w)
       (projectAt (Project.dateCreated project) t0 project)
       (valueAt PROJECTS [] w ++ [projectAt t0 t1 project])%list
       (valueAt PROJECTS [] w')) /\
  (forall content, exists w',
     saveContent content w = (Normal tt, w') /\
     upserted (sameContent content) (valueAt SAVED_CONTENT [] w)
       (contentAt (SavedContent.dateCreated content) t0 content)
       (valueAt SAVED_CONTENT [] w ++ [contentAt t0 t1 content])%list
       (valueAt SAVED_CONTENT [] w')) /\
  (forall keyword, exists w',
     saveKeyword keyword w = (Normal tt, w') /\
     upserted (sameKeyword keyword) (valueAt SAVED_KEYWORDS [] w)
       keyword
       (valueAt SAVED_KEYWORDS [] w ++ [keywordAt t0 keyword])%list
       (valueAt SAVED_KEYWORDS [] w')) /\
  (forall analysis, exists w',
     saveCompetitorAnalysis analysis w = (Normal tt, w') /\
     upserted (sameCompetitor analysis) (valueAt COMPETITOR_ANALYSES [] w)
       analysis
       (valueAt COMPETITOR_ANALYSES [] w ++ [competitorAt t0 analysis])%list
       (valueAt COMPETITOR_ANALYSES [] w')) /\
  (forall analysis, exists w',
     saveAnalysisResult analysis w = (Normal tt, w') /\
     upserted (sameAnalysis analysis) (valueAt RECENT_ANALYSES [] w)
       analysis
       (let analyses := analysis :: valueAt RECENT_ANALYSES [] w in
        if (10 <? List.length analyses)%nat then removelast analyses else analyses)
       (valueAt RECENT_ANALYSES [] w')).
Proof.
  intros R t0 t1. subst t0 t1. split; [|split; [|split; [|split]]].
  - intros project. destruct (saveProject_ready project w R) as (w' & Hrun & _ & Hval).
    exists w'. split; [exact Hrun | rewrite Hval; apply upserted_by_index].
  - intros content. destruct (saveContent_ready content w R) as (w' & Hrun & _ & Hval).
    exists w'. split; [exact Hrun | rewrite Hval; apply upserted_by_index].
  - intros keyword. destruct (saveKeyword_ready keyword w R) as (w' & Hrun & _ & Hval).
    exists w'. split; [exact Hrun | rewrite Hval; apply upserted_by_index].
  - intros analysis. destruct (saveCompetitorAnalysis_ready analysis w R) as (w' & Hrun & _ & Hval).
    exists w'. split; [exact Hrun | rewrite Hval; apply upserted_by_index].
  - intros analysis. destruct (saveAnalysisResult_ready analysis w R) as (w' & Hrun & _ & Hval).
    exists w'. split; [exact Hrun | rewrite Hval; apply upserted_by_index].
Qed.

Lemma save_replaces_or_adds_witness :
  ready (browser stocked) /\
  exists w',
    saveKeyword (keywordOf "k1" "2020-01-01T00:00:00.000Z") (browser stocked) = (Normal tt, w') /\
    upserted (sameKeyword (keywordOf "k1" "2020-01-01T00:00:00.000Z"))
      (valueAt SAVED_KEYWORDS [] (browser stocked))
      (keywordOf "k1" "2020-01-01T00:00:00.000Z")
      (valueAt SAVED_KEYWORDS [] (browser stocked) ++
       [keywordAt (midnight 0) (keywordOf "k1" "2020-01-01T00:00:00.000Z")])%list
      (valueAt SAVED_KEYWORDS [] w').
Proof.
  assert (R : ready (browser stocked)) by (repeat split).
  split; [exact R|].
  exact (proj1 (proj2 (proj2 (save_replaces_or_adds (browser stocked) R))) _).
Defined.

(** C4, as stated, fails: a new analysis is not appended but put in front,
    with no time stamp set; and a keyword that replaces a stored one is
    stored as given, with no reading of the clock in it. *)
Lemma save_neither_appends_nor_stamps :
  (exists w',
     saveAnalysisResult (analysisOf "a2") (browser stocked) = (Normal tt, w') /\
     valueAt RECENT_ANALYSES [] w' = [analysisOf "a2"; analysisOf "a1"] /\
     ~ appended (valueAt RECENT_ANALYSES [] (browser stocked))
                (valueAt RECENT_ANALYSES [] w')) /\
  (exists w',
     saveKeyword (keywordOf "k1" "2020-01-01T00:00:00.000Z") (browser stocked) =
     (Normal tt, w') /\
     valueAt SAVED_KEYWORDS [] w' = [keywordOf "k1" "2020-01-01T00:00:00.000Z"] /\
     ticks w' = ticks (browser stocked) /\
     forall k, k ∈ valueAt SAVED_KEYWORDS [] w' ->
               SavedKeyword.dateAdded k <> clock (browser stocked) (ticks (browser stocked))).
Proof.
  split.
  - exists (snd (saveAnalysisResult (analysisOf "a2") (browser stocked))).
    split; [vm_compute; reflexivity|]. split; [vm_compute; reflexivity|].
    intros [stamped H]. vm_compute in H. discriminate.
  - exists (snd (saveKeyword (keywordOf "k1" "2020-01-01T00:00:00.000Z") (browser stocked))).
    split; [vm_compute; reflexivity|]. split; [vm_compute; reflexivity|].
    split; [vm_compute; reflexivity|].
    intros k Hk. vm_compute in Hk. apply list_elem_of_singleton in Hk as ->.
    vm_compute. discriminate.
Qed.

(** *** The ten most recent analyses *)

Lemma capped (a : AnalysisResult.t) (l : list AnalysisResult.t) :
  (List.length l <= 10)%nat ->
  (if (10 <? List.length (a :: l))%nat then removelast (a :: l) else a :: l) = take 10 (a :: l).
Proof.
  intros Hl. destruct (Nat.ltb_spec 10 (List.length (a :: l))) as [H|H].
  - rewrite removelast_firstn_len. f_equal. simpl in *. lia.
  - symmetry. now apply take_ge.
Qed.

Lemma take_app_take {T} (n : nat) (k l : list T) : take n (k ++ take n l) = take n (k ++ l).
Proof. rewrite !take_app, take_take. do 2 f_equal. lia. Qed.

(** An identifier that no stored analysis has. *)
Lemma sameAnalysis_fresh (a : AnalysisResult.t) (l : list AnalysisResult.t) :
  (forall x, x ∈ l -> AnalysisResult.id x <> AnalysisResult.id a) ->
  forall x, x ∈ l -> sameAnalysis a x = false.
Proof. intros H x Hx. apply String.eqb_neq. now apply H. Qed.

Lemma saveAnalysisResult_new (a : AnalysisResult.t) (w : World) :
  ready w ->
  (List.length (valueAt RECENT_ANALYSES [] w) <= 10)%nat ->
  (forall x, x ∈ valueAt RECENT_ANALYSES [] w -> AnalysisResult.id x <> AnalysisResult.id a) ->
  exists w',
    saveAnalysisResult a w = (Normal tt, w') /\ ready w' /\
    valueAt RECENT_ANALYSES [] w' = take 10 (a :: valueAt RECENT_ANALYSES [] w).
Proof.
  intros R Hlen Hfresh.
  destruct (saveAnalysisResult_ready a w R) as (w' & Hrun & R' & Hval).
  exists w'. split; [exact Hrun|]. split; [exact R'|].
  rewrite Hval. unfold findIndex.
  rewrite (findIndexFrom_none _ _ 0 (sameAnalysis_fresh a _ Hfresh)).
  now apply capped.
Qed.

(** Saving analyses with new, distinct identifiers one after the other
    leaves the ten last saved, the last one first. *)
Lemma forEach_saveAnalysisResult (analyses : list AnalysisResult.t) :
  forall w : World,
    ready w ->
    (List.length (valueAt RECENT_ANALYSES [] w) <= 10)%nat ->
    NoDup (map AnalysisResult.id analyses) ->
    (forall a x, a ∈ analyses -> x ∈ valueAt RECENT_ANALYSES [] w ->
                 AnalysisResult.id x <> AnalysisResult.id a) ->
    exists w',
      forEach saveAnalysisResult analyses w = (Normal tt, w') /\ ready w' /\
      valueAt RECENT_ANALYSES [] w' =
      take 10 (reverse analyses ++ valueAt RECENT_ANALYSES [] w).
Proof.
  induction analyses as [|a analyses IH]; intros w R Hlen Hids Hfresh.
  - exists w. split; [reflexivity|]. split; [exact R|]. symmetry. now apply take_ge.
  - apply NoDup_cons in Hids as [Ha Hids].
    destruct (saveAnalysisResult_new a w R Hlen) as (w1 & Hrun & R1 & Hval).
    { intros x Hx. apply (Hfresh a x); [apply list_elem_of_here | exact Hx]. }
    destruct (IH w1 R1) as (w' & Hrest & R' & Hval'); [| exact Hids | |].
    + rewrite Hval, length_take. lia.
    + intros b x Hb Hx. rewrite Hval in Hx.
      apply elem_of_take in Hx as (i & Hi & _). apply list_elem_of_lookup_2 in Hi.
      apply elem_of_cons in Hi as [->|Hi].
      * intros Heq. apply Ha. rewrite Heq. apply list_elem_of_In, in_map.
        now apply list_elem_of_In.
      * apply (Hfresh b x); [now apply list_elem_of_further | exact Hi].
    + exists w'. split; [|split; [exact R'|]].
      * cbn [forEach]. unfold mbind, js_bind, bind. now rewrite Hrun.
      * rewrite Hval', Hval, take_app_take, reverse_cons, <- app_assoc. reflexivity.
Qed.

(** C3. From an empty collection of analyses, in a browser whose storage
    works, eleven saves of analyses with eleven distinct identifiers leave
    exactly ten stored: the eleven in the reverse order of saving, cut
    after ten, so the last saved comes first and the first saved, and only
    that one, is gone. *)
Theorem saveAnalysisResult_keeps_ten (w : World) (analyses : list AnalysisResult.t) :
  ready w ->
  valueAt RECENT_ANALYSES [] w = [] ->
  List.length analyses = 11%nat ->
  NoDup (map AnalysisResult.id analyses) ->
  exists w',
    forEach saveAnalysisResult analyses w = (Normal tt, w') /\
    let stored := valueAt RECENT_ANALYSES [] w' in
    List.length stored = 10%nat /\
    stored = take 10 (reverse analyses) /\
    forall oldest later,
      analyses = oldest :: later ->
      stored = reverse later /\ (oldest ∉ stored) /\ head stored = last later.
Proof.
  intros R Hempty Hlen Hids.
  destruct (forEach_saveAnalysisResult analyses w R) as (w' & Hrun & _ & Hval).
  { rewrite Hempty. simpl. lia. }
  { exact Hids. }
  { intros a x _ Hx. rewrite Hempty in Hx. now apply not_elem_of_nil in Hx. }
  rewrite Hempty, app_nil_r in Hval.
  exists w'. split; [exact Hrun|]. cbv zeta. rewrite Hval. split; [|split].
  - rewrite length_take, length_reverse. lia.
  - reflexivity.
  - intros oldest later ->. simpl in Hlen.
    rewrite reverse_cons, take_app_length' by (rewrite length_reverse; lia).
    split; [reflexivity|]. split.
    + rewrite elem_of_reverse. apply NoDup_cons in Hids as [Ha _].
      intros Hin. apply Ha. apply list_elem_of_In, in_map. now apply list_elem_of_In.
    + apply head_reverse.
Qed.

Lemma saveAnalysisResult_keeps_ten_witness :
  ready (browser Storage.empty) /\
  valueAt RECENT_ANALYSES [] (browser Storage.empty) = [] /\
  List.length eleven = 11%nat /\
  NoDup (map AnalysisResult.id eleven) /\
  exists w',
    forEach saveAnalysisResult eleven (browser Storage.empty) = (Normal tt, w') /\
    let stored := valueAt RECENT_ANALYSES [] w' in
    List.length stored = 10%nat /\
    stored = take 10 (reverse eleven) /\
    forall oldest later,
      eleven = oldest :: later ->
      stored = reverse later /\ (oldest ∉ stored) /\ head stored = last later.
Proof.
  assert (R : ready (browser Storage.empty)) by (repeat split).
  assert (Hids : NoDup (map AnalysisResult.id eleven)).
  { vm_compute.
    repeat (constructor; [rewrite ?elem_of_cons, ?elem_of_nil; intuition discriminate|]).
    constructor. }
  split; [exact R|]. split; [reflexivity|]. split; [reflexivity|]. split; [exact Hids|].
  exact (saveAnalysisResult_keeps_ten (browser Storage.empty) eleven R eq_refl eq_refl Hids).
Defined.

End StorageFacts.

(** ** Labels, recommendations and the gauge *)

Module SeoLabelsFacts.
Import JS SeoHelpers SeoLabels.
Local Open Scope string_scope.

(** A score that is not at or above [a] is not at or above a larger [b]. *)
Lemma not_from_lower (a b s : float) :
  (a <? b)%float = true -> (a <=? s)%float = false -> (b <=? s)%float = false.
Proof.
  intros Hab Has. destruct (b <=? s)%float eqn:Hbs; [|reflexivity].
  now rewrite (FloatFacts.ltb_leb _ _ (FloatFacts.ltb_leb_trans a b s Hab Hbs)) in Has.
Qed.

Lemma SFcompare_refl (x : spec_float) : x <> S754_nan -> SFcompare x x = Some Eq.
Proof.
  destruct x as [s|s| |s m e]; intros H; try congruence; simpl.
  - reflexivity.
  - now destruct s.
  - rewrite Z.compare_refl.
    change (PosDef.Pos.compare_cont Eq m m) with (m ?= m)%positive.
    rewrite Pos.compare_refl. now destruct s.
Qed.

(** [NaN] is at or above nothing. *)
Lemma nan_not_from (c s : float) : is_nan s = true -> (c <=? s)%float = false.
Proof.
  unfold is_nan. rewrite FloatAxioms.eqb_spec, FloatAxioms.leb_spec. unfold SFeqb, SFleb.
  destruct (Prim2SF s) as [sg|sg| |sg m e] eqn:Hs.
  - now rewrite SFcompare_refl.
  - now rewrite SFcompare_refl.
  - intros _. now destruct (Prim2SF c).
  - now rewrite SFcompare_refl.
Qed.

(** The bucket of a recommendation depends on the score alone. *)
Lemma generateRecommendation_bucket (factor : string) (score : float) :
  generateRecommendation factor score =
  generateRecommendation factor
    (if (70 <=? score)%float then 100 else if (50 <=? score)%float then 50 else 0).
Proof.
  unfold generateRecommendation.
  destruct (70 <=? score)%float; [reflexivity|]. now destruct (50 <=? score)%float.
Qed.

(** The four label functions and the gauge cut the scores at different
    points, yet agree on three bands. From 70 on: class [score-high],
    category excellent or good, level Excellent or Good in green, the
    [high] recommendation. From 50 to below 70: [score-medium], average,
    Average in yellow, the [medium] recommendation, a yellow gauge. Below
    50, and for [NaN]: [score-low], poor or critical, Poor or Critical in
    red, the [low] recommendation, a red gauge. They differ inside the top
    band: from 80 to below 85 the level is Excellent and the category only
    good, and from 70 to below 80 the gauge is yellow while the level is
    green. *)
Theorem labels_agree (score : float) :
  ((70 <=? score)%float = true /\
   getScoreClass score = "score-high" /\
   (getScoreCategory score = "excellent" \/ getScoreCategory score = "good") /\
   (getScoreLevel score = mkLevel "Excellent" "green" \/
    getScoreLevel score = mkLevel "Good" "green") /\
   (forall factor, generateRecommendation factor score = generateRecommendation factor 100) /\
   ((80 <=? score)%float = true ->
    ScoreGauge.getColor score = "#10b981" /\ label (getScoreLevel score) = "Excellent") /\
   ((80 <=? score)%float = true -> (85 <=? score)%float = false ->
    getScoreCategory score = "good") /\
   ((80 <=? score)%float = false -> ScoreGauge.getColor score = "#f59e0b"))
  \/
  ((70 <=? score)%float = false /\ (50 <=? score)%float = true /\
   getScoreClass score = "score-medium" /\
   getScoreCategory score = "average" /\
   getScoreLevel score = mkLevel "Average" "yellow" /\
   (forall factor, generateRecommendation factor score = generateRecommendation factor 50) /\
   ScoreGauge.getColor score = "#f59e0b")
  \/
  ((50 <=? score)%float = false /\
   getScoreClass score = "score-low" /\
   (getScoreCategory score = "poor" \/ getScoreCategory score = "critical") /\
   (getScoreLevel score = mkLevel "Poor" "red" \/
    getScoreLevel score = mkLevel "Critical" "red") /\
   (forall factor, generateRecommendation factor score = generateRecommendation factor 0) /\
   ScoreGauge.getColor score = "#ef4444" /\
   (is_nan score = true ->
    getScoreCategory score = "critical" /\ getScoreLevel score = mkLevel "Critical" "red")).
Proof.
  unfold getScoreClass, getScoreCategory, getScoreLevel, ScoreGauge.getColor,
    EXCELLENT, GOOD, AVERAGE, POOR.
  destruct (70 <=? score)%float eqn:H70.
  - left. split; [reflexivity|]. split; [reflexivity|].
    split; [destruct (85 <=? score)%float; auto|].
    split; [destruct (80 <=? score)%float; auto|].
    split; [intros factor; now rewrite generateRecommendation_bucket, H70|].
    split; [intros ->; auto|]. split; [intros _ ->; reflexivity|]. intros ->.
    now rewrite (FloatFacts.ltb_leb _ _ (FloatFacts.ltb_leb_trans 50 70 score eq_refl H70)).
  - right.
    rewrite (not_from_lower 70 85 score eq_refl H70), (not_from_lower 70 80 score eq_refl H70).
    destruct (50 <=? score)%float eqn:H50.
    + left. repeat (split; [reflexivity|]).
      split; [intros factor; now rewrite generateRecommendation_bucket, H70, H50 | reflexivity].
    + right. split; [reflexivity|]. split; [reflexivity|].
      split; [destruct (30 <=? score)%float; auto|].
      split; [destruct (30 <=? score)%float; auto|].
      split; [intros factor; now rewrite generateRecommendation_bucket, H70, H50|].
      split; [reflexivity|].
      intros Hnan. now rewrite (nan_not_from 30 score Hnan).
Qed.

(** *** The recommendations *)

Lemma property_none {A} (object : list (string * A)) (name : string) :
  property object name = None <-> ~ In name (map fst object).
Proof.
  induction object as [|[k v] object IH]; simpl; [tauto|].
  destruct (String.eqb_spec k name) as [->|Hk]; [split; [discriminate | tauto]|].
  rewrite IH. tauto.
Qed.

Lemma ownWeight_none (table : list (string * float)) (factor : string) :
  ownWeight table factor = None <-> ~ In factor (map fst table).
Proof.
  induction table as [|[k v] table IH]; simpl; [tauto|].
  destruct (String.eqb_spec k factor) as [->|Hk]; [split; [discriminate | tauto]|].
  rewrite IH. tauto.
Qed.

Lemma recommended (factor : string) (score : float) :
  In factor (map fst recommendations) ->
  generateRecommendation factor score <> noRecommendation /\
  generateRecommendation factor score <> "".
Proof.
  intros Hin. rewrite generateRecommendation_bucket.
  cbn in Hin. repeat (destruct Hin as [<-|Hin]; [|idtac]); try contradiction;
    destruct (70 <=? score)%float; try destruct (50 <=? score)%float;
    split; vm_compute; discriminate.
Qed.

(** The factors that have a recommendation are the factors that have a
    weight, name by name. For these, at every score ([NaN] too),
    [generateRecommendation] returns a text of its table, never the
    fallback and never the empty text; for every other name, inherited
    property names such as [toString] among them, it returns the
    fallback. *)
Theorem generateRecommendation_factors (factor : string) (score : float) :
  map fst recommendations = map fst weights /\
  (generateRecommendation factor score = noRecommendation <->
   ownWeight weights factor = None) /\
  generateRecommendation factor score <> "" /\
  generateRecommendation "toString" score = noRecommendation.
Proof.
  split; [reflexivity|]. split; [|split].
  - rewrite ownWeight_none. change (map fst weights) with (map fst recommendations). split.
    + intros Hno Hin. exact (proj1 (recommended factor score Hin) Hno).
    + intros Hin. apply property_none in Hin. unfold generateRecommendation. now rewrite Hin.
  - destruct (property recommendations factor) as [texts|] eqn:Hp.
    + apply (recommended factor score). apply Decidable.not_not.
      * unfold Decidable.decidable. destruct (in_dec String.string_dec factor
          (map fst recommendations)); tauto.
      * intros Hnot. apply property_none in Hnot. congruence.
    + unfold generateRecommendation. rewrite Hp. discriminate.
  - reflexivity.
Qed.

(** *** The number format *)

Lemma length_append (a b : string) :
  String.length (a ++ b) = (String.length a + String.length b)%nat.
Proof. induction a as [|x a IH]; simpl; [reflexivity | now rewrite IH]. Qed.

(** On digits, the look-ahead holds where a positive multiple of three
    digits is left. *)
Lemma groupsOfThree_digits (n : nat) :
  forall s, (String.length s < n)%nat -> MoreSpec.allDigits s = true ->
  groupsOfThree s = (0 <? String.length s)%nat && (String.length s mod 3 =? 0)%nat.
Proof.
  induction n as [|n IH]; intros s Hn Hs; [lia|].
  destruct s as [|a [|b [|c rest]]]; try reflexivity.
  cbn [MoreSpec.allDigits] in Hs.
  apply andb_prop in Hs as [Ha Hs]. apply andb_prop in Hs as [Hb Hs].
  apply andb_prop in Hs as [Hc Hrest].
  cbn [groupsOfThree String.length]. rewrite Ha, Hb, Hc. cbn [andb].
  rewrite (IH rest) by (simpl in Hn; lia || assumption).
  replace (S (S (S (String.length rest)))) with (String.length rest + 1 * 3)%nat by lia.
  rewrite Nat.Div0.mod_add.
  destruct rest as [|d rest]; [reflexivity|].
  cbn [MoreSpec.allDigits] in Hrest. apply andb_prop in Hrest as [Hd _].
  cbn [noDigitNext String.length]. rewrite Hd. cbn [negb]. rewrite orb_false_r.
  reflexivity.
Qed.

Lemma isWord_digit (c : ascii) : isDigit c = true -> isWord c = true.
Proof. intros H. unfold isWord. now rewrite H. Qed.

(** Commas are all that [insertCommas] adds. *)
Lemma withoutCommas_insertCommas (s : string) :
  forall prev, MoreSpec.withoutCommas (insertCommas prev s) = MoreSpec.withoutCommas s.
Proof.
  induction s as [|c s IH]; intros prev; cbn [insertCommas].
  - now destruct (nonBoundary prev "" && groupsOfThree "").
  - destruct (nonBoundary prev (String c s) && groupsOfThree (String c s));
      cbn [MoreSpec.withoutCommas]; try change (Ascii.eqb "," ",") with true; cbv iota;
      cbn [MoreSpec.withoutCommas]; now rewrite IH.
Qed.

Lemma withoutCommas_digits (s : string) :
  MoreSpec.allDigits s = true -> MoreSpec.withoutCommas s = s.
Proof.
  induction s as [|c s IH]; [reflexivity|]. cbn [MoreSpec.allDigits MoreSpec.withoutCommas].
  intros H. apply andb_prop in H as [Hc Hs]. rewrite (IH Hs).
  destruct (Ascii.eqb_spec c ",") as [->|_]; [discriminate Hc | reflexivity].
Qed.

(** Three digits after a digit: the comma, then the digits. *)
Lemma insertCommas_three (p : ascii) (low : string) :
  isDigit p = true -> MoreSpec.allDigits low = true -> String.length low = 3%nat ->
  insertCommas (Some p) low = String "," low.
Proof.
  intros Hp Hlow Hlen. destruct low as [|a [|b [|c [|d low]]]]; try discriminate.
  cbn [MoreSpec.allDigits] in Hlow.
  apply andb_prop in Hlow as [Ha Hlow]. apply andb_prop in Hlow as [Hb Hlow].
  apply andb_prop in Hlow as [Hc _].
  cbn [insertCommas groupsOfThree noDigitNext]. unfold nonBoundary.
  rewrite ?andb_false_r, !isWord_digit, Ha, Hb, Hc by assumption. reflexivity.
Qed.

(** Three more digits at the end put one comma before them and leave the
    digits in front as they were. *)
Lemma insertCommas_append (high low : string) :
  MoreSpec.allDigits low = true -> String.length low = 3%nat ->
  forall prev,
    high <> "" -> MoreSpec.allDigits high = true ->
    insertCommas prev (high ++ low) = insertCommas prev high ++ String "," low.
Proof.
  intros Hlow Hlen. induction high as [|c high IH]; intros prev Hne Hhigh; [congruence|].
  cbn [MoreSpec.allDigits] in Hhigh. apply andb_prop in Hhigh as [Hc Hhigh].
  change (String c high ++ low) with (String c (high ++ low)).
  cbn [insertCommas].
  assert (Hsame : groupsOfThree (String c (high ++ low)) = groupsOfThree (String c high)).
  { rewrite (groupsOfThree_digits (S (String.length (String c (high ++ low))))),
      (groupsOfThree_digits (S (String.length (String c high)))); try lia.
    - cbn [String.length]. rewrite length_append, Hlen.
      replace (S (String.length high + 3)) with (S (String.length high) + 1 * 3)%nat by lia.
      now rewrite Nat.Div0.mod_add.
    - cbn [MoreSpec.allDigits]. now rewrite Hc, Hhigh.
    - cbn [MoreSpec.allDigits]. rewrite Hc. cbn [andb].
      clear -Hhigh Hlow. induction high as [|d high IH]; [exact Hlow|].
      cbn [MoreSpec.allDigits] in *. apply andb_prop in Hhigh as [Hd Hhigh].
      change (String d high ++ low) with (String d (high ++ low)).
      cbn [MoreSpec.allDigits]. now rewrite Hd, IH. }
  replace (nonBoundary prev (String c (high ++ low))) with (nonBoundary prev (String c high))
    by reflexivity.
  rewrite Hsame.
  assert (Hrest : insertCommas (Some c) (high ++ low) =
                  insertCommas (Some c) high ++ String "," low).
  { destruct high as [|d high].
    - change ("" ++ low) with low. rewrite insertCommas_three by assumption.
      cbn [insertCommas groupsOfThree]. now rewrite andb_false_r.
    - apply IH; [discriminate | exact Hhigh]. }
  rewrite Hrest.
  now destruct (nonBoundary prev (String c high) && groupsOfThree (String c high)).
Qed.

Lemma insertCommas_short (s : string) :
  MoreSpec.allDigits s = true -> (String.length s <= 3)%nat -> insertCommas None s = s.
Proof.
  intros Hs Hlen. destruct s as [|a [|b [|c [|d s]]]]; try (simpl in Hlen; lia);
    cbn [MoreSpec.allDigits] in Hs;
    repeat match type of Hs with
           | (_ && _) = true => let H := fresh "Hd" in apply andb_prop in Hs as [H Hs]
           end;
    cbn [insertCommas groupsOfThree noDigitNext]; unfold nonBoundary;
    rewrite ?andb_false_r, ?isWord_digit by assumption; reflexivity.
Qed.

Lemma digits_of_uint (u : Decimal.uint) :
  MoreSpec.allDigits (NilEmpty.string_of_uint u) = true.
Proof. induction u; cbn [NilEmpty.string_of_uint MoreSpec.allDigits]; auto. Qed.

Lemma Number_toString_digits (num : nat) :
  MoreSpec.allDigits (Number_toString num) = true /\ Number_toString num <> "".
Proof.
  unfold Number_toString, NilZero.string_of_uint.
  destruct (Nat.to_uint num) eqn:Hu; try (split; [|discriminate]);
    try reflexivity; apply digits_of_uint.
Qed.

(** [formatNumber] on a non-negative integer inserts commas and nothing
    else: without them the result is the decimal text. Up to three digits
    are left as they are; from four digits on, the result is the leading
    digits formatted the same way, a comma, and the last three digits. So
    the digits come in groups of three from the right. *)
Theorem formatNumber_groups (num : nat) :
  let digits := Number_toString num in
  MoreSpec.withoutCommas (formatNumber num) = digits /\
  ((String.length digits <= 3)%nat -> formatNumber num = digits) /\
  (forall high low,
     digits = high ++ low -> high <> "" -> String.length low = 3%nat ->
     formatNumber num = insertCommas None high ++ "," ++ low) /\
  formatNumber 0 = "0" /\ formatNumber 999 = "999" /\ formatNumber 1000 = "1,000" /\
  formatNumber 4321 = "4,321".
Proof.
  intros digits. destruct (Number_toString_digits num) as [Hdigits Hne].
  fold digits in Hdigits, Hne. unfold formatNumber. fold digits.
  split; [|split; [|split]].
  - now rewrite withoutCommas_insertCommas, withoutCommas_digits.
  - now apply insertCommas_short.
  - intros high low Hsplit Hhigh Hlen. rewrite Hsplit in *.
    assert (Hboth : MoreSpec.allDigits high = true /\ MoreSpec.allDigits low = true).
    { clear -Hdigits. induction high as [|c high IH]; [now split|].
      change (String c high ++ low) with (String c (high ++ low)) in Hdigits.
      cbn [MoreSpec.allDigits] in *. apply andb_prop in Hdigits as [Hc Hrest].
      destruct (IH Hrest) as [Hh Hl]. now rewrite Hc, Hh. }
    destruct Hboth as [Hh Hl]. now apply insertCommas_append.
  - repeat split; vm_compute; reflexivity.
Qed.

End SeoLabelsFacts.

(** ** More on the scoring helpers *)

Module SeoHelpersMoreFacts.
Import JS SeoHelpers JSFacts SeoHelpersFacts.
Local Open Scope string_scope.

(** [calculateDescriptionScore] is 0 for an absent or empty description;
    with no target keyword it is the length subscore (100 for 150 to 160
    characters, 70 for 120 to 170, 40 otherwise); with target keywords it
    is the rounded average of that subscore and a keyword subscore of 100
    when some keyword occurs in the description, letter case ignored, and
    of 0 when none does. The same holds with the occurrence said without
    [toLowerCase]: a stretch of the description spells the keyword,
    capitals and small letters taken as the same. A description of 155
    characters that begins with [Best SEO Tools] scores 100 with the
    keyword [seo tools] and with [TOOLS], and 50 with [tool kit]. *)
Theorem calculateDescriptionScore_spec :
  (forall targetKeywords,
     calculateDescriptionScore None targetKeywords = 0%float /\
     calculateDescriptionScore (Some "") targetKeywords = 0%float) /\
  (forall c rest,
     let description := String c rest in
     calculateDescriptionScore (Some description) [] =
     Spec.lengthSubscore 150 160 120 170 (String.length description)) /\
  (forall c rest keyword keywords,
     let description := String c rest in
     let targetKeywords := keyword :: keywords in
     exists keywordSubscore : float,
       (Exists (Spec.occursIn description) targetKeywords /\ keywordSubscore = 100%float \/
        ~ Exists (Spec.occursIn description) targetKeywords /\ keywordSubscore = 0%float) /\
       calculateDescriptionScore (Some description) targetKeywords =
       Math_round
         ((Spec.lengthSubscore 150 160 120 170 (String.length description) + keywordSubscore)
          / 2)) /\
  (forall c rest keyword keywords,
     let description := String c rest in
     let targetKeywords := keyword :: keywords in
     exists keywordSubscore : float,
       (Exists (Spec.occursAnyCase description) targetKeywords /\ keywordSubscore = 100%float \/
        ~ Exists (Spec.occursAnyCase description) targetKeywords /\ keywordSubscore = 0%float) /\
       calculateDescriptionScore (Some description) targetKeywords =
       Math_round
         ((Spec.lengthSubscore 150 160 120 170 (String.length description) + keywordSubscore)
          / 2)) /\
  (let description := "Best SEO Tools " ++ String_repeat "x" 140 in
   String.length description = 155%nat /\
   calculateDescriptionScore (Some description) [] = 100%float /\
   calculateDescriptionScore (Some description) ["seo tools"] = 100%float /\
   calculateDescriptionScore (Some description) ["TOOLS"] = 100%float /\
   calculateDescriptionScore (Some description) ["tool kit"] = 50%float).
Proof.
  split; [|split; [|split; [|split]]].
  - intros targetKeywords. split; reflexivity.
  - intros c rest description. subst description. unfold calculateDescriptionScore.
    change (0 <? List.length (@nil string))%nat with false. cbv iota.
    apply lengthScore_subscore. simpl. lia.
  - intros c rest keyword keywords description targetKeywords.
    unfold calculateDescriptionScore. subst description.
    change (0 <? List.length targetKeywords)%nat with true. cbv iota.
    apply averaged. simpl. lia.
  - intros c rest keyword keywords description targetKeywords.
    unfold calculateDescriptionScore. subst description.
    change (0 <? List.length targetKeywords)%nat with true. cbv iota.
    apply averaged_anyCase. simpl. lia.
  - cbv zeta. repeat split; evaluate.
Qed.

(** What target keywords do to a length score. *)
Lemma keywords_on_lengthScore (a b c d n : nat) (lower : string) (targetKeywords : list string) :
  (0 < n)%nat ->
  let plain := lengthScore a b c d n 0 in
  let scored :=
    Math_round ((if keywordMatch lower targetKeywords then plain + 100 else plain) / 2) in
  (keywordMatch lower targetKeywords = true ->
   scored = Math_round ((plain + 100) / 2) /\
   (plain <=? scored)%float = true /\ (70 <=? scored)%float = true) /\
  (keywordMatch lower targetKeywords = false ->
   scored = Math_round (plain / 2) /\
   (scored <? plain)%float = true /\ (scored <=? 50)%float = true).
Proof.
  intros Hn plain scored. subst plain scored. unfold lengthScore.
  destruct (Nat.ltb_spec 0 n); [|lia].
  split; intros ->; (split; [reflexivity|]);
    destruct ((a <=? n)%nat && (n <=? b)%nat); try destruct ((c <=? n)%nat && (n <=? d)%nat);
    split; evaluate.
Qed.

(** Target keywords help or halve. On a non-empty title or description
    with a non-empty list of target keywords: when one of them occurs, the
    score is the rounded average of the score without keywords and 100,
    which is at least that score and at least 70; when none occurs, it is
    the rounded half of the score without keywords, which is lower than
    that score and at most 50. *)
Theorem keywords_help_or_halve (c : ascii) (rest keyword : string) (keywords : list string) :
  let text := String c rest in
  let targetKeywords := keyword :: keywords in
  let title := calculateTitleScore (Some text) targetKeywords in
  let plainTitle := calculateTitleScore (Some text) [] in
  let description := calculateDescriptionScore (Some text) targetKeywords in
  let plainDescription := calculateDescriptionScore (Some text) [] in
  (Exists (Spec.occursIn text) targetKeywords ->
   title = Math_round ((plainTitle + 100) / 2) /\
   (plainTitle <=? title)%float = true /\ (70 <=? title)%float = true /\
   description = Math_round ((plainDescription + 100) / 2) /\
   (plainDescription <=? description)%float = true /\ (70 <=? description)%float = true) /\
  (~ Exists (Spec.occursIn text) targetKeywords ->
   title = Math_round (plainTitle / 2) /\
   (title <? plainTitle)%float = true /\ (title <=? 50)%float = true /\
   description = Math_round (plainDescription / 2) /\
   (description <? plainDescription)%float = true /\ (description <=? 50)%float = true).
Proof.
  intros text targetKeywords title plainTitle description plainDescription.
  subst title plainTitle description plainDescription.
  unfold calculateTitleScore, calculateDescriptionScore. subst text.
  change (0 <? List.length targetKeywords)%nat with true.
  change (0 <? List.length (@nil string))%nat with false. cbv iota zeta.
  assert (Hn : (0 < String.length (String c rest))%nat) by (simpl; lia).
  pose proof (keywords_on_lengthScore 50 60 40 70 _ (toLowerCase (String c rest))
                targetKeywords Hn) as [Ht1 Ht0].
  pose proof (keywords_on_lengthScore 150 160 120 170 _ (toLowerCase (String c rest))
                targetKeywords Hn) as [Hd1 Hd0].
  cbv zeta in Ht1, Ht0, Hd1, Hd0.
  split; intros Hocc.
  - apply keywordMatch_iff in Hocc.
    destruct (Ht1 Hocc) as (? & ? & ?), (Hd1 Hocc) as (? & ? & ?). now repeat split.
  - assert (Hno : keywordMatch (toLowerCase (String c rest)) targetKeywords = false).
    { destruct (keywordMatch _ _) eqn:Hm; [|reflexivity].
      exfalso. apply Hocc. now apply keywordMatch_iff. }
    destruct (Ht0 Hno) as (? & ? & ?), (Hd0 Hno) as (? & ? & ?). now repeat split.
Qed.

(** *** Paragraphs *)

Lemma afterBlank_rest (s r : string) :
  afterBlank s = Some r ->
  (String.length r < String.length s)%nat /\
  skip (String.length s - String.length r) s = r /\
  (1 + MoreSpec.lineFeeds r <= MoreSpec.lineFeeds s)%nat.
Proof.
  revert r. induction s as [|c s IH]; intros r; [discriminate|].
  cbn [afterBlank]. destruct (isWhiteSpace c); [|discriminate].
  destruct (afterBlank s) as [r'|] eqn:Hs.
  - intros H; injection H as <-. destruct (IH r' eq_refl) as (Hlen & Hskip & Hlf).
    cbn [String.length MoreSpec.lineFeeds]. split; [lia|]. split; [|lia].
    replace (S (String.length s) - String.length r')%nat
      with (S (String.length s - String.length r')) by lia.
    exact Hskip.
  - destruct (isLineFeed c) eqn:Hc; [|discriminate]. intros H; injection H as <-.
    cbn [String.length MoreSpec.lineFeeds]. rewrite Hc. split; [lia|]. split; [|lia].
    replace (S (String.length s) - String.length s)%nat with 1%nat by lia. reflexivity.
Qed.

Lemma splitBlankLines_inside (s : string) :
  forall k, splitBlankLines s k = splitBlankLines (skip k s) 0.
Proof.
  induction s as [|c s IH]; intros [|k]; try reflexivity. cbn [splitBlankLines skip]. apply IH.
Qed.

(** Every paragraph but the first takes two line feeds. *)
Lemma paragraphs_lineFeeds (n : nat) :
  forall s, (String.length s < n)%nat ->
  (2 * List.length (splitBlankLines s 0) <= 2 + MoreSpec.lineFeeds s)%nat.
Proof.
  induction n as [|n IH]; intros s Hn; [lia|].
  destruct s as [|c s]; [simpl; lia|].
  cbn [splitBlankLines MoreSpec.lineFeeds String.length] in *.
  destruct (isLineFeed c) eqn:Hc.
  - destruct (afterBlank s) as [r|] eqn:Hr.
    + destruct (afterBlank_rest s r Hr) as (Hlen & Hskip & Hlf).
      rewrite splitBlankLines_inside, Hskip. cbn [List.length].
      pose proof (IH r ltac:(lia)). lia.
    + pose proof (IH s ltac:(lia)).
      destruct (splitBlankLines s 0); cbn [List.length] in *; lia.
  - pose proof (IH s ltac:(lia)).
    destruct (splitBlankLines s 0); cbn [List.length] in *; lia.
Qed.

(** The paragraph points of [calculateContentScore] take two blank lines:
    the paragraphs number at most one more than half the line feeds, so a
    content with fewer than four line feeds gets no paragraph points and
    scores at most 80, whatever its words and [minWords]. *)
Theorem paragraphs_need_blank_lines (content : string) (minWords : float) :
  (2 * List.length (splitBlankLines content 0) <= 2 + MoreSpec.lineFeeds content)%nat /\
  ((MoreSpec.lineFeeds content < 4)%nat ->
   (calculateContentScore (Some content) minWords <=? 80)%float = true).
Proof.
  pose proof (paragraphs_lineFeeds (S (String.length content)) content ltac:(lia)) as Hp.
  split; [exact Hp|]. intros Hlf.
  destruct content as [|c s]; [evaluate|].
  unfold calculateContentScore. cbv beta iota zeta.
  destruct (Nat.leb_spec 3 (List.length (splitBlankLines (String c s) 0))); [lia|].
  branches; evaluate.
Qed.

End SeoHelpersMoreFacts.

(** ** The store: deletions, and what saves and deletions keep *)

Module StoreFacts.
Import JS Browser Storage StorageSpec StorageDelete StoreSpec StorageFacts.
Local Open Scope string_scope.

(** *** Lists *)

Lemma found_or_none {T} (same : T -> bool) (l : list T) :
  (forall x, x ∈ l -> same x = false) \/ exists i old, firstAt same l i old.
Proof.
  induction l as [|x l IH].
  - left. intros x Hx. now apply elem_of_nil in Hx.
  - destruct (same x) eqn:Hx.
    + right. exists 0%nat, x. split; [reflexivity|]. split; [exact Hx|]. intros j y Hj. lia.
    + destruct IH as [Hnone|(i & old & Hi & Hold & Hbefore)].
      * left. intros y Hy. apply elem_of_cons in Hy as [->|Hy]; [exact Hx | now apply Hnone].
      * right. exists (S i), old. split; [exact Hi|]. split; [exact Hold|].
        intros [|j] y Hj Hy; [now injection Hy as <- | apply (Hbefore j y); [lia | exact Hy]].
Qed.

Lemma filter_all {T} (keep : T -> bool) (l : list T) :
  (forall x, x ∈ l -> keep x = true) -> List.filter keep l = l.
Proof.
  induction l as [|x l IH]; intros H; [reflexivity|]. cbn [List.filter].
  rewrite (H x) by apply list_elem_of_here. f_equal. apply IH.
  intros y Hy. apply H. now apply list_elem_of_further.
Qed.

Lemma filter_elem_of {T} (keep : T -> bool) (l : list T) (x : T) :
  x ∈ List.filter keep l <-> x ∈ l /\ keep x = true.
Proof. rewrite !list_elem_of_In. apply filter_In. Qed.

Lemma filter_sublist {T} (keep : T -> bool) (l : list T) : sublist (List.filter keep l) l.
Proof.
  induction l as [|x l IH]; [constructor|]. cbn [List.filter].
  destruct (keep x); now constructor.
Qed.

Lemma filter_insert {T} (keep : T -> bool) (l : list T) (i : nat) (old updated : T) :
  l !! i = Some old -> keep old = false -> keep updated = false ->
  List.filter keep (<[i := updated]> l) = List.filter keep l.
Proof.
  revert i. induction l as [|x l IH]; intros [|i] Hi Hold Hnew; try discriminate.
  - injection Hi as ->. change (<[0%nat := updated]> (old :: l)) with (updated :: l).
    cbn [List.filter]. now rewrite Hold, Hnew.
  - change (<[S i := updated]> (x :: l)) with (x :: <[i := updated]> l).
    cbn [List.filter]. now rewrite (IH i Hi Hold Hnew).
Qed.

Lemma map_insert {T U} (f : T -> U) (l : list T) (i : nat) (old updated : T) :
  l !! i = Some old -> f updated = f old -> List.map f (<[i := updated]> l) = List.map f l.
Proof.
  revert i. induction l as [|x l IH]; intros [|i] Hi Hf; try discriminate.
  - injection Hi as ->. change (<[0%nat := updated]> (old :: l)) with (updated :: l).
    cbn [List.map]. now rewrite Hf.
  - change (<[S i := updated]> (x :: l)) with (x :: <[i := updated]> l).
    cbn [List.map]. now rewrite (IH i Hi Hf).
Qed.

Lemma removelast_sublist {T} (l : list T) : sublist (removelast l) l.
Proof.
  induction l as [|x l IH]; [constructor|]. cbn [removelast].
  destruct l; [repeat constructor | now constructor].
Qed.

Lemma removelast_cons {T} (x : T) (l : list T) :
  l <> [] -> removelast (x :: l) = x :: removelast l.
Proof. now destruct l. Qed.

Lemma map_sublist {T U} (f : T -> U) (k l : list T) :
  sublist k l -> sublist (List.map f k) (List.map f l).
Proof. induction 1; cbn; now constructor. Qed.

(** *** The collections *)

Lemma read_write (c : collection) (v : text (list (entity c))) (s : Items) :
  read (keyAt c) (write (keyAt c) v s) = Some v.
Proof. now destruct c. Qed.

Lemma deleteFrom_run (c : collection) (id : string) :
  deleteFrom c id =
  (xs ← getFromStorage (keyAt c) [];
   setInStorage (keyAt c) (List.filter (fun x => negb (hasId c id x)) xs)).
Proof. now destruct c. Qed.

Lemma hasId_elem_of (c : collection) (id : string) (l : list (entity c)) :
  id ∈ List.map (idOf c) l <-> exists x, x ∈ l /\ hasId c id x = true.
Proof.
  rewrite list_elem_of_In, in_map_iff. unfold hasId. split.
  - intros (x & <- & Hx). exists x. rewrite list_elem_of_In. split; [exact Hx | apply String.eqb_refl].
  - intros (x & Hx & Hid). exists x. apply String.eqb_eq in Hid. now rewrite <- list_elem_of_In.
Qed.

Lemma hasId_none (c : collection) (id : string) (l : list (entity c)) :
  id ∉ List.map (idOf c) l <-> forall x, x ∈ l -> hasId c id x = false.
Proof.
  rewrite hasId_elem_of. split.
  - intros H x Hx. destruct (hasId c id x) eqn:Hid; [|reflexivity]. exfalso. apply H. now exists x.
  - intros H (x & Hx & Hid). now rewrite (H x Hx) in Hid.
Qed.

(** A deletion in a browser whose storage works. *)
Lemma deleteFrom_ready (c : collection) (id : string) (w : World) :
  ready w ->
  exists w',
    deleteFrom c id w = (Normal tt, w') /\ ready w' /\
    stored c w' = List.filter (fun x => negb (hasId c id x)) (stored c w) /\
    clock w' = clock w /\ ticks w' = ticks w.
Proof.
  intros R. rewrite deleteFrom_run. unfold mbind, js_bind, bind.
  destruct (getFromStorage_ready (keyAt c) [] w R) as (w1 & Hget & Hsame & Hclock & Hticks).
  rewrite Hget. cbv beta iota. rewrite (setInStorage_ready _ _ w w1 R Hsame).
  eexists. split; [reflexivity|]. split; [eapply ready_storing; [exact R | exact Hsame]|].
  split; [|split; [exact Hclock | exact Hticks]].
  unfold stored. unfold valueAt at 1. cbn [storage storing]. now rewrite read_write.
Qed.

(** A save in a browser whose storage works, the five collections alike:
    the entity stored has the fields of the one given, time stamps apart;
    it replaces the first entity that has the identifier, or it is added:
    at the end, or for the analyses in front, the last one making room once
    ten are stored. *)
Lemma saveTo_ready (c : collection) (x : entity c) (w : World) :
  ready w ->
  let l := stored c w in
  let index := findIndex (hasId c (idOf c x)) l in
  exists w' updated added,
    saveTo c x w = (Normal tt, w') /\ ready w' /\
    unstamped c updated = unstamped c x /\ unstamped c added = unstamped c x /\
    stored c w' =
    if (0 <=? index)%Z then <[Z.to_nat index := updated]> l
    else match c with
         | RecentAnalyses =>
             if (10 <=? List.length l)%nat then added :: removelast l else added :: l
         | _ => (l ++ [added])%list
         end.
Proof.
  intros R l index. subst l index. destruct c; cbn [saveTo].
  - destruct (saveProject_ready x w R) as (w' & Hrun & R' & Hval).
    exists w', (projectAt (Project.dateCreated x) (clock w (ticks w)) x),
      (projectAt (clock w (ticks w)) (clock w (S (ticks w))) x).
    split; [exact Hrun|]. split; [exact R'|]. split; [reflexivity|]. split; [reflexivity|].
    exact Hval.
  - destruct (saveAnalysisResult_ready x w R) as (w' & Hrun & R' & Hval).
    exists w', x, x.
    split; [exact Hrun|]. split; [exact R'|]. split; [reflexivity|]. split; [reflexivity|].
    cbv [stored hasId keyAt idOf entity]. rewrite Hval. unfold sameAnalysis.
    destruct (0 <=? _)%Z; [reflexivity|]. cbn [List.length].
    change (10 <? S ?n)%nat with (10 <=? n)%nat.
    destruct (10 <=? _)%nat eqn:Hlen; [|reflexivity].
    apply removelast_cons. intros Hnil. now rewrite Hnil in Hlen.
  - destruct (saveKeyword_ready x w R) as (w' & Hrun & R' & Hval).
    exists w', x, (keywordAt (clock w (ticks w)) x).
    split; [exact Hrun|]. split; [exact R'|]. split; [reflexivity|]. split; [reflexivity|].
    exact Hval.
  - destruct (saveContent_ready x w R) as (w' & Hrun & R' & Hval).
    exists w', (contentAt (SavedContent.dateCreated x) (clock w (ticks w)) x),
      (contentAt (clock w (ticks w)) (clock w (S (ticks w))) x).
    split; [exact Hrun|]. split; [exact R'|]. split; [reflexivity|]. split; [reflexivity|].
    exact Hval.
  - destruct (saveCompetitorAnalysis_ready x w R) as (w' & Hrun & R' & Hval).
    exists w', x, (competitorAt (clock w (ticks w)) x).
    split; [exact Hrun|]. split; [exact R'|]. split; [reflexivity|]. split; [reflexivity|].
    exact Hval.
Qed.

Lemma unstamped_idOf (c : collection) (x y : entity c) :
  unstamped c x = unstamped c y -> idOf c x = idOf c y.
Proof. destruct c; cbn; intros H; try (now subst); now injection H. Qed.

Lemma map_removelast {T U} (f : T -> U) (l : list T) :
  List.map f (removelast l) = removelast (List.map f l).
Proof.
  induction l as [|x l IH]; [reflexivity|]. destruct l; [reflexivity|].
  change (removelast (x :: t :: l)) with (x :: removelast (t :: l)).
  cbn [List.map] in *. now rewrite IH.
Qed.

Lemma hasId_false (c : collection) (id : string) (x : entity c) :
  negb (hasId c id x) = true <-> idOf c x <> id.
Proof. unfold hasId. rewrite negb_true_iff. apply String.eqb_neq. Qed.

Lemma stored_or_new (c : collection) (id : string) (w : World) :
  id ∈ ids c w \/ id ∉ ids c w.
Proof.
  destruct (found_or_none (hasId c id) (stored c w)) as [Hnone|(i & old & Hi & Hold & _)].
  - right. now apply hasId_none.
  - left. apply hasId_elem_of. exists old. split; [|exact Hold].
    now apply list_elem_of_lookup_2 in Hi.
Qed.

(** The identifiers a save leaves. *)
Lemma saveTo_ids (c : collection) (x : entity c) (w : World) :
  ready w ->
  let id := idOf c x in
  exists w',
    saveTo c x w = (Normal tt, w') /\ ready w' /\
    (id ∈ ids c w -> ids c w' = ids c w) /\
    (id ∉ ids c w ->
     ids c w' =
     match c with
     | RecentAnalyses =>
         if (10 <=? List.length (ids c w))%nat then id :: removelast (ids c w)
         else id :: ids c w
     | _ => (ids c w ++ [id])%list
     end).
Proof.
  intros R id. subst id.
  destruct (saveTo_ready c x w R) as (w' & updated & added & Hrun & R' & Hup & Hadd & Hval).
  cbv zeta in Hval. apply unstamped_idOf in Hup, Hadd.
  exists w'. split; [exact Hrun|]. split; [exact R'|]. unfold ids. rewrite Hval. clear Hval.
  destruct (found_or_none (hasId c (idOf c x)) (stored c w)) as [Hnone|(i & old & Hfirst)].
  - unfold findIndex. rewrite (findIndexFrom_none _ _ 0 Hnone). change (0 <=? -1)%Z with false.
    cbv iota. split.
    + intros Hin. now apply hasId_none in Hin.
    + intros _. rewrite length_map.
      destruct c; rewrite ?map_app; cbn [List.map]; rewrite ?Hadd; try reflexivity.
      destruct (10 <=? _)%nat; cbn [List.map]; now rewrite ?Hadd, ?map_removelast.
  - unfold findIndex. rewrite (findIndexFrom_first _ _ 0 i old Hfirst).
    destruct (Z.leb_spec 0 (0 + Z.of_nat i)); [|lia].
    replace (Z.to_nat (0 + Z.of_nat i)) with i by lia.
    destruct Hfirst as (Hi & Hold & _). apply String.eqb_eq in Hold. split.
    + intros _. apply map_insert with old; [exact Hi | congruence].
    + intros Hout. exfalso. apply Hout. apply hasId_elem_of. exists old. split.
      * now apply list_elem_of_lookup_2 in Hi.
      * unfold hasId. rewrite Hold. apply String.eqb_refl.
Qed.

(** A deletion in a browser whose storage works returns, and leaves
    in the collection exactly the entities whose identifier is another, in
    their order: every entity with the identifier goes, not only the first.
    With no such entity the collection is as before. The clock is not read,
    and deleting once more changes nothing. *)
Theorem deletion_removes (c : collection) (id : string) (w : World) :
  ready w ->
  exists w',
    deleteFrom c id w = (Normal tt, w') /\
    (forall x, x ∈ stored c w' <-> x ∈ stored c w /\ idOf c x <> id) /\
    sublist (stored c w') (stored c w) /\
    (id ∉ ids c w -> stored c w' = stored c w) /\
    ticks w' = ticks w /\
    exists w'', deleteFrom c id w' = (Normal tt, w'') /\ stored c w'' = stored c w'.
Proof.
  intros R. destruct (deleteFrom_ready c id w R) as (w' & Hrun & R' & Hval & _ & Hticks).
  exists w'. split; [exact Hrun|]. rewrite Hval. split; [|split; [|split; [|split]]].
  - intros x. now rewrite filter_elem_of, hasId_false.
  - apply filter_sublist.
  - intros Hout. apply filter_all. intros x Hx.
    now rewrite (proj1 (hasId_none c id _) Hout x Hx).
  - exact Hticks.
  - destruct (deleteFrom_ready c id w' R') as (w'' & Hrun' & _ & Hval' & _).
    exists w''. split; [exact Hrun'|]. rewrite Hval', Hval. apply filter_all.
    intros x Hx. now apply filter_elem_of in Hx.
Qed.

Lemma deletion_removes_witness :
  stored SavedKeywords (browser stocked) = [keywordOf "k1" "2019-01-01T00:00:00.000Z"] /\
  exists w',
    deleteKeyword "k1" (browser stocked) = (Normal tt, w') /\ stored SavedKeywords w' = [].
Proof.
  split; [reflexivity|].
  destruct (deletion_removes SavedKeywords "k1" (browser stocked)) as (w' & Hrun & Hin & _).
  { now repeat split. }
  exists w'. split; [exact Hrun|].
  destruct (stored SavedKeywords w') as [|k l] eqn:Hl; [reflexivity|]. exfalso.
  destruct (proj1 (Hin k) ltac:(apply list_elem_of_here)) as (Hk & Hid).
  apply list_elem_of_singleton in Hk. now subst k.
Defined.

(** The identifiers of a collection stay pairwise distinct. In a
    browser whose storage works, a save of an identifier that is stored
    leaves the identifiers as they are, and a save of a new one adds it: at
    the end, or for the analyses in front, with the last one dropped once
    ten are stored. So a collection whose identifiers are pairwise distinct
    keeps them so under every save and every deletion; after a save the
    identifier is stored, after a deletion it is not. *)
Theorem identifiers_stay_distinct (c : collection) (w : World) :
  ready w ->
  (forall x : entity c,
     let id := idOf c x in
     exists w',
       saveTo c x w = (Normal tt, w') /\
       (id ∈ ids c w -> ids c w' = ids c w) /\
       (id ∉ ids c w ->
        ids c w' =
        match c with
        | RecentAnalyses =>
            if (10 <=? List.length (ids c w))%nat then id :: removelast (ids c w)
            else id :: ids c w
        | _ => (ids c w ++ [id])%list
        end) /\
       id ∈ ids c w' /\
       (NoDup (ids c w) -> NoDup (ids c w'))) /\
  (forall id : string,
     exists w',
       deleteFrom c id w = (Normal tt, w') /\
       (id ∉ ids c w') /\
       (NoDup (ids c w) -> NoDup (ids c w'))).
Proof.
  intros R. split.
  - intros x id. subst id.
    destruct (saveTo_ids c x w R) as (w' & Hrun & _ & Hin & Hout). cbv zeta in Hin, Hout.
    exists w'. split; [exact Hrun|]. split; [exact Hin|]. split; [exact Hout|].
    destruct (stored_or_new c (idOf c x) w) as [Hid|Hid].
    + rewrite (Hin Hid). split; [exact Hid | trivial].
    + rewrite (Hout Hid). clear Hin Hout.
      assert (Hlast : idOf c x ∉ removelast (ids c w)).
      { intros Hx. apply Hid. eapply elem_of_sublist; [exact Hx | apply removelast_sublist]. }
      assert (Hend : idOf c x ∈ (ids c w ++ [idOf c x])%list).
      { apply elem_of_app. right. apply list_elem_of_here. }
      assert (Happ : NoDup (ids c w) -> NoDup (ids c w ++ [idOf c x])%list).
      { intros Hnd. apply NoDup_app. split; [exact Hnd|]. split; [|apply NoDup_singleton].
        intros y Hy Hy'. apply list_elem_of_singleton in Hy'. now subst y. }
      destruct c; try (split; [exact Hend | exact Happ]).
      destruct (10 <=? _)%nat; (split; [apply list_elem_of_here|]); intros Hnd;
        apply NoDup_cons_2; try assumption.
      eapply sublist_NoDup; [exact Hnd | apply removelast_sublist].
  - intros id. destruct (deleteFrom_ready c id w R) as (w' & Hrun & _ & Hval & _).
    exists w'. split; [exact Hrun|]. unfold ids. rewrite Hval. split.
    + apply hasId_none. intros x Hx. apply filter_elem_of in Hx as (_ & Hx).
      now apply negb_true_iff in Hx.
    + intros Hnd. eapply sublist_NoDup; [exact Hnd|]. apply map_sublist, filter_sublist.
Qed.

Lemma identifiers_stay_distinct_witness :
  ids RecentAnalyses (browser stocked) = ["a1"] /\
  exists w',
    saveAnalysisResult (analysisOf "a2") (browser stocked) = (Normal tt, w') /\
    ids RecentAnalyses w' = ["a2"; "a1"].
Proof.
  split; [reflexivity|].
  destruct (identifiers_stay_distinct RecentAnalyses (browser stocked)) as (Hsave & _).
  { now repeat split. }
  destruct (Hsave (analysisOf "a2")) as (w' & Hrun & _ & Hout & _).
  exists w'. split; [exact Hrun|]. apply Hout.
  change (ids RecentAnalyses (browser stocked)) with ["a1"].
  intros Hin. apply list_elem_of_singleton in Hin. discriminate.
Defined.

(** A save and then a deletion of the saved identifier, in a browser
    whose storage works: both return, and the identifier is then not
    stored. The collection is what the deletion alone would have left: the
    collection as it was when the identifier was new. The one exception is
    the list of analyses once it holds ten: there the save of a new
    identifier has dropped the last analysis, which the deletion does not
    bring back. *)
Theorem save_then_delete (c : collection) (x : entity c) (w : World) :
  ready w ->
  let id := idOf c x in
  let full :=
    match c with
    | RecentAnalyses => (10 <=? List.length (stored c w))%nat
    | _ => false
    end in
  exists w1 w2,
    saveTo c x w = (Normal tt, w1) /\ deleteFrom c id w1 = (Normal tt, w2) /\
    (id ∉ ids c w2) /\
    (id ∈ ids c w ->
     stored c w2 = List.filter (fun y => negb (hasId c id y)) (stored c w)) /\
    (id ∉ ids c w ->
     stored c w2 = if full then removelast (stored c w) else stored c w).
Proof.
  intros R id full. subst id full.
  destruct (saveTo_ready c x w R) as (w1 & updated & added & Hrun & R1 & Hup & Hadd & Hval).
  cbv zeta in Hval. apply unstamped_idOf in Hup, Hadd.
  destruct (deleteFrom_ready c (idOf c x) w1 R1) as (w2 & Hrun2 & _ & Hval2 & _).
  exists w1, w2. split; [exact Hrun|]. split; [exact Hrun2|].
  assert (Hgone : forall y : entity c, idOf c y = idOf c x -> negb (hasId c (idOf c x) y) = false).
  { intros y Hy. unfold hasId. rewrite Hy, String.eqb_refl. reflexivity. }
  split.
  { unfold ids. rewrite Hval2. apply hasId_none. intros y Hy.
    apply filter_elem_of in Hy as (_ & Hy). now apply negb_true_iff in Hy. }
  rewrite Hval2, Hval. clear Hval Hval2.
  destruct (found_or_none (hasId c (idOf c x)) (stored c w)) as [Hnone|(i & old & Hfirst)].
  - unfold findIndex. rewrite (findIndexFrom_none _ _ 0 Hnone). change (0 <=? -1)%Z with false.
    cbv iota. split; [intros Hin; now apply hasId_none in Hin|]. intros _.
    assert (Hall : forall l : list (entity c),
               sublist l (stored c w) ->
               List.filter (fun y => negb (hasId c (idOf c x) y)) l = l).
    { intros l Hl. apply filter_all. intros y Hy. apply negb_true_iff, Hnone.
      eapply elem_of_sublist; [exact Hy | exact Hl]. }
    destruct c;
      try (rewrite List.filter_app, (Hall _ (reflexivity _)); cbn [List.filter];
           rewrite (Hgone _ Hadd); apply app_nil_r).
    destruct (10 <=? _)%nat; cbn [List.filter]; rewrite (Hgone _ Hadd).
    + apply Hall, removelast_sublist.
    + now apply Hall.
  - unfold findIndex. rewrite (findIndexFrom_first _ _ 0 i old Hfirst).
    destruct (Z.leb_spec 0 (0 + Z.of_nat i)); [|lia].
    replace (Z.to_nat (0 + Z.of_nat i)) with i by lia.
    destruct Hfirst as (Hi & Hold & _). split.
    + intros _. apply filter_insert with old; [exact Hi | now rewrite Hold | now apply Hgone].
    + intros Hout. exfalso. apply list_elem_of_lookup_2 in Hi.
      rewrite (proj1 (hasId_none c _ _) Hout old Hi) in Hold. discriminate.
Qed.

Lemma save_then_delete_witness :
  exists w1 w2,
    saveKeyword (keywordOf "k2" "") (browser stocked) = (Normal tt, w1) /\
    deleteKeyword "k2" w1 = (Normal tt, w2) /\
    stored SavedKeywords w2 = stored SavedKeywords (browser stocked).
Proof.
  destruct (save_then_delete SavedKeywords (keywordOf "k2" "") (browser stocked))
    as (w1 & w2 & Hsave & Hdelete & _ & _ & Hnew).
  { now repeat split. }
  exists w1, w2. split; [exact Hsave|]. split; [exact Hdelete|]. apply Hnew.
  change (ids SavedKeywords (browser stocked)) with ["k1"].
  intros Hin. apply list_elem_of_singleton in Hin. discriminate.
Defined.

(** *** What a write touches *)

Lemma sameBrowser_ticked (w w1 : World) : sameBrowser w w1 -> sameBrowser w (ticked w1).
Proof. intros (Hw & Hd & He & Hs). now repeat split. Qed.

Lemma setInStorage_touches {T} (key : Key T) (value : T) (w w1 : World) :
  sameBrowser w w1 ->
  exists c w',
    setInStorage key value w1 = (c, w') /\
    window w' = window w /\ denied w' = denied w /\ exhausted w' = exhausted w /\
    (storage w' = storage w \/ storage w' = write key (Json value) (storage w)).
Proof.
  intros (Hw & Hd & He & Hs). rewrite setInStorage_run.
  destruct (window w1) eqn:Ew, (denied w1) eqn:Ed, (exhausted w1) eqn:Ee; cbn [negb];
    eexists _, _; (split; [reflexivity|]);
    cbn [window denied exhausted storage logged storing];
    (split; [congruence|]); (split; [congruence|]); (split; [congruence|]); rewrite Hs; auto.
Qed.

(** No operation of the store touches the key of another: in every
    browser, each of the eight saves and the five deletions leaves the text
    under every key but its own as it is, whether it returns or throws, and
    leaves the browser otherwise as it is. *)
Theorem writes_only_its_key (o : operation) (w : World) :
  exists c w',
    run o w = (c, w') /\
    window w' = window w /\ denied w' = denied w /\ exhausted w' = exhausted w /\
    forall g : getter,
      writes o <> name (keyOf g) -> read (keyOf g) (storage w') = read (keyOf g) (storage w).
Proof.
  destruct o as [s|c id]; [destruct s | destruct c]; unfold run, save, deleteFrom, writes;
    unfold deleteProject, deleteAnalysisResult, deleteKeyword, deleteContent,
      deleteCompetitorAnalysis;
    until_write Hget; cbv zeta;
    match goal with
    | |- context [setInStorage ?k ?v ?w1] =>
        let H := fresh "H" in
        assert (H : sameBrowser w w1)
          by (repeat apply sameBrowser_ticked; first [exact Hget | apply sameBrowser_refl]);
        destruct (setInStorage_touches k v w w1 H) as (c' & w' & -> & Hw & Hd & He & Hs)
    end;
    exists c', w'; (split; [reflexivity|]); (split; [exact Hw|]); (split; [exact Hd|]);
    (split; [exact He|]); intros g Hne;
    (destruct Hs as [-> | ->]; [reflexivity|]);
    destruct g; try reflexivity; now elim Hne.
Qed.

(** *** A deletion when the storage fails *)

(** Without a window a deletion returns at once: nothing is read,
    stored or logged. In a browser whose storage refuses the write, a
    deletion logs the error of the write and throws it to its caller, with
    nothing stored. *)
Theorem deletion_errors (c : collection) (id : string) (w : World) :
  (window w = false -> deleteFrom c id w = (Normal tt, w)) /\
  (window w = true -> denied w = true \/ exhausted w = true ->
   exists e w',
     deleteFrom c id w = (Throw e, w') /\
     e = (if denied w then SecurityError else QuotaExceededError) /\
     storage w' = storage w /\
     last (console w') = Some ("Error saving " ++ name (keyAt c) ++ " to localStorage:", e)).
Proof.
  rewrite deleteFrom_run. unfold mbind, js_bind, bind. split.
  - intros Hw. rewrite getFromStorage_run, Hw. cbn [negb]. now rewrite setInStorage_run, Hw.
  - intros Hw Hfail.
    destruct (getFromStorage (keyAt c) [] w) as [r w1] eqn:Hrun.
    destruct (getFromStorage_returns _ _ _ _ _ Hrun) as (l & -> & Hget). cbv beta iota.
    pose proof (setInStorage_fails (keyAt c)
                  (List.filter (fun x => negb (hasId c id x)) l) w w1 Hget Hw Hfail) as Hset.
    cbv zeta in Hset. rewrite Hset.
    eexists _, _. split; [reflexivity|]. split; [reflexivity|].
    split; [apply Hget | apply last_snoc].
Qed.

(** *** A collection whose text does not parse *)

(** A collection whose stored text is no JSON is replaced, not
    repaired: in a browser whose storage works, the get inside a save or a
    deletion logs the [SyntaxError] and goes on with the empty collection,
    so a deletion stores the empty collection in place of the text and a
    save stores the one entity given. *)
Theorem unreadable_collection_is_replaced (c : collection) (w : World) :
  ready w -> read (keyAt c) (storage w) = Some Malformed ->
  let line := ("Error retrieving " ++ name (keyAt c) ++ " from localStorage:", SyntaxError) in
  (forall id, exists w',
     deleteFrom c id w = (Normal tt, w') /\
     read (keyAt c) (storage w') = Some (Json []) /\
     console w' = (console w ++ [line])%list) /\
  (forall x, exists w' x',
     saveTo c x w = (Normal tt, w') /\
     read (keyAt c) (storage w') = Some (Json [x']) /\
     unstamped c x' = unstamped c x /\
     console w' = (console w ++ [line])%list).
Proof.
  intros (Hw & Hd & He) Hread line. subst line. split.
  - intros id. rewrite deleteFrom_run. unfold mbind, js_bind, bind.
    rewrite getFromStorage_run, Hw, Hd, Hread. cbn [negb].
    rewrite setInStorage_run. cbn [window denied exhausted logged]. rewrite Hw, Hd, He.
    cbn [negb]. eexists. split; [reflexivity|]. cbn [storage storing logged console].
    split; [apply read_write | reflexivity].
  - intros x.
    destruct c; cbn [saveTo]; cbv [keyAt entity] in Hread;
      unfold saveProject, saveAnalysisResult, saveKeyword, saveContent, saveCompetitorAnalysis,
        getProjects, getRecentAnalyses, getSavedKeywords, getSavedContent,
        getCompetitorAnalyses, mbind, js_bind, bind, now;
      rewrite getFromStorage_run, Hw, Hd, Hread; cbn [negb findIndex findIndexFrom];
      change (0 <=? -1)%Z with false; cbn [List.length Nat.ltb Nat.leb app];
      rewrite setInStorage_run; cbn [window denied exhausted logged ticked];
      rewrite Hw, Hd, He; cbn [negb];
      eexists _, _; (split; [reflexivity|]); cbn [storage storing logged ticked console];
      (split; [reflexivity|]); split; reflexivity.
Qed.

Lemma unreadable_collection_is_replaced_witness :
  let items := mkItems (Some Malformed) None None None None None None None in
  exists w',
    deleteProject "p1" (browser items) = (Normal tt, w') /\
    projects (storage w') = Some (Json []).
Proof.
  intros items.
  destruct (unreadable_collection_is_replaced Projects (browser items)) as (Hdelete & _).
  { now repeat split. }
  { reflexivity. }
  destruct (Hdelete "p1") as (w' & Hrun & Hread & _). now exists w'.
Defined.

End StoreFacts.

(** ** The API modules: endpoints and credentials *)

Module ApiFacts.
Import JS Browser Storage StorageSpec Api StoreSpec JSFacts StorageFacts.
Local Open Scope string_scope.

Lemma truthy_iff (s : string) : truthy s = true <-> s <> "".
Proof. unfold truthy. rewrite negb_true_iff. apply String.eqb_neq. Qed.

Lemma orElse_given (v : option string) (fallback : string) :
  fallback <> "" -> orElse v fallback <> "".
Proof.
  intros Hf. destruct v as [s|]; cbn [orElse]; [|exact Hf].
  destruct (truthy s) eqn:Hs; [now apply truthy_iff | exact Hf].
Qed.

Lemma given_some (v : option string) :
  given v = true -> exists s, v = Some s /\ s <> "".
Proof.
  destruct v as [s|]; [|discriminate]. intros Hs. exists s. split; [reflexivity|].
  now apply truthy_iff.
Qed.

Lemma urlsOf_prefixed (endpoints : ApiEndpoints.t) :
  let urls := urlsOf endpoints in
  startsWith (SERP_API_URL urls) (API_BASE_URL urls) = true /\
  startsWith (ONPAGE_API_URL urls) (API_BASE_URL urls) = true /\
  startsWith (CONTENT_ANALYSIS_API_URL urls) (API_BASE_URL urls) = true /\
  startsWith (KEYWORD_API_URL urls) (API_BASE_URL urls) = true.
Proof. cbn. repeat split; apply startsWith_iff; eexists; reflexivity. Qed.

(** What [getCredentials] and [getApiEndpoints] return where the storage
    can be read, and where it cannot. *)
Lemma getFromStorage_reachable {T} (key : Key T) (defaultValue : T) (w : World) :
  exists w',
    getFromStorage key defaultValue w =
    (Normal (if reachable w then valueAt key defaultValue w else defaultValue), w') /\
    storage w' = storage w /\ (window w = false -> w' = w) /\
    (reachable w = true -> read key (storage w) <> Some Malformed -> w' = w).
Proof.
  rewrite getFromStorage_run. unfold reachable, valueAt.
  destruct (window w), (denied w); cbn [negb andb];
    try destruct (read key (storage w)) as [[| |v]|];
    eexists; (split; [reflexivity|]); (split; [reflexivity|]); split; intros; congruence.
Qed.

(** [getDataForSEOUrls] returns in every browser and never throws.
    Where the storage can be read it returns the URLs made of the stored
    endpoints, each the base URL followed by its path; without a window,
    or when the storage cannot be read, it returns the fallback, which is
    what the default endpoints make. So endpoints saved in a browser whose
    storage works are the ones the requests then use. *)
Theorem getDataForSEOUrls_spec (w : World) :
  urlsOf defaultApiEndpoints = fallbackUrls /\
  (exists urls w',
     getDataForSEOUrls w = (Normal urls, w') /\ storage w' = storage w /\
     urls = (if reachable w then urlsOf (valueAt API_ENDPOINTS defaultApiEndpoints w)
             else fallbackUrls) /\
     startsWith (SERP_API_URL urls) (API_BASE_URL urls) = true /\
     startsWith (ONPAGE_API_URL urls) (API_BASE_URL urls) = true /\
     startsWith (CONTENT_ANALYSIS_API_URL urls) (API_BASE_URL urls) = true /\
     startsWith (KEYWORD_API_URL urls) (API_BASE_URL urls) = true) /\
  (forall endpoints,
     ready w ->
     exists w1,
       saveApiEndpoints endpoints w = (Normal tt, w1) /\
       getDataForSEOUrls w1 = (Normal (urlsOf endpoints), w1)).
Proof.
  split; [reflexivity|].
  assert (Hrun : forall w : World,
             exists w',
               getDataForSEOUrls w =
               (Normal (urlsOf (if reachable w
                                then valueAt API_ENDPOINTS defaultApiEndpoints w
                                else defaultApiEndpoints)), w') /\
               storage w' = storage w /\
               (reachable w = true ->
                read API_ENDPOINTS (storage w) <> Some Malformed -> w' = w)).
  { clear w. intros w.
    unfold getDataForSEOUrls, mbind, js_bind, bind, try_catch, window_undefined, getApiEndpoints.
    destruct (getFromStorage_reachable API_ENDPOINTS defaultApiEndpoints w)
      as (w' & Hget & Hs & _ & Hsame).
    unfold reachable in *. destruct (window w); cbn [negb andb] in *.
    - rewrite Hget. exists w'. split; [reflexivity|]. split; [exact Hs | exact Hsame].
    - exists w. split; [reflexivity|]. split; [reflexivity | discriminate]. }
  split.
  - destruct (Hrun w) as (w' & Hget & Hs & _).
    eexists _, w'. split; [exact Hget|]. split; [exact Hs|]. split.
    + now destruct (reachable w).
    + apply urlsOf_prefixed.
  - intros endpoints R. unfold saveApiEndpoints.
    rewrite (setInStorage_ready _ _ w w R (sameBrowser_refl w)).
    eexists. split; [reflexivity|].
    destruct (Hrun (storing (write API_ENDPOINTS (Json endpoints) (storage w)) w))
      as (w' & Hget & _ & Hsame).
    destruct R as (Hw & Hd & _). unfold reachable in *. cbn [window denied storing] in *.
    rewrite Hw, Hd in *. cbn [negb andb] in *.
    rewrite Hsame in Hget; [exact Hget | reflexivity | discriminate].
Qed.

(** The lookup in the storage that [getAuth] and [getOpenAIConfig] fall
    back on. *)
Ltac from_storage w :=
  unfold mbind, js_bind, bind, try_catch, window_undefined, getCredentials;
  let w' := fresh "w'" in
  let Hget := fresh "Hget" in
  let Hs := fresh "Hs" in
  let Hsame := fresh "Hsame" in
  destruct (getFromStorage_reachable CREDENTIALS defaultCredentials w)
    as (w' & Hget & Hs & Hsame & _);
  unfold credentialsAt, reachable in *;
  destruct (window w); cbn [negb andb] in *;
  [ rewrite Hget; clear Hget;
    destruct (denied w); cbn [negb andb] in *
  | ].

(** [getAuth] takes the user name and the password from the
    environment when both are set there, without a look at the storage;
    otherwise from the stored credentials, when the storage can be read
    and holds both; otherwise it fails. The pair is never mixed from the
    two sources, and neither part of a pair it returns is empty. *)
Theorem getAuth_spec (env : Env) (w : World) :
  let fromEnv := given (DATAFORSEO_USERNAME env) && given (DATAFORSEO_PASSWORD env) in
  let stored :=
    mkAuth (Credentials.dataForSeo_username (credentialsAt w))
           (Credentials.dataForSeo_password (credentialsAt w)) in
  let fromStorage := reachable w && truthy (username stored) && truthy (password stored) in
  exists r w',
    getAuth env w = (Normal r, w') /\ storage w' = storage w /\
    (fromEnv = true ->
     w' = w /\
     exists u p,
       DATAFORSEO_USERNAME env = Some u /\ DATAFORSEO_PASSWORD env = Some p /\
       r = Returned (mkAuth u p)) /\
    (fromEnv = false -> fromStorage = true -> r = Returned stored) /\
    (fromEnv = false -> fromStorage = false ->
     r = Failed "DataForSEO API credentials not found in environment variables or storage") /\
    (forall auth, r = Returned auth -> username auth <> "" /\ password auth <> "").
Proof.
  intros fromEnv stored fromStorage. subst fromEnv stored fromStorage. unfold getAuth.
  cbn [username password].
  destruct (given (DATAFORSEO_USERNAME env) && given (DATAFORSEO_PASSWORD env)) eqn:Henv.
  - apply andb_true_iff in Henv as (Hu & Hp).
    apply given_some in Hu as (u & Hu & Hu'), Hp as (p & Hp & Hp'). rewrite Hu, Hp.
    eexists _, _. split; [reflexivity|]. split; [reflexivity|]. split; [|split; [|split]];
      try discriminate.
    + intros _. split; [reflexivity|]. now exists u, p.
    + intros auth Hauth. injection Hauth as <-. now split.
  - from_storage w.
    + eexists _, _. split; [reflexivity|]. split; [exact Hs|]. split; [discriminate|].
      split; [discriminate|]. split; [reflexivity | discriminate].
    + destruct (truthy (Credentials.dataForSeo_username _)) eqn:Hu;
        [destruct (truthy (Credentials.dataForSeo_password _)) eqn:Hp|];
        cbn [andb]; eexists _, _; (split; [reflexivity|]); (split; [exact Hs|]);
        (split; [discriminate|]); (split; [try discriminate; reflexivity|]);
        (split; [try discriminate; reflexivity|]); try discriminate.
      intros auth Hauth. injection Hauth as <-. cbn [username password].
      split; now apply truthy_iff.
    + eexists _, _. split; [reflexivity|]. split; [reflexivity|]. split; [discriminate|].
      split; [discriminate|]. split; [reflexivity | discriminate].
Qed.

(** [getOpenAIConfig] takes the key from the environment when it is
    set there, with the model and the base URL of the environment or their
    defaults, without a look at the storage; otherwise the key, the model
    and the base URL come from the stored credentials, when the storage can
    be read and holds a key, and the environment's model and base URL are
    not used; otherwise it fails. No field of a configuration it returns
    is empty. *)
Theorem getOpenAIConfig_spec (env : Env) (w : World) :
  let fromEnv := given (OPENAI_API_KEY env) in
  let stored := credentialsAt w in
  let fromStorage := reachable w && truthy (Credentials.openai_apiKey stored) in
  exists r w',
    getOpenAIConfig env w = (Normal r, w') /\ storage w' = storage w /\
    (fromEnv = true ->
     w' = w /\
     exists key,
       OPENAI_API_KEY env = Some key /\
       r = Returned (mkConfig key (orElse (OPENAI_MODEL env) "gpt-4")
                              (orElse (OPENAI_BASE_URL env) "https://api.openai.com/v1"))) /\
    (fromEnv = false -> fromStorage = true ->
     r = Returned (mkConfig (Credentials.openai_apiKey stored)
                            (orElse (Some (Credentials.openai_model stored)) "gpt-4")
                            (orElse (Some (Credentials.openai_baseUrl stored))
                                    "https://api.openai.com/v1"))) /\
    (fromEnv = false -> fromStorage = false ->
     r = Failed "OpenAI API key not found in environment variables or storage") /\
    (forall config,
       r = Returned config -> apiKey config <> "" /\ model config <> "" /\ baseUrl config <> "").
Proof.
  intros fromEnv stored fromStorage. subst fromEnv stored fromStorage. unfold getOpenAIConfig.
  destruct (given (OPENAI_API_KEY env)) eqn:Henv.
  - apply given_some in Henv as (key & Hkey & Hkey'). rewrite Hkey.
    eexists _, _. split; [reflexivity|]. split; [reflexivity|]. split; [|split; [|split]];
      try discriminate.
    + intros _. split; [reflexivity|]. now exists key.
    + intros config Hconfig. injection Hconfig as <-. cbn [apiKey model baseUrl default].
      split; [exact Hkey'|]. split; now apply orElse_given.
  - from_storage w.
    + eexists _, _. split; [reflexivity|]. split; [exact Hs|]. split; [discriminate|].
      split; [discriminate|]. split; [reflexivity | discriminate].
    + destruct (truthy (Credentials.openai_apiKey _)) eqn:Hkey;
        eexists _, _; (split; [reflexivity|]); (split; [exact Hs|]);
        (split; [discriminate|]); (split; [try discriminate; reflexivity|]);
        (split; [try discriminate; reflexivity|]); try discriminate.
      intros config Hconfig. injection Hconfig as <-. cbn [apiKey model baseUrl].
      split; [now apply truthy_iff|].
      split; [now apply (orElse_given (Some _) "gpt-4")
             | now apply (orElse_given (Some _) "https://api.openai.com/v1")].
    + eexists _, _. split; [reflexivity|]. split; [reflexivity|]. split; [discriminate|].
      split; [discriminate|]. split; [reflexivity | discriminate].
Qed.

(** What is saved is what is read: in a browser whose storage works,
    the credentials, the endpoints and the settings that were saved are the
    ones their get returns, the last save winning; and with nothing in the
    environment, [getAuth] and [getOpenAIConfig] return the saved
    credentials when these hold a user name and a password, or a key. *)
Theorem configuration_round_trip (w : World) :
  ready w ->
  (forall earlier credentials, exists w1 w2,
     saveCredentials earlier w = (Normal tt, w1) /\
     saveCredentials credentials w1 = (Normal tt, w2) /\
     getCredentials w2 = (Normal credentials, w2) /\
     (Credentials.dataForSeo_username credentials <> "" ->
      Credentials.dataForSeo_password credentials <> "" ->
      getAuth noEnv w2 =
      (Normal (Returned (mkAuth (Credentials.dataForSeo_username credentials)
                                (Credentials.dataForSeo_password credentials))), w2)) /\
     (Credentials.openai_apiKey credentials <> "" ->
      getOpenAIConfig noEnv w2 =
      (Normal (Returned (mkConfig (Credentials.openai_apiKey credentials)
                                  (orElse (Some (Credentials.openai_model credentials)) "gpt-4")
                                  (orElse (Some (Credentials.openai_baseUrl credentials))
                                          "https://api.openai.com/v1"))), w2))) /\
  (forall earlier endpoints, exists w1 w2,
     saveApiEndpoints earlier w = (Normal tt, w1) /\
     saveApiEndpoints endpoints w1 = (Normal tt, w2) /\
     getApiEndpoints w2 = (Normal endpoints, w2)) /\
  (forall earlier settings, exists w1 w2,
     saveUserSettings earlier w = (Normal tt, w1) /\
     saveUserSettings settings w1 = (Normal tt, w2) /\
     getUserSettings w2 = (Normal settings, w2)).
Proof.
  intros R. pose proof R as (Hw & Hd & He).
  assert (Hsave : forall T (key : Key T) (v : T) (w1 : World),
             ready w1 ->
             setInStorage key v w1 = (Normal tt, storing (write key (Json v) (storage w1)) w1) /\
             ready (storing (write key (Json v) (storage w1)) w1)).
  { intros T key v w1 R1. split.
    - apply (setInStorage_ready key v w1 w1 R1 (sameBrowser_refl w1)).
    - apply (ready_storing _ w1 w1 R1 (sameBrowser_refl w1)). }
  split; [|split].
  - intros earlier credentials. unfold saveCredentials.
    destruct (Hsave _ CREDENTIALS earlier w R) as (Hrun1 & R1).
    destruct (Hsave _ CREDENTIALS credentials _ R1) as (Hrun2 & (Hw2 & Hd2 & _)).
    eexists _, _. split; [exact Hrun1|]. split; [exact Hrun2|].
    set (w2 := storing _ (storing _ w)) in *.
    assert (Hget : getFromStorage CREDENTIALS defaultCredentials w2 = (Normal credentials, w2)).
    { now rewrite getFromStorage_run, Hw2, Hd2. }
    split; [exact Hget|]. split.
    + intros Hu Hp. apply truthy_iff in Hu, Hp.
      unfold getAuth, noEnv, mbind, js_bind, bind, try_catch, window_undefined, getCredentials.
      cbn [DATAFORSEO_USERNAME DATAFORSEO_PASSWORD given andb]. rewrite Hw2. cbn [negb].
      rewrite Hget. cbv beta iota. now rewrite Hu, Hp.
    + intros Hkey. apply truthy_iff in Hkey.
      unfold getOpenAIConfig, noEnv, mbind, js_bind, bind, try_catch, window_undefined,
        getCredentials.
      cbn [OPENAI_API_KEY given]. rewrite Hw2. cbn [negb].
      rewrite Hget. cbv beta iota. now rewrite Hkey.
  - intros earlier endpoints. unfold saveApiEndpoints, getApiEndpoints.
    destruct (Hsave _ API_ENDPOINTS earlier w R) as (Hrun1 & R1).
    destruct (Hsave _ API_ENDPOINTS endpoints _ R1) as (Hrun2 & (Hw2 & Hd2 & _)).
    eexists _, _. split; [exact Hrun1|]. split; [exact Hrun2|].
    now rewrite getFromStorage_run, Hw2, Hd2.
  - intros earlier settings. unfold saveUserSettings, getUserSettings.
    destruct (Hsave _ SETTINGS earlier w R) as (Hrun1 & R1).
    destruct (Hsave _ SETTINGS settings _ R1) as (Hrun2 & (Hw2 & Hd2 & _)).
    eexists _, _. split; [exact Hrun1|]. split; [exact Hrun2|].
    now rewrite getFromStorage_run, Hw2, Hd2.
Qed.

Lemma configuration_round_trip_witness :
  let credentials := Credentials.mk "user" "secret" "" "" "" in
  exists w1 w2,
    saveCredentials defaultCredentials (browser Storage.empty) = (Normal tt, w1) /\
    saveCredentials credentials w1 = (Normal tt, w2) /\
    getAuth noEnv w2 = (Normal (Returned (mkAuth "user" "secret")), w2).
Proof.
  intros credentials.
  destruct (configuration_round_trip (browser Storage.empty)) as (Hcredentials & _).
  { now repeat split. }
  destruct (Hcredentials defaultCredentials credentials) as (w1 & w2 & H1 & H2 & _ & Hauth & _).
  exists w1, w2. split; [exact H1|]. split; [exact H2|]. now apply Hauth.
Defined.

End ApiFacts.
